(** * km_compat: the KeyMint-on-Keymaster compatibility layer

    A shallow embedding of [keystore2/src/km_compat/km_compat.cpp] and the
    properties of its slot pool, operation sessions, parameter selection,
    certificate synthesis and backend discovery.

    Conventions.
    - C++ integers are [Z]; the wrap-around of a narrow type and of a
      conversion between signed and unsigned is written out ([uint8],
      [to_uint64], [to_uint32], [to_int64], [to_int32]).
    - A HIDL call that reports through a callback is a [HidlReturn]: the
      callback runs only when the transport delivered the call.
    - The object a method runs on and the calls that reached the backend are
      threaded through the state monad [M].
    - Functions of other translation units are fields of [Externals]; the
      backend behind [sp<Keymaster>] is a record of answers, each a function
      of the calls made before and of the arguments. *)

From Stdlib Require Import ZArith Lia.
From Stdlib.Strings Require Import Byte.
From stdpp Require Import base option list gmap strings.

Local Open Scope Z_scope.

(** ** Scalars and enumerations of the two HAL schemas *)

Definition bytes := list byte.

(** [V4_0::ErrorCode] is an [int32_t] enumeration; the layer casts it to
    [int32_t] and back, so it is kept numeric.  The enumerators used by the
    file, with the values of the Keymaster 4.0 HAL. *)
Definition V4_0_ErrorCode := Z.

Module ErrorCode.
Definition OK : V4_0_ErrorCode := 0.
Definition TOO_MANY_OPERATIONS : V4_0_ErrorCode := -31.
Definition INVALID_KEY_BLOB : V4_0_ErrorCode := -33.
Definition UNIMPLEMENTED : V4_0_ErrorCode := -100.
Definition UNKNOWN_ERROR : V4_0_ErrorCode := -1000.
End ErrorCode.

(** [keystore2::ResponseCode], the code space of the client-facing API. *)
Module ResponseCode.
Definition SYSTEM_ERROR : Z := 4.
End ResponseCode.

(** [STATUS_NAME_NOT_FOUND] of the binder status codes. *)
Definition STATUS_NAME_NOT_FOUND : Z := -2.

(** [ndk::ScopedAStatus], as far as the file builds and inspects it. *)
Inductive ScopedAStatus :=
| StatusOk
| ServiceSpecificError (code : Z)
| TransactionStatus (status : Z).

Definition fromServiceSpecificError (code : Z) : ScopedAStatus :=
  ServiceSpecificError code.
Definition fromStatus (status : Z) : ScopedAStatus := TransactionStatus status.
Definition isOk (s : ScopedAStatus) : bool :=
  match s with StatusOk => true | _ => false end.
Definition getServiceSpecificError (s : ScopedAStatus) : Z :=
  match s with ServiceSpecificError c => c | _ => 0 end.

(** Converts a V4 error code into a ScopedAStatus. *)
Definition convertErrorCode (result : V4_0_ErrorCode) : ScopedAStatus :=
  if result =? ErrorCode.OK then StatusOk
  else fromServiceSpecificError result.

(** The outcome of a HIDL transaction: [isOk()] with what the callback
    received, or a transport failure (the callback never ran). *)
Inductive HidlReturn (A : Type) :=
| TransportOk (reply : A)
| TransportError.
Arguments TransportOk {A} reply.
Arguments TransportError {A}.

Inductive Algorithm := RSA | EC | AES | TRIPLE_DES | HMAC.
Inductive PaddingMode :=
| PaddingMode_NONE | RSA_OAEP | RSA_PSS | RSA_PKCS1_1_5_ENCRYPT
| RSA_PKCS1_1_5_SIGN | PKCS7.
Inductive Digest :=
| Digest_NONE | MD5 | SHA1 | SHA_2_224 | SHA_2_256 | SHA_2_384 | SHA_2_512.
Inductive KeyPurpose := ENCRYPT | DECRYPT | SIGN | VERIFY | WRAP_KEY.
Inductive KeyFormat := X509_format | PKCS8 | RAW.

#[global] Instance Algorithm_eq_dec : EqDecision Algorithm.
Proof. solve_decision. Defined.
#[global] Instance PaddingMode_eq_dec : EqDecision PaddingMode.
Proof. solve_decision. Defined.
#[global] Instance Digest_eq_dec : EqDecision Digest.
Proof. solve_decision. Defined.
#[global] Instance KeyPurpose_eq_dec : EqDecision KeyPurpose.
Proof. solve_decision. Defined.

(** [SecurityLevel] and [KeyMintSecurityLevel] share their numbering (the
    [static_assert] of [Devices::operator[]]); both are [uint32_t]-valued. *)
Module SecurityLevel.
Definition SOFTWARE : Z := 0.
Definition TRUSTED_ENVIRONMENT : Z := 1.
Definition STRONGBOX : Z := 2.
End SecurityLevel.

(** ** Key parameters *)

(** A KeyMint [KeyParameter]: a tag with its typed value.  The tags the file
    reads have a constructor each, every other tag is [KP_OTHER]. *)
Inductive KeyParameter :=
| KP_ALGORITHM (v : Algorithm)
| KP_PADDING (v : PaddingMode)
| KP_DIGEST (v : Digest)
| KP_PURPOSE (v : KeyPurpose)
| KP_ACTIVE_DATETIME (v : Z)
| KP_USAGE_EXPIRE_DATETIME (v : Z)
| KP_APPLICATION_ID (v : bytes)
| KP_APPLICATION_DATA (v : bytes)
| KP_ATTESTATION_CHALLENGE (v : bytes)
| KP_NO_AUTH_REQUIRED (v : bool)
| KP_OTHER (tag : Z) (v : bytes).

(** [KMV1::TypedTag<type, tag>]: a tag together with the typed read
    [authorizationValue(ttag, param)], which is empty unless the parameter
    carries that tag. *)
Record TypedTag (T : Type) := { authorizationValue : KeyParameter → option T }.
Arguments authorizationValue {T} _ _.

Definition TAG_ALGORITHM : TypedTag Algorithm :=
  {| authorizationValue p := match p with KP_ALGORITHM v => Some v | _ => None end |}.
Definition TAG_PADDING : TypedTag PaddingMode :=
  {| authorizationValue p := match p with KP_PADDING v => Some v | _ => None end |}.
Definition TAG_DIGEST : TypedTag Digest :=
  {| authorizationValue p := match p with KP_DIGEST v => Some v | _ => None end |}.
Definition TAG_PURPOSE : TypedTag KeyPurpose :=
  {| authorizationValue p := match p with KP_PURPOSE v => Some v | _ => None end |}.
Definition TAG_ACTIVE_DATETIME : TypedTag Z :=
  {| authorizationValue p := match p with KP_ACTIVE_DATETIME v => Some v | _ => None end |}.
Definition TAG_USAGE_EXPIRE_DATETIME : TypedTag Z :=
  {| authorizationValue p :=
       match p with KP_USAGE_EXPIRE_DATETIME v => Some v | _ => None end |}.
Definition TAG_APPLICATION_ID : TypedTag bytes :=
  {| authorizationValue p := match p with KP_APPLICATION_ID v => Some v | _ => None end |}.
Definition TAG_APPLICATION_DATA : TypedTag bytes :=
  {| authorizationValue p :=
       match p with KP_APPLICATION_DATA v => Some v | _ => None end |}.
Definition TAG_ATTESTATION_CHALLENGE : TypedTag bytes :=
  {| authorizationValue p :=
       match p with KP_ATTESTATION_CHALLENGE v => Some v | _ => None end |}.
Definition TAG_NO_AUTH_REQUIRED : TypedTag bool :=
  {| authorizationValue p :=
       match p with KP_NO_AUTH_REQUIRED v => Some v | _ => None end |}.

Definition makeKeyParameter_PADDING (v : PaddingMode) : KeyParameter := KP_PADDING v.
Definition makeKeyParameter_DIGEST (v : Digest) : KeyParameter := KP_DIGEST v.

(** [getParam]: the value of the first parameter, in iteration order, that
    carries the tag. *)
Fixpoint getParam {T} (keyParams : list KeyParameter) (ttag : TypedTag T) : option T :=
  match keyParams with
  | [] => None
  | p :: rest =>
      match authorizationValue ttag p with
      | Some v => Some v
      | None => getParam rest ttag
      end
  end.

Definition containsParam {T} (keyParams : list KeyParameter) (ttag : TypedTag T) : bool :=
  bool_decide (is_Some (getParam keyParams ttag)).

Section Selection.
Context {T : Type} `{EqDecision T}.

  (** [std::find(begin, end, v)] as a position: the index of the first
      element equal to [v], the length of the list ([end()]) when there is
      none. *)
Fixpoint std_find (l : list T) (v : T) : nat :=
    match l with
    | [] => 0%nat
    | x :: rest => if decide (x = v) then 0%nat else S (std_find rest v)
    end.

  (** [std::distance(first, last)] on random-access iterators: [last - first],
      negative when [last] is before [first]. *)
Definition std_distance (first last : nat) : Z := Z.of_nat last - Z.of_nat first.

  (** One turn of the loop of [getMaximum]. *)
Definition getMaximum_step (tag : TypedTag T) (sortedOptions : list T)
      (bestSoFar : nat) (kp : KeyParameter) : nat :=
    match authorizationValue tag kp with
    | Some value =>
        let it := std_find sortedOptions value in
        if std_distance it bestSoFar <? 0 then it else bestSoFar
    | None => bestSoFar
    end.

  (** [getMaximum].  [sortedOptions[0]] of an empty vector is out of bounds:
      the function has no result there. *)
Definition getMaximum (keyParams : list KeyParameter) (tag : TypedTag T)
      (sortedOptions : list T) : option T :=
    let bestSoFar :=
      fold_left (getMaximum_step tag sortedOptions) keyParams (length sortedOptions) in
    if decide (bestSoFar = length sortedOptions) then sortedOptions !! 0%nat
    else sortedOptions !! bestSoFar.

  (** The selection rule [best_of] in the words of the specification: of the
      values carried by the parameters that match the tag, the one that
      occurs earliest in the preference list; the most-preferred value when
      no parameter value is in the list. *)
Definition best_of_spec (keyParams : list KeyParameter) (tag : TypedTag T)
      (preference : list T) : option T :=
    let offered := omap (authorizationValue tag) keyParams in
    match filter (λ o, o ∈ offered) preference with
    | best :: _ => Some best
    | [] => preference !! 0%nat
    end.
End Selection.

(** ** Data carried across the two interfaces *)

(** [V4_0::KeyParameter], produced and consumed only by the converters of
    [km_compat_type_conversion.h]. *)
Record V4_0_KeyParameter := { legacy_tag : Z; legacy_value : Z; legacy_blob : bytes }.

Record V4_0_KeyCharacteristics := {
  softwareEnforced : list V4_0_KeyParameter;
  hardwareEnforced : list V4_0_KeyParameter }.

Record HardwareAuthToken := {
  at_challenge : Z; at_userId : Z; at_authenticatorId : Z;
  at_authenticatorType : Z; at_timestamp_milliSeconds : Z; at_mac : bytes }.

Record V4_0_HardwareAuthToken := {
  legacyAt_challenge : Z; legacyAt_userId : Z; legacyAt_authenticatorId : Z;
  legacyAt_authenticatorType : Z; legacyAt_timestamp : Z; legacyAt_mac : bytes }.

Record VerificationToken := {
  vt_challenge : Z; vt_timestamp_milliSeconds : Z; vt_securityLevel : Z; vt_mac : bytes }.

Record V4_0_VerificationToken := {
  legacyVt_challenge : Z; legacyVt_timestamp : Z; legacyVt_securityLevel : Z;
  legacyVt_mac : bytes }.

(** A value-initialised AIDL parcelable, as in [HardwareAuthToken()]. *)
Definition HardwareAuthToken_default : HardwareAuthToken :=
  {| at_challenge := 0; at_userId := 0; at_authenticatorId := 0;
     at_authenticatorType := 0; at_timestamp_milliSeconds := 0; at_mac := [] |}.
Definition VerificationToken_default : VerificationToken :=
  {| vt_challenge := 0; vt_timestamp_milliSeconds := 0; vt_securityLevel := 0; vt_mac := [] |}.

(** [securityLevel] is absent while the facade has not learnt its level
    (the member [securityLevel_] is written by [getHardwareInfo] only). *)
Record KeyCharacteristics := {
  kc_securityLevel : option Z;
  kc_authorizations : list KeyParameter }.

Record Certificate := { encodedCertificate : bytes }.

Record KeyCreationResult := {
  keyBlob : bytes;
  keyCharacteristics : list KeyCharacteristics;
  certificateChain : list Certificate }.

Definition KeyCreationResult_default : KeyCreationResult :=
  {| keyBlob := []; keyCharacteristics := []; certificateChain := [] |}.

Record KeyMintHardwareInfo := {
  hi_securityLevel : option Z; keyMintName : string; keyMintAuthorName : string }.

Definition to_int32 (z : Z) : Z := (z + 2 ^ 31) mod 2 ^ 32 - 2 ^ 31.
Definition to_int64 (z : Z) : Z := (z + 2 ^ 63) mod 2 ^ 64 - 2 ^ 63.
Definition to_uint64 (z : Z) : Z := z mod 2 ^ 64.
Definition to_uint32 (z : Z) : Z := z mod 2 ^ 32.
Definition uint8 (z : Z) : Z := z mod 2 ^ 8.
Definition UINT64_MAX : Z := 2 ^ 64 - 1.

(** The AIDL tokens hold [int64_t] fields and [int32_t]-backed enumerations,
    the legacy tokens [uint64_t] fields and [uint32_t]-backed enumerations:
    each assignment and each [static_cast] converts modulo the width of its
    target, so that a challenge of -1 reaches the backend as 2^64 - 1. *)
Definition convertAuthTokenToLegacy (a : HardwareAuthToken) : V4_0_HardwareAuthToken :=
  {| legacyAt_challenge := to_uint64 (at_challenge a);
     legacyAt_userId := to_uint64 (at_userId a);
     legacyAt_authenticatorId := to_uint64 (at_authenticatorId a);
     legacyAt_authenticatorType := to_uint32 (at_authenticatorType a);
     legacyAt_timestamp := to_uint64 (at_timestamp_milliSeconds a);
     legacyAt_mac := at_mac a |}.

Definition convertVerificationTokenToLegacy (vt : VerificationToken)
    : V4_0_VerificationToken :=
  {| legacyVt_challenge := to_uint64 (vt_challenge vt);
     legacyVt_timestamp := to_uint64 (vt_timestamp_milliSeconds vt);
     legacyVt_securityLevel := to_uint32 (vt_securityLevel vt);
     legacyVt_mac := vt_mac vt |}.

(** ** The backend *)

(** What reached the backend, in order. *)
Inductive BackendCall :=
| Call_getHardwareInfo
| Call_addRngEntropy (data : bytes)
| Call_generateKey (keyParams : list V4_0_KeyParameter)
| Call_importKey (keyParams : list V4_0_KeyParameter) (format : KeyFormat) (keyData : bytes)
| Call_importWrappedKey (wrappedKeyData wrappingKeyBlob maskingKey : bytes)
    (unwrappingParams : list V4_0_KeyParameter) (passwordSid biometricSid : Z)
| Call_upgradeKey (keyBlobToUpgrade : bytes) (upgradeParams : list V4_0_KeyParameter)
| Call_deleteKey (blob : bytes)
| Call_deleteAllKeys
| Call_exportKey (format : KeyFormat) (blob clientId appData : bytes)
| Call_attestKey (blob : bytes) (attestParams : list V4_0_KeyParameter)
| Call_begin (purpose : KeyPurpose) (blob : bytes) (inParams : list V4_0_KeyParameter)
    (authToken : V4_0_HardwareAuthToken)
| Call_update (operationHandle : Z) (inParams : list V4_0_KeyParameter) (input : bytes)
    (authToken : V4_0_HardwareAuthToken) (verificationToken : V4_0_VerificationToken)
| Call_finish (operationHandle : Z) (inParams : list V4_0_KeyParameter)
    (input signature : bytes)
    (authToken : V4_0_HardwareAuthToken) (verificationToken : V4_0_VerificationToken)
| Call_abort (operationHandle : Z).

Definition History := list BackendCall.

(** [sp<Keymaster>]: one legacy backend instance.  An answer depends on the
    calls the instance received before and on the arguments of the call.
    The methods the file converts to an error code without asking [isOk()]
    ([addRngEntropy], [deleteKey], [deleteAllKeys], [abort]) answer with the
    code. *)
Record Keymaster := {
  halVersion_securityLevel : Z;
  km_getHardwareInfo : History → HidlReturn (Z * string * string);
  km_addRngEntropy : History → bytes → V4_0_ErrorCode;
  km_generateKey : History → list V4_0_KeyParameter →
    HidlReturn (V4_0_ErrorCode * bytes * V4_0_KeyCharacteristics);
  km_importKey : History → list V4_0_KeyParameter → KeyFormat → bytes →
    HidlReturn (V4_0_ErrorCode * bytes * V4_0_KeyCharacteristics);
  km_importWrappedKey : History → bytes → bytes → bytes → list V4_0_KeyParameter →
    Z → Z → HidlReturn (V4_0_ErrorCode * bytes * V4_0_KeyCharacteristics);
  km_upgradeKey : History → bytes → list V4_0_KeyParameter →
    HidlReturn (V4_0_ErrorCode * bytes);
  km_deleteKey : History → bytes → V4_0_ErrorCode;
  km_deleteAllKeys : History → V4_0_ErrorCode;
  km_exportKey : History → KeyFormat → bytes → bytes → bytes →
    HidlReturn (V4_0_ErrorCode * bytes);
  km_attestKey : History → bytes → list V4_0_KeyParameter →
    HidlReturn (V4_0_ErrorCode * list bytes);
  km_begin : History → KeyPurpose → bytes → list V4_0_KeyParameter →
    V4_0_HardwareAuthToken → HidlReturn (V4_0_ErrorCode * list V4_0_KeyParameter * Z);
  km_update : History → Z → list V4_0_KeyParameter → bytes →
    V4_0_HardwareAuthToken → V4_0_VerificationToken →
    HidlReturn (V4_0_ErrorCode * Z * list V4_0_KeyParameter * bytes);
  km_finish : History → Z → list V4_0_KeyParameter → bytes → bytes →
    V4_0_HardwareAuthToken → V4_0_VerificationToken →
    HidlReturn (V4_0_ErrorCode * list V4_0_KeyParameter * bytes);
  km_abort : History → Z → V4_0_ErrorCode }.

(** ** The slot pool *)

(** [OperationSlots]: the counter has the width of the argument of
    [setNumFreeSlots], [uint8_t]; the mutex makes each method one step. *)
Record OperationSlots := { mNumFreeSlots : Z }.

Module OperationSlots.
Definition setNumFreeSlots (numFreeSlots : Z) : OperationSlots :=
  {| mNumFreeSlots := uint8 numFreeSlots |}.

Definition claimSlot (self : OperationSlots) : bool * OperationSlots :=
  if 0 <? mNumFreeSlots self
  then (true, {| mNumFreeSlots := uint8 (mNumFreeSlots self - 1) |})
  else (false, self).

Definition freeSlot (self : OperationSlots) : OperationSlots :=
  {| mNumFreeSlots := uint8 (mNumFreeSlots self + 1) |}.
End OperationSlots.

(** ** The facade object and the state monad *)

Record KeyMintDevice := {
  mDevice : Keymaster;
  mOperationSlots : OperationSlots;
  securityLevel_ : option Z }.

(** The facade a method runs on, and the calls its backend has received. *)
Record World := { this : KeyMintDevice; calls : History }.

Definition M (A : Type) : Type := World → A * World.

#[global] Instance M_ret : MRet M := λ A a w, (a, w).
#[global] Instance M_bind : MBind M :=
  λ A B f m w, let '(a, w') := m w in f a w'.

(** A call on [mDevice]: the backend answers from its history, and the call
    is appended to it. *)
Definition backend {A} (c : BackendCall) (answer : Keymaster → History → A) : M A :=
  λ w, (answer (mDevice (this w)) (calls w),
        {| this := this w; calls := calls w ++ [c] |}).

Definition on_slots {A} (f : OperationSlots → A * OperationSlots) : M A :=
  λ w, let '(a, s) := f (mOperationSlots (this w)) in
       (a, {| this := {| mDevice := mDevice (this w);
                         mOperationSlots := s;
                         securityLevel_ := securityLevel_ (this w) |};
              calls := calls w |}).

Definition mOperationSlots_claimSlot : M bool := on_slots OperationSlots.claimSlot.
Definition mOperationSlots_freeSlot : M unit :=
  on_slots (λ s, (tt, OperationSlots.freeSlot s)).

Definition get_securityLevel_ : M (option Z) := λ w, (securityLevel_ (this w), w).
Definition set_securityLevel_ (l : Z) : M unit :=
  λ w, (tt, {| this := {| mDevice := mDevice (this w);
                          mOperationSlots := mOperationSlots (this w);
                          securityLevel_ := Some l |};
               calls := calls w |}).

(** ** An operation slot and an operation session *)

(** [OperationSlot]: [mOperationSlots] points at the pool of the facade, the
    one in [World]. *)
Record OperationSlot := { mIsActive : bool }.

Module OperationSlot.
Definition freeSlot (self : OperationSlot) : M OperationSlot :=
  if mIsActive self
  then _ ← mOperationSlots_freeSlot; mret {| mIsActive := false |}
  else mret self.

Definition hasSlot (self : OperationSlot) : bool := mIsActive self.
End OperationSlot.

(** [KeyMintOperation]: its [mDevice] is the backend of the facade that
    made it. *)
Record KeyMintOperation := {
  mOperationHandle : Z;
  mOperationSlot : OperationSlot }.

Record BeginResult := {
  challenge : Z;
  params : list KeyParameter;
  operation : option KeyMintOperation }.

Definition BeginResult_default : BeginResult :=
  {| challenge := 0; params := []; operation := None |}.

(** ** Functions of other translation units *)

(** Handles of the certificate library; the layer only passes them on. *)
Record X509_Ptr := { x509_object : bytes }.
Record EVP_PKEY := { pkey_object : bytes }.
Definition CertUtilsError := Z.

Module keystore.
Inductive Algo := ECDSA | RSA.
Inductive Padding := Ignored | PKCS1_5 | PSS.
Inductive Digest := SHA1 | SHA224 | SHA256 | SHA384 | SHA512.
End keystore.

(** The parameter translators of [km_compat_type_conversion.h], the
    certificate utilities of [certificate_utils.h] and BoringSSL, each taken
    as it is declared.  A certificate is updated in place by [setIssuer],
    [signCert] and [signCertWith]: they return the updated handle next to
    their error.  [signCertWith] is given by its two halves, before and
    after it asks its callback for the signature (see [signCertWith]).  The
    [indeterminate_] fields are the values of the locals the source reads
    without having written them. *)
Record Externals := {
  convertKeyParameterToLegacy : KeyParameter → V4_0_KeyParameter;
  convertKeyParameterFromLegacy : V4_0_KeyParameter → KeyParameter;
  EVP_parse_public_key : bytes → EVP_PKEY;
  keystore_makeCert : EVP_PKEY → Z → string → Z → Z → bool → X509_Ptr + CertUtilsError;
  keystore_setIssuer : X509_Ptr → X509_Ptr → bool → X509_Ptr * option CertUtilsError;
  keystore_signCert : X509_Ptr → EVP_PKEY → X509_Ptr * option CertUtilsError;
  keystore_encodeCert : X509_Ptr → bytes + CertUtilsError;
  signCertWith_tbs : X509_Ptr → keystore.Algo → keystore.Padding → keystore.Digest →
    (X509_Ptr * bytes) + CertUtilsError;
  signCertWith_signature : X509_Ptr → bytes → X509_Ptr * option CertUtilsError;
  EVP_PKEY_keygen : EVP_PKEY;
  indeterminate_status : Z;
  indeterminate_algorithm : Algorithm;
  indeterminate_authToken : V4_0_HardwareAuthToken;
  indeterminate_verificationToken : V4_0_VerificationToken }.

(** Modelled from the spec: [keystore::signCertWith] of certificate_utils,
    which is not part of the sources at hand.  It drives one signature over
    the to-be-signed certificate body: it derives that body (or fails), asks
    the callback once for the signature, and stores the signature (or fails).
    [S] is what the callback captures by reference. *)
Definition signCertWith {S} (E : Externals) (cert : X509_Ptr)
    (sign : bytes → S → M (bytes * S)) (captured : S)
    (algo : keystore.Algo) (padding : keystore.Padding) (digest : keystore.Digest)
    : M (X509_Ptr * option CertUtilsError * S) :=
  match signCertWith_tbs E cert algo padding digest with
  | inr e => mret (cert, Some e, captured)
  | inl (cert1, tbs) =>
      '(signature, captured1) ← sign tbs captured;
      let '(cert2, error) := signCertWith_signature E cert1 signature in
      mret (cert2, error, captured1)
  end.

Definition convertKeyParametersToLegacy (E : Externals) (kps : list KeyParameter)
    : list V4_0_KeyParameter :=
  map (convertKeyParameterToLegacy E) kps.

Definition convertKeyParametersFromLegacy (E : Externals)
    (legacyKps : list V4_0_KeyParameter) : list KeyParameter :=
  map (convertKeyParameterFromLegacy E) legacyKps.

Definition convertKeyCharacteristicsFromLegacy (E : Externals) (securityLevel : option Z)
    (legacyKc : V4_0_KeyCharacteristics) : list KeyCharacteristics :=
  [ {| kc_securityLevel := securityLevel;
       kc_authorizations := convertKeyParametersFromLegacy E (hardwareEnforced legacyKc) |} ].

(** ** KeyMintOperation *)

(** The out-parameters of [update] and of [finish], with the values the
    caller's objects hold when the callback did not run. *)
Record UpdateOut := {
  out_outParams : option (list KeyParameter);
  out_output : option bytes;
  bytesConsumed : Z }.

Record FinishOut := {
  finish_outParams : option (list KeyParameter);
  finish_output : bytes }.

Module KeyMintOperation.
Definition with_slot (self : KeyMintOperation) (slot : OperationSlot) : KeyMintOperation :=
  {| mOperationHandle := mOperationHandle self; mOperationSlot := slot |}.

Definition update (E : Externals) (self : KeyMintOperation)
    (in_inParams : option (list KeyParameter)) (in_input : option bytes)
    (in_inAuthToken : option HardwareAuthToken)
    (in_inVerificationToken : option VerificationToken)
    (out : UpdateOut) : M (ScopedAStatus * UpdateOut * KeyMintOperation) :=
  let legacyParams := from_option (convertKeyParametersToLegacy E) [] in_inParams in
  let input := default [] in_input in
  let authToken :=
    from_option convertAuthTokenToLegacy (indeterminate_authToken E) in_inAuthToken in
  let verificationToken :=
    from_option convertVerificationTokenToLegacy (indeterminate_verificationToken E)
      in_inVerificationToken in
  result ← backend
    (Call_update (mOperationHandle self) legacyParams input authToken verificationToken)
    (λ km h, km_update km h (mOperationHandle self) legacyParams input authToken
               verificationToken);
  match result with
  | TransportError =>
      slot ← OperationSlot.freeSlot (mOperationSlot self);
      mret (fromServiceSpecificError ResponseCode.SYSTEM_ERROR, out, with_slot self slot)
  | TransportOk (errorCode, inputConsumed, outParams, output) =>
      let out' := {| out_outParams := Some (convertKeyParametersFromLegacy E outParams);
                     out_output := Some output;
                     bytesConsumed := to_int32 inputConsumed |} in
      slot ← (if bool_decide (errorCode ≠ ErrorCode.OK)
              then OperationSlot.freeSlot (mOperationSlot self)
              else mret (mOperationSlot self));
      mret (convertErrorCode errorCode, out', with_slot self slot)
  end.

Definition finish (E : Externals) (self : KeyMintOperation)
    (in_inParams : option (list KeyParameter)) (in_input : option bytes)
    (in_inSignature : option bytes)
    (in_authToken : option HardwareAuthToken)
    (in_inVerificationToken : option VerificationToken)
    (out : FinishOut) : M (ScopedAStatus * FinishOut * KeyMintOperation) :=
  let legacyParams := from_option (convertKeyParametersToLegacy E) [] in_inParams in
  let input := default [] in_input in
  let signature := default [] in_inSignature in
  let authToken :=
    from_option convertAuthTokenToLegacy (indeterminate_authToken E) in_authToken in
  let verificationToken :=
    from_option convertVerificationTokenToLegacy (indeterminate_verificationToken E)
      in_inVerificationToken in
  result ← backend
    (Call_finish (mOperationHandle self) legacyParams input signature authToken
       verificationToken)
    (λ km h, km_finish km h (mOperationHandle self) legacyParams input signature authToken
               verificationToken);
  slot ← OperationSlot.freeSlot (mOperationSlot self);
  match result with
  | TransportError =>
      mret (fromServiceSpecificError ResponseCode.SYSTEM_ERROR, out, with_slot self slot)
  | TransportOk (errorCode, outParams, output) =>
      let out' := {| finish_outParams := Some (convertKeyParametersFromLegacy E outParams);
                     finish_output := output |} in
      mret (convertErrorCode errorCode, out', with_slot self slot)
  end.

Definition abort (self : KeyMintOperation) : M (ScopedAStatus * KeyMintOperation) :=
  errorCode ← backend (Call_abort (mOperationHandle self))
                      (λ km h, km_abort km h (mOperationHandle self));
  slot ← OperationSlot.freeSlot (mOperationSlot self);
  mret (convertErrorCode errorCode, with_slot self slot).

(** [~KeyMintOperation]: the error of the implicit abort is only logged. *)
Definition destroy (self : KeyMintOperation) : M KeyMintOperation :=
  if OperationSlot.hasSlot (mOperationSlot self)
  then '(error, self') ← abort self; mret self'
  else mret self.
End KeyMintOperation.

(** ** Certificate implementation: the file-local helpers *)

(** [*b] of an optional blob, the empty vector when there is none. *)
Definition unwrapBlob (b : option bytes) : bytes := default [] b.

Definition makeCert (E : Externals) (keyParams : list KeyParameter) (blob : bytes)
    : M (X509_Ptr + V4_0_ErrorCode) :=
  let clientId := unwrapBlob (getParam keyParams TAG_APPLICATION_ID) in
  let appData := unwrapBlob (getParam keyParams TAG_APPLICATION_DATA) in
  result ← backend (Call_exportKey X509_format blob clientId appData)
    (λ km h, km_exportKey km h X509_format blob clientId appData);
  match result with
  | TransportError => mret (inr ErrorCode.UNKNOWN_ERROR)
  | TransportOk (errorCode, key) =>
      if bool_decide (errorCode ≠ ErrorCode.OK) then mret (inr errorCode)
      else
        let pkey := EVP_parse_public_key E key in
        let activation :=
          from_option to_uint64 0 (getParam keyParams TAG_ACTIVE_DATETIME) in
        let expiration :=
          from_option to_uint64 UINT64_MAX (getParam keyParams TAG_USAGE_EXPIRE_DATETIME) in
        match keystore_makeCert E pkey 42 "TODO" activation expiration false with
        | inr _ => mret (inr ErrorCode.UNKNOWN_ERROR)
        | inl cert => mret (inl cert)
        end
  end.

Definition getKeystoreAlgorithm (algorithm : Algorithm) : keystore.Algo + V4_0_ErrorCode :=
  match algorithm with
  | RSA => inl keystore.RSA
  | EC => inl keystore.ECDSA
  | _ => inr ErrorCode.UNKNOWN_ERROR
  end.

Definition getKeystorePadding (padding : PaddingMode) : keystore.Padding + V4_0_ErrorCode :=
  match padding with
  | RSA_PKCS1_1_5_SIGN => inl keystore.PKCS1_5
  | RSA_PSS => inl keystore.PSS
  | _ => inl keystore.Ignored
  end.

Definition getKeystoreDigest (digest : Digest) : keystore.Digest + V4_0_ErrorCode :=
  match digest with
  | SHA1 => inl keystore.SHA1
  | SHA_2_224 => inl keystore.SHA224
  | SHA_2_256 | Digest_NONE => inl keystore.SHA256
  | SHA_2_384 => inl keystore.SHA384
  | SHA_2_512 => inl keystore.SHA512
  | _ => inr ErrorCode.UNKNOWN_ERROR
  end.

(** ** KeyMintDevice *)

Module KeyMintDevice.
(** The backend reports a [uint32_t]-backed level; the [static_cast] to the
    [int32_t]-backed level of this interface converts modulo 2^32. *)
Definition getHardwareInfo (out : KeyMintHardwareInfo)
    : M (ScopedAStatus * KeyMintHardwareInfo) :=
  result ← backend Call_getHardwareInfo (λ km h, km_getHardwareInfo km h);
  match result with
  | TransportOk (securityLevel, keymasterName, keymasterAuthorName) =>
      let securityLevel := to_int32 securityLevel in
      _ ← set_securityLevel_ securityLevel;
      mret (StatusOk, {| hi_securityLevel := Some securityLevel;
                         keyMintName := keymasterName;
                         keyMintAuthorName := keymasterAuthorName |})
  | TransportError =>
      mret (fromServiceSpecificError ResponseCode.SYSTEM_ERROR, out)
  end.

(** We're not implementing this. *)
Definition verifyAuthorization : M ScopedAStatus :=
  mret (fromServiceSpecificError ErrorCode.UNIMPLEMENTED).

Definition addRngEntropy (in_data : bytes) : M ScopedAStatus :=
  errorCode ← backend (Call_addRngEntropy in_data) (λ km h, km_addRngEntropy km h in_data);
  mret (convertErrorCode errorCode).

Definition deleteKey (in_inKeyBlob : bytes) : M ScopedAStatus :=
  errorCode ← backend (Call_deleteKey in_inKeyBlob) (λ km h, km_deleteKey km h in_inKeyBlob);
  mret (convertErrorCode errorCode).

Definition deleteAllKeys : M ScopedAStatus :=
  errorCode ← backend Call_deleteAllKeys (λ km h, km_deleteAllKeys km h);
  mret (convertErrorCode errorCode).

(** We're not implementing this. *)
Definition destroyAttestationIds : M ScopedAStatus :=
  mret (fromServiceSpecificError ErrorCode.UNIMPLEMENTED).

(** The two secure ids are [int64_t] here and [uint64_t] parameters of the
    backend: passing them converts modulo 2^64. *)
Definition importWrappedKey (E : Externals)
    (in_inWrappedKeyData in_inWrappingKeyBlob in_inMaskingKey : bytes)
    (in_inUnwrappingParams : list KeyParameter) (in_inPasswordSid in_inBiometricSid : Z)
    (out_creationResult : KeyCreationResult) : M (ScopedAStatus * KeyCreationResult) :=
  let legacyUnwrappingParams := convertKeyParametersToLegacy E in_inUnwrappingParams in
  let passwordSid := to_uint64 in_inPasswordSid in
  let biometricSid := to_uint64 in_inBiometricSid in
  result ← backend
    (Call_importWrappedKey in_inWrappedKeyData in_inWrappingKeyBlob in_inMaskingKey
       legacyUnwrappingParams passwordSid biometricSid)
    (λ km h, km_importWrappedKey km h in_inWrappedKeyData in_inWrappingKeyBlob
               in_inMaskingKey legacyUnwrappingParams passwordSid biometricSid);
  match result with
  | TransportError =>
      mret (fromServiceSpecificError ResponseCode.SYSTEM_ERROR, out_creationResult)
  | TransportOk (errorCode, blob, legacyKc) =>
      level ← get_securityLevel_;
      mret (convertErrorCode errorCode,
            {| keyBlob := blob;
               keyCharacteristics := convertKeyCharacteristicsFromLegacy E level legacyKc;
               certificateChain := certificateChain out_creationResult |})
  end.

Definition upgradeKey (E : Externals) (in_inKeyBlobToUpgrade : bytes)
    (in_inUpgradeParams : list KeyParameter) (out : bytes) : M (ScopedAStatus * bytes) :=
  let legacyUpgradeParams := convertKeyParametersToLegacy E in_inUpgradeParams in
  result ← backend (Call_upgradeKey in_inKeyBlobToUpgrade legacyUpgradeParams)
    (λ km h, km_upgradeKey km h in_inKeyBlobToUpgrade legacyUpgradeParams);
  match result with
  | TransportError => mret (fromServiceSpecificError ResponseCode.SYSTEM_ERROR, out)
  | TransportOk (errorCode, upgradedKeyBlob) =>
      mret (convertErrorCode errorCode, upgradedKeyBlob)
  end.

(** [_aidl_return] is the caller's object, here [out]; the binder stub passes
    one that holds no operation. *)
Definition begin (E : Externals) (in_inPurpose : KeyPurpose) (in_inKeyBlob : bytes)
    (in_inParams : list KeyParameter) (in_inAuthToken : HardwareAuthToken)
    (out : BeginResult) : M (ScopedAStatus * BeginResult) :=
  claimed ← mOperationSlots_claimSlot;
  if negb claimed then mret (convertErrorCode ErrorCode.TOO_MANY_OPERATIONS, out)
  else
    let legacyParams := convertKeyParametersToLegacy E in_inParams in
    let legacyAuthToken := convertAuthTokenToLegacy in_inAuthToken in
    result ← backend (Call_begin in_inPurpose in_inKeyBlob legacyParams legacyAuthToken)
      (λ km h, km_begin km h in_inPurpose in_inKeyBlob legacyParams legacyAuthToken);
    match result with
    | TransportError =>
        _ ← mOperationSlots_freeSlot;
        mret (fromServiceSpecificError ResponseCode.SYSTEM_ERROR, out)
    | TransportOk (errorCode, outParams, operationHandle) =>
        let out' :=
          {| challenge := to_int64 operationHandle;
             params := convertKeyParametersFromLegacy E outParams;
             operation :=
               Some {| mOperationHandle := operationHandle;
                       mOperationSlot :=
                         {| mIsActive := bool_decide (errorCode = ErrorCode.OK) |} |} |} in
        _ ← (if bool_decide (errorCode ≠ ErrorCode.OK)
             then mOperationSlots_freeSlot else mret tt);
        mret (convertErrorCode errorCode, out')
    end.

(** The signing callback [signCertificate] hands to [signCertWith].  It
    captures [errorCode] by reference; [beginResult] and with it the
    operation die at every return. *)
Definition signCertificate_sign (E : Externals) (blob : bytes)
    (origPadding : PaddingMode) (origDigest : Digest)
    (dataVec : bytes) (errorCode : V4_0_ErrorCode) : M (bytes * V4_0_ErrorCode) :=
  let kps := [makeKeyParameter_PADDING origPadding; makeKeyParameter_DIGEST origDigest] in
  '(error, beginResult) ←
    begin E SIGN blob kps HardwareAuthToken_default BeginResult_default;
  if negb (isOk error) then
    _ ← match operation beginResult with
        | Some op => KeyMintOperation.destroy op
        | None => mret {| mOperationHandle := 0; mOperationSlot := {| mIsActive := false |} |}
        end;
    mret ([], getServiceSpecificError error)
  else
    match operation beginResult with
    | None =>
        (* a null [operation]: [begin] never returns ok without making one *)
        mret ([], errorCode)
    | Some op =>
        '(_, updateOut, op1) ←
          KeyMintOperation.update E op None (Some dataVec) (Some HardwareAuthToken_default)
            (Some VerificationToken_default)
            {| out_outParams := None; out_output := None;
               bytesConsumed := indeterminate_status E |};
        if bytesConsumed updateOut =? 0 then
          _ ← KeyMintOperation.destroy op1;
          mret ([], errorCode)
        else
          '(error2, finishOut, op2) ←
            KeyMintOperation.finish E op1 None None None None None
              {| finish_outParams := out_outParams updateOut; finish_output := [] |};
          _ ← KeyMintOperation.destroy op2;
          if negb (isOk error2) then mret ([], getServiceSpecificError error2)
          else mret (finish_output finishOut, errorCode)
    end.

Definition signCertificate (E : Externals) (keyParams : list KeyParameter) (blob : bytes)
    (cert : X509_Ptr) : M (X509_Ptr * option V4_0_ErrorCode) :=
  let algorithm := default (indeterminate_algorithm E) (getParam keyParams TAG_ALGORITHM) in
  match getKeystoreAlgorithm algorithm with
  | inr e => mret (cert, Some e)
  | inl algo =>
      (* the option lists are not empty: getMaximum has a result *)
      let origPadding :=
        default RSA_PSS (getMaximum keyParams TAG_PADDING [RSA_PSS; RSA_PKCS1_1_5_SIGN]) in
      match getKeystorePadding origPadding with
      | inr e => mret (cert, Some e)
      | inl padding =>
          let origDigest :=
            default SHA_2_256
              (getMaximum keyParams TAG_DIGEST
                 [SHA_2_256; SHA_2_512; SHA_2_384; SHA_2_224; SHA1]) in
          match getKeystoreDigest origDigest with
          | inr e => mret (cert, Some e)
          | inl digest =>
              '(cert', error, errorCode) ←
                signCertWith E cert (signCertificate_sign E blob origPadding origDigest)
                  ErrorCode.OK algo padding digest;
              match error with
              | Some _ => mret (cert', Some ErrorCode.UNKNOWN_ERROR)
              | None =>
                  if bool_decide (errorCode ≠ ErrorCode.OK) then mret (cert', Some errorCode)
                  else mret (cert', None)
              end
          end
      end
  end.

(** The tail of [getCertificate]: [encodeCert] and the one-element chain. *)
Definition getCertificate_encode (E : Externals) (cert : X509_Ptr)
    : list Certificate + V4_0_ErrorCode :=
  match keystore_encodeCert E cert with
  | inr _ => inr ErrorCode.UNKNOWN_ERROR
  | inl encoded => inl [ {| encodedCertificate := encoded |} ]
  end.

Definition getCertificate (E : Externals) (keyParams : list KeyParameter) (blob : bytes)
    : M (list Certificate + V4_0_ErrorCode) :=
  (* There are no certificates for symmetric keys. *)
  match getParam keyParams TAG_ALGORITHM with
  | None => mret (inr ErrorCode.UNKNOWN_ERROR)
  | Some RSA | Some EC =>
      (* If attestation was requested, call and use attestKey. *)
      if containsParam keyParams TAG_ATTESTATION_CHALLENGE then
        let legacyParams := convertKeyParametersToLegacy E keyParams in
        result ← backend (Call_attestKey blob legacyParams)
                         (λ km h, km_attestKey km h blob legacyParams);
        match result with
        | TransportError => mret (inr ErrorCode.UNKNOWN_ERROR)
        | TransportOk (errorCode, certChain) =>
            let certs := map (λ cert, {| encodedCertificate := cert |}) certChain in
            if bool_decide (errorCode ≠ ErrorCode.OK) then mret (inr errorCode)
            else mret (inl certs)
        end
      else
        certOrError ← makeCert E keyParams blob;
        match certOrError with
        | inr e => mret (inr e)
        | inl cert =>
            let '(cert1, error) := keystore_setIssuer E cert cert false in
            match error with
            | Some _ => mret (inr ErrorCode.UNKNOWN_ERROR)
            | None =>
                let canSelfSign :=
                  existsb (λ kp, match authorizationValue TAG_PURPOSE kp with
                                 | Some v => bool_decide (v = SIGN)
                                 | None => false
                                 end) keyParams in
                let noAuthRequired := containsParam keyParams TAG_NO_AUTH_REQUIRED in
                signed ←
                  (if canSelfSign && noAuthRequired then
                     '(cert2, errorCode) ← signCertificate E keyParams blob cert1;
                     match errorCode with
                     | Some e => mret (inr e)
                     | None => mret (inl (cert2, error))
                     end
                   else
                     let pkey_ptr := EVP_PKEY_keygen E in
                     mret (inl (keystore_signCert E cert1 pkey_ptr)));
                match signed with
                | inr e => mret (inr e)
                | inl (cert2, Some _) => mret (inr ErrorCode.UNKNOWN_ERROR)
                | inl (cert2, None) => mret (getCertificate_encode E cert2)
                end
            end
        end
  | Some _ => mret (inr ErrorCode.OK)
  end.

Definition generateKey (E : Externals) (in_keyParams : list KeyParameter)
    (out_creationResult : KeyCreationResult) : M (ScopedAStatus * KeyCreationResult) :=
  let legacyKeyParams := convertKeyParametersToLegacy E in_keyParams in
  result ← backend (Call_generateKey legacyKeyParams)
                   (λ km h, km_generateKey km h legacyKeyParams);
  match result with
  | TransportError =>
      mret (fromServiceSpecificError ResponseCode.SYSTEM_ERROR, out_creationResult)
  | TransportOk (error, blob, legacyKc) =>
      level ← get_securityLevel_;
      let out1 :=
        {| keyBlob := blob;
           keyCharacteristics := convertKeyCharacteristicsFromLegacy E level legacyKc;
           certificateChain := certificateChain out_creationResult |} in
      if bool_decide (error = ErrorCode.OK) then
        cert ← getCertificate E in_keyParams (keyBlob out1);
        match cert with
        | inr code =>
            (* We return OK in successful cases that do not generate a certificate. *)
            if bool_decide (code ≠ ErrorCode.OK) then
              _ ← deleteKey (keyBlob out1);
              mret (convertErrorCode code, out1)
            else mret (convertErrorCode error, out1)
        | inl chain =>
            mret (convertErrorCode error,
                  {| keyBlob := keyBlob out1;
                     keyCharacteristics := keyCharacteristics out1;
                     certificateChain := chain |})
        end
      else mret (convertErrorCode error, out1)
  end.

Definition importKey (E : Externals) (in_inKeyParams : list KeyParameter)
    (in_inKeyFormat : KeyFormat) (in_inKeyData : bytes)
    (out_creationResult : KeyCreationResult) : M (ScopedAStatus * KeyCreationResult) :=
  let legacyKeyParams := convertKeyParametersToLegacy E in_inKeyParams in
  let legacyKeyFormat := in_inKeyFormat in
  result ← backend (Call_importKey legacyKeyParams legacyKeyFormat in_inKeyData)
                   (λ km h, km_importKey km h legacyKeyParams legacyKeyFormat in_inKeyData);
  match result with
  | TransportError =>
      mret (fromServiceSpecificError ResponseCode.SYSTEM_ERROR, out_creationResult)
  | TransportOk (error, blob, legacyKc) =>
      level ← get_securityLevel_;
      let out1 :=
        {| keyBlob := blob;
           keyCharacteristics := convertKeyCharacteristicsFromLegacy E level legacyKc;
           certificateChain := certificateChain out_creationResult |} in
      if bool_decide (error = ErrorCode.OK) then
        cert ← getCertificate E in_inKeyParams (keyBlob out1);
        match cert with
        | inr code =>
            (* We return OK in successful cases that do not generate a certificate. *)
            if bool_decide (code ≠ ErrorCode.OK) then
              _ ← deleteKey (keyBlob out1);
              mret (convertErrorCode code, out1)
            else mret (convertErrorCode error, out1)
        | inl chain =>
            mret (convertErrorCode error,
                  {| keyBlob := keyBlob out1;
                     keyCharacteristics := keyCharacteristics out1;
                     certificateChain := chain |})
        end
      else mret (convertErrorCode error, out1)
  end.
End KeyMintDevice.

(** ** Finding the Keymaster devices *)

(** The two HAL wrappers [enumerateKeymasterDevices] is instantiated with. *)
Inductive Wrapper := Keymaster3 | Keymaster4.

(** [IServiceManager] as the discovery uses it: the names registered for an
    interface, and [Wrapper::WrappedIKeymasterDevice::getService(name)]
    wrapped into an [sp<Keymaster>] (null when there is no such service). *)
Record IServiceManager := {
  listManifestByInterface : Wrapper → HidlReturn (list string);
  getService : Wrapper → string → option Keymaster }.

(** [Devices<sp<Keymaster>, 3>]: an array indexed by security level, a null
    pointer being [None]. *)
Abbreviation KeymasterDevices := (list (option Keymaster)).

Definition KeymasterDevices_new : KeymasterDevices := [None; None; None].

(** [operator[]] through [std::array::at]: no result out of range (the
    exception ends the process, as a failed [CHECK] does). *)
Definition Devices_at (self : KeymasterDevices) (secLevel : Z) : option (option Keymaster) :=
  if bool_decide (0 ≤ secLevel) then self !! Z.to_nat secLevel else None.

Definition Devices_set (self : KeymasterDevices) (secLevel : Z) (d : option Keymaster)
    : KeymasterDevices :=
  <[Z.to_nat secLevel := d]> self.

(** The lambda [try_get_device]; [None] is a failed [CHECK]. *)
Definition try_get_device (serviceManager : IServiceManager) (W : Wrapper)
    (name : string) (fail_silent : bool) (result : KeymasterDevices)
    : option KeymasterDevices :=
  match getService serviceManager W name with
  | None => if fail_silent then Some result else None
  | Some kmDevice =>
      let securityLevel := halVersion_securityLevel kmDevice in
      if bool_decide (0 ≤ securityLevel < Z.of_nat (length result)) then
        deviceSlot ← Devices_at result securityLevel;
        match deviceSlot with
        | Some _ => Some result
        | None => Some (Devices_set result securityLevel (Some kmDevice))
        end
      else None
  end.

(** The loop over the listed names. *)
Fixpoint enumerate_names (serviceManager : IServiceManager) (W : Wrapper)
    (names : list string) (result : KeymasterDevices) (has_default : bool)
    : option (KeymasterDevices * bool) :=
  match names with
  | [] => Some (result, has_default)
  | n :: rest =>
      result' ← try_get_device serviceManager W n false result;
      enumerate_names serviceManager W rest result'
        (if bool_decide (n = "default") then true else has_default)
  end.

(** [enumerateKeymasterDevices<Wrapper>]; [None] is the end of the process.
    The [Return<void>] of [listManifestByInterface] is dropped without a
    look at [isOk()]: when the listing could not be delivered, the lambda
    has not run and the destructor of the unchecked failed [Return] ends the
    process, as a failed [CHECK] does. *)
Definition enumerateKeymasterDevices (W : Wrapper) (serviceManager : IServiceManager)
    : option KeymasterDevices :=
  let result := KeymasterDevices_new in
  match listManifestByInterface serviceManager W with
  | TransportError => None
  | TransportOk names =>
      '(result, has_default) ← enumerate_names serviceManager W names result false;
      (* Make sure that we always check the default device. *)
      if negb has_default then try_get_device serviceManager W "default" true result
      else Some result
  end.

Definition initializeKeymasters (serviceManager : option IServiceManager)
    : option KeymasterDevices :=
  sm ← serviceManager;
  result ← enumerateKeymasterDevices Keymaster4 sm;
  softKeymaster ← Devices_at result SecurityLevel.SOFTWARE;
  tee ← Devices_at result SecurityLevel.TRUSTED_ENVIRONMENT;
  result ← (if bool_decide (tee = None) then enumerateKeymasterDevices Keymaster3 sm
            else Some result);
  let result := if bool_decide (softKeymaster ≠ None)
                then Devices_set result SecurityLevel.SOFTWARE softKeymaster
                else result in
  soft ← Devices_at result SecurityLevel.SOFTWARE;
  tee ← Devices_at result SecurityLevel.TRUSTED_ENVIRONMENT;
  if bool_decide (soft ≠ None) && bool_decide (tee = None) then
    let result := Devices_set result SecurityLevel.TRUSTED_ENVIRONMENT soft in
    Some (Devices_set result SecurityLevel.SOFTWARE None)
  else Some result.

(** A backend instance is discovered under a wrapper when the service
    manager answers the listing and hands the instance out for a listed name
    or for the name "default". *)
Definition discovered (serviceManager : IServiceManager) (W : Wrapper) (d : Keymaster)
    : Prop :=
  ∃ names name,
    listManifestByInterface serviceManager W = TransportOk names
    ∧ (name ∈ names ∨ name = "default")
    ∧ getService serviceManager W name = Some d.

(** ** Making and caching the facades *)

(** The constructor of [KeyMintDevice]. *)
Definition KeyMintDevice_new (device : Keymaster) (securityLevel : Z) : KeyMintDevice :=
  {| mDevice := device;
     mOperationSlots :=
       if bool_decide (securityLevel = SecurityLevel.STRONGBOX)
       then OperationSlots.setNumFreeSlots 3
       else OperationSlots.setNumFreeSlots 15;
     securityLevel_ := None |}.

(** [KeyMintDevice::setNumFreeSlots]. *)
Definition KeyMintDevice_setNumFreeSlots (numFreeSlots : Z) : M unit :=
  on_slots (λ _, (tt, OperationSlots.setNumFreeSlots numFreeSlots)).

(** The process-wide state of the service: the function-local static
    [device_ptr] of [createKeyMintDevice] and the member [mDeviceCache] of
    [KeystoreCompatService].  A facade is named by its value when it is made;
    both hold the same shared pointer. *)
Record CompatService := {
  device_ptr : option KeyMintDevice;
  mDeviceCache : gmap Z KeyMintDevice }.

Definition CompatService_new : CompatService :=
  {| device_ptr := None; mDeviceCache := ∅ |}.

(** [KeyMintDevice::createKeyMintDevice], under its mutex: the facade it
    returns (a null pointer being [None]) and the new [device_ptr]; no
    result at all when the discovery ends the process. *)
Definition createKeyMintDevice (serviceManager : option IServiceManager)
    (securityLevel : Z) (static_device_ptr : option KeyMintDevice)
    : option (option KeyMintDevice * option KeyMintDevice) :=
  match static_device_ptr with
  | None =>
      let secLevel := securityLevel in
      devices ← initializeKeymasters serviceManager;
      device ← Devices_at devices secLevel;
      match device with
      | None => Some (None, static_device_ptr)
      | Some device =>
          let made := KeyMintDevice_new device securityLevel in
          Some (Some made, Some made)
      end
  | Some _ => Some (static_device_ptr, static_device_ptr)
  end.

(** [KeystoreCompatService::getKeyMintDevice]: the status, [*_aidl_return]
    when it is written, and the state of the service afterwards. *)
Definition getKeyMintDevice (serviceManager : option IServiceManager)
    (in_securityLevel : Z) (self : CompatService)
    : option (ScopedAStatus * option KeyMintDevice * CompatService) :=
  match mDeviceCache self !! in_securityLevel with
  | None =>
      '(device, ptr) ← createKeyMintDevice serviceManager in_securityLevel (device_ptr self);
      match device with
      | None =>
          Some (fromStatus STATUS_NAME_NOT_FOUND, None,
                {| device_ptr := ptr; mDeviceCache := mDeviceCache self |})
      | Some d =>
          Some (StatusOk, Some d,
                {| device_ptr := ptr;
                   mDeviceCache := <[in_securityLevel := d]> (mDeviceCache self) |})
      end
  | Some d => Some (StatusOk, Some d, self)
  end.


(** ** Call sequences *)

(** A use of the slot pool from outside: an interleaving of [claimSlot] and
    [freeSlot] calls, with the answers of the [claimSlot] calls. *)
Inductive SlotCall := Claim | Free.

Fixpoint run_slots (ops : list SlotCall) (s : OperationSlots) : list bool * OperationSlots :=
  match ops with
  | [] => ([], s)
  | Claim :: rest =>
      let '(b, s1) := OperationSlots.claimSlot s in
      let '(bs, s2) := run_slots rest s1 in (b :: bs, s2)
  | Free :: rest => run_slots rest (OperationSlots.freeSlot s)
  end.

(** A call on an operation session, with the arguments of the caller;
    [DoDestroy] is the destructor. *)
Inductive SessionCall :=
| DoUpdate (in_inParams : option (list KeyParameter)) (in_input : option bytes)
    (in_inAuthToken : option HardwareAuthToken)
    (in_inVerificationToken : option VerificationToken) (out : UpdateOut)
| DoFinish (in_inParams : option (list KeyParameter)) (in_input : option bytes)
    (in_inSignature : option bytes) (in_authToken : option HardwareAuthToken)
    (in_inVerificationToken : option VerificationToken) (out : FinishOut)
| DoAbort
| DoDestroy.

(** The calls that end a session. *)
Definition ends_session (c : SessionCall) : bool :=
  match c with DoUpdate _ _ _ _ _ => false | _ => true end.

Definition run_call (E : Externals) (c : SessionCall) (op : KeyMintOperation)
    : M KeyMintOperation :=
  match c with
  | DoUpdate p i a v out =>
      '(_, _, op') ← KeyMintOperation.update E op p i a v out; mret op'
  | DoFinish p i s a v out =>
      '(_, _, op') ← KeyMintOperation.finish E op p i s a v out; mret op'
  | DoAbort => '(_, op') ← KeyMintOperation.abort op; mret op'
  | DoDestroy => KeyMintOperation.destroy op
  end.

(** The number of free slots of the facade's pool. *)
Definition free_slots (w : World) : Z := mNumFreeSlots (mOperationSlots (this w)).

(** Runs the calls in order; with the session left at the end, the number of
    free slots after each call. *)
Fixpoint run_calls (E : Externals) (cs : list SessionCall) (op : KeyMintOperation)
    (w : World) : KeyMintOperation * World * list Z :=
  match cs with
  | [] => (op, w, [])
  | c :: rest =>
      let '(op1, w1) := run_call E c op w in
      let '(op2, w2, counts) := run_calls E rest op1 w1 in
      (op2, w2, free_slots w1 :: counts)
  end.

(** ** Sample collaborators *)

Definition sample_blob : bytes := [x6b; x31].
Definition sample_public_key : bytes := [x30; x59].

Definition sample_characteristics : V4_0_KeyCharacteristics :=
  {| softwareEnforced := []; hardwareEnforced := [] |}.

(** A backend that creates keys and runs operations without error; its
    answers to [exportKey] and to [update] are given. *)
Definition sample_keymaster (level : Z)
    (exportAnswer : HidlReturn (V4_0_ErrorCode * bytes))
    (updateAnswer : HidlReturn (V4_0_ErrorCode * Z * list V4_0_KeyParameter * bytes))
    : Keymaster :=
  {| halVersion_securityLevel := level;
     km_getHardwareInfo := λ _, TransportOk (level, "sample", "sample");
     km_addRngEntropy := λ _ _, ErrorCode.OK;
     km_generateKey := λ _ _, TransportOk (ErrorCode.OK, sample_blob, sample_characteristics);
     km_importKey := λ _ _ _ _,
       TransportOk (ErrorCode.OK, sample_blob, sample_characteristics);
     km_importWrappedKey := λ _ _ _ _ _ _ _,
       TransportOk (ErrorCode.OK, sample_blob, sample_characteristics);
     km_upgradeKey := λ _ _ _, TransportOk (ErrorCode.OK, sample_blob);
     km_deleteKey := λ _ _, ErrorCode.OK;
     km_deleteAllKeys := λ _, ErrorCode.OK;
     km_exportKey := λ _ _ _ _ _, exportAnswer;
     km_attestKey := λ _ _ _, TransportOk (ErrorCode.OK, [sample_public_key]);
     km_begin := λ _ _ _ _ _, TransportOk (ErrorCode.OK, [], 7);
     km_update := λ _ _ _ _ _ _, updateAnswer;
     km_finish := λ _ _ _ _ _ _ _, TransportOk (ErrorCode.OK, [], [x01]);
     km_abort := λ _ _, ErrorCode.OK |}.

Definition sample_externals : Externals :=
  {| convertKeyParameterToLegacy := λ _,
       {| legacy_tag := 0; legacy_value := 0; legacy_blob := [] |};
     convertKeyParameterFromLegacy := λ p, KP_OTHER (legacy_tag p) (legacy_blob p);
     EVP_parse_public_key := λ key, {| pkey_object := key |};
     keystore_makeCert := λ pkey _ _ _ _ _, inl {| x509_object := pkey_object pkey |};
     keystore_setIssuer := λ cert _ _, (cert, None);
     keystore_signCert := λ cert _, (cert, None);
     keystore_encodeCert := λ cert, inl (x509_object cert);
     signCertWith_tbs := λ cert _ _ _, inl (cert, x509_object cert);
     signCertWith_signature := λ cert signature,
       (cert, if bool_decide (signature = []) then Some 1 else None);
     EVP_PKEY_keygen := {| pkey_object := [x02] |};
     indeterminate_status := 0;
     indeterminate_algorithm := AES;
     indeterminate_authToken := convertAuthTokenToLegacy HardwareAuthToken_default;
     indeterminate_verificationToken :=
       convertVerificationTokenToLegacy VerificationToken_default |}.

(** A facade of the given level over the sample backend, before any call. *)
Definition sample_world (level : Z)
    (exportAnswer : HidlReturn (V4_0_ErrorCode * bytes))
    (updateAnswer : HidlReturn (V4_0_ErrorCode * Z * list V4_0_KeyParameter * bytes))
    : World :=
  {| this := KeyMintDevice_new (sample_keymaster level exportAnswer updateAnswer) level;
     calls := [] |}.

Definition sample_update_ok
    : HidlReturn (V4_0_ErrorCode * Z * list V4_0_KeyParameter * bytes) :=
  TransportOk (ErrorCode.OK, 2, [], []).

Definition sample_export_ok : HidlReturn (V4_0_ErrorCode * bytes) :=
  TransportOk (ErrorCode.OK, sample_public_key).

(** A service manager that lists the given names for Keymaster 4 and nothing
    for Keymaster 3; the name [tee] is a trusted-execution instance, the name
    [strongbox] an isolated-hardware one, every other name a software one. *)
Definition sample_serviceManager (names : list string) : IServiceManager :=
  {| listManifestByInterface := λ W,
       match W with Keymaster4 => TransportOk names | Keymaster3 => TransportOk [] end;
     getService := λ W name,
       match W with
       | Keymaster3 => None
       | Keymaster4 =>
           if bool_decide (name ∈ names) then
             Some (sample_keymaster
                     (if bool_decide (name = "tee") then SecurityLevel.TRUSTED_ENVIRONMENT
                      else if bool_decide (name = "strongbox") then SecurityLevel.STRONGBOX
                      else SecurityLevel.SOFTWARE)
                     sample_export_ok sample_update_ok)
           else None
       end |}.


(** A session's life: one update, the finish, a late abort, the destructor. *)
Definition sample_session_calls : list SessionCall :=
  [ DoUpdate None (Some [x01]) None None
      {| out_outParams := None; out_output := None; bytesConsumed := 0 |};
    DoFinish None None None None None {| finish_outParams := None; finish_output := [] |};
    DoAbort;
    DoDestroy ].

Definition sample_strongbox_world : World :=
  sample_world SecurityLevel.STRONGBOX sample_export_ok sample_update_ok.

(** An active session with handle 7 on a facade whose backend cannot be
    reached for [update]. *)
Definition sample_operation : KeyMintOperation :=
  {| mOperationHandle := 7; mOperationSlot := {| mIsActive := true |} |}.

Definition sample_unreachable_update_world : World :=
  sample_world SecurityLevel.TRUSTED_ENVIRONMENT sample_export_ok TransportError.

Definition sample_update_out : UpdateOut :=
  {| out_outParams := None; out_output := None; bytesConsumed := 0 |}.

(** Trusted-execution facades over the sample backend: one that works, one
    whose [exportKey] reports [INVALID_KEY_BLOB], one whose [exportKey]
    cannot be delivered. *)
Definition sample_tee_world : World :=
  sample_world SecurityLevel.TRUSTED_ENVIRONMENT sample_export_ok sample_update_ok.


Definition sample_export_unreachable_world : World :=
  sample_world SecurityLevel.TRUSTED_ENVIRONMENT TransportError sample_update_ok.

(** The legacy form of a parameter list under the sample converters. *)
Definition sample_legacy (kps : list KeyParameter) : list V4_0_KeyParameter :=
  convertKeyParametersToLegacy sample_externals kps.

(** The sample backends by level, a device with a software instance only,
    and a device with a trusted-execution and an isolated-hardware instance. *)
Definition sample_backend (level : Z) : Keymaster :=
  sample_keymaster level sample_export_ok sample_update_ok.

Definition sample_software_only : IServiceManager := sample_serviceManager ["soft"].

Definition sample_two_tiers : IServiceManager := sample_serviceManager ["tee"; "strongbox"].

(** The facade [createKeyMintDevice] makes for TRUSTED_ENVIRONMENT on that
    device, and the state of the service once it has handed it out. *)
Definition sample_tee_facade : KeyMintDevice :=
  KeyMintDevice_new (sample_backend SecurityLevel.TRUSTED_ENVIRONMENT)
    SecurityLevel.TRUSTED_ENVIRONMENT.

Definition sample_after_tee_request : CompatService :=
  {| device_ptr := Some sample_tee_facade;
     mDeviceCache := {[ SecurityLevel.TRUSTED_ENVIRONMENT := sample_tee_facade ]} |}.

(** Four [begin] calls in a row, the finish of the first session, and a
    fifth [begin]: the statuses of the five [begin] calls. *)
Definition sample_begin_scenario : M (list ScopedAStatus) :=
  '(s1, r1) ← KeyMintDevice.begin sample_externals SIGN sample_blob []
                HardwareAuthToken_default BeginResult_default;
  '(s2, _) ← KeyMintDevice.begin sample_externals SIGN sample_blob []
               HardwareAuthToken_default BeginResult_default;
  '(s3, _) ← KeyMintDevice.begin sample_externals SIGN sample_blob []
               HardwareAuthToken_default BeginResult_default;
  '(s4, _) ← KeyMintDevice.begin sample_externals SIGN sample_blob []
               HardwareAuthToken_default BeginResult_default;
  _ ← match operation r1 with
      | Some op =>
          '(_, _, op') ← KeyMintOperation.finish sample_externals op None None None None
                           None {| finish_outParams := None; finish_output := [] |};
          mret op'
      | None => mret sample_operation
      end;
  '(s5, _) ← KeyMintDevice.begin sample_externals SIGN sample_blob []
               HardwareAuthToken_default BeginResult_default;
  mret [s1; s2; s3; s4; s5].

(** ** Several sessions on one facade *)

(** A call on the facade or on one of the sessions it has made: [DoBegin]
    makes session number [length sessions] when [begin] hands out an
    operation; [OnSession i c] is the call [c] on session [i]. *)
Inductive FacadeCall :=
| DoBegin (purpose : KeyPurpose) (blob : bytes) (inParams : list KeyParameter)
    (authToken : HardwareAuthToken)
| OnSession (i : nat) (c : SessionCall).

Definition run_facade_call (E : Externals) (c : FacadeCall)
    (sessions : list KeyMintOperation) : M (list KeyMintOperation) :=
  match c with
  | DoBegin purpose blob inParams authToken =>
      '(_, res) ← KeyMintDevice.begin E purpose blob inParams authToken BeginResult_default;
      mret (match operation res with
            | Some op => sessions ++ [op]
            | None => sessions
            end)
  | OnSession i c =>
      match sessions !! i with
      | Some op => op' ← run_call E c op; mret (<[i := op']> sessions)
      | None => mret sessions
      end
  end.

Fixpoint run_facade (E : Externals) (cs : list FacadeCall)
    (sessions : list KeyMintOperation) : M (list KeyMintOperation) :=
  match cs with
  | [] => mret sessions
  | c :: rest => sessions' ← run_facade_call E c sessions; run_facade E rest sessions'
  end.

(** The number of sessions that hold a slot. *)
Fixpoint active_sessions (sessions : list KeyMintOperation) : Z :=
  match sessions with
  | [] => 0
  | op :: rest =>
      (if mIsActive (mOperationSlot op) then 1 else 0) + active_sessions rest
  end.

(** ** Discovery in listing order *)

(** The names an enumeration probes, in order: the listed ones, then
    "default" when it is not listed. *)
Definition probed_names (names : list string) : list string :=
  names ++ (if bool_decide ("default" ∈ names) then [] else ["default"]).

(** The first instance of a level in a list of instances. *)
Definition first_of_level (ds : list Keymaster) (l : Z) : option Keymaster :=
  head (filter (λ d, halVersion_securityLevel d = l) ds).

(** ** Requests to the service, in order *)

(** The facades [getKeyMintDevice] writes to [*_aidl_return] over a sequence
    of requests, and the state of the service at the end. *)
Fixpoint run_requests (serviceManager : option IServiceManager) (levels : list Z)
    (self : CompatService) : option (list (option KeyMintDevice) * CompatService) :=
  match levels with
  | [] => Some ([], self)
  | l :: rest =>
      '(_, d, self1) ← getKeyMintDevice serviceManager l self;
      '(ds, self2) ← run_requests serviceManager rest self1;
      Some (d :: ds, self2)
  end.

(** The trusted-execution facade with no free slot left. *)
Definition sample_exhausted_world : World :=
  (KeyMintDevice_setNumFreeSlots 0 sample_tee_world).2.

(** Two sessions are begun, the first is aborted and then destroyed. *)
Definition sample_facade_calls : list FacadeCall :=
  [ DoBegin SIGN sample_blob [] HardwareAuthToken_default;
    DoBegin SIGN sample_blob [] HardwareAuthToken_default;
    OnSession 0 DoAbort;
    OnSession 0 DoDestroy ].

(** A device that lists two trusted-execution instances, told apart by
    their answer to [exportKey], and has no "default" instance. *)
Definition sample_first_tee : Keymaster :=
  sample_keymaster SecurityLevel.TRUSTED_ENVIRONMENT sample_export_ok sample_update_ok.

Definition sample_second_tee : Keymaster :=
  sample_keymaster SecurityLevel.TRUSTED_ENVIRONMENT TransportError sample_update_ok.

Definition sample_duplicate_tee : IServiceManager :=
  {| listManifestByInterface := λ _, TransportOk ["first"; "second"];
     getService := λ _ name,
       if bool_decide (name = "first") then Some sample_first_tee
       else if bool_decide (name = "second") then Some sample_second_tee
       else None |}.

(** A token whose challenge is -1 and whose authenticator type is ANY (all
    bits set), and the out-parameters a caller of [finish] passes. *)
Definition sample_negative_token : HardwareAuthToken :=
  {| at_challenge := -1; at_userId := 0; at_authenticatorId := 0;
     at_authenticatorType := -1; at_timestamp_milliSeconds := 0; at_mac := [] |}.

Definition sample_finish_out : FinishOut :=
  {| finish_outParams := None; finish_output := [] |}.

(** The sample certificate library with an [encodeCert] that fails, and a
    trusted-execution facade whose backend refuses [attestKey] with
    [INVALID_KEY_BLOB]. *)
Definition sample_externals_no_encoding : Externals :=
  {| convertKeyParameterToLegacy := convertKeyParameterToLegacy sample_externals;
     convertKeyParameterFromLegacy := convertKeyParameterFromLegacy sample_externals;
     EVP_parse_public_key := EVP_parse_public_key sample_externals;
     keystore_makeCert := keystore_makeCert sample_externals;
     keystore_setIssuer := keystore_setIssuer sample_externals;
     keystore_signCert := keystore_signCert sample_externals;
     keystore_encodeCert := λ _, inr 1;
     signCertWith_tbs := signCertWith_tbs sample_externals;
     signCertWith_signature := signCertWith_signature sample_externals;
     EVP_PKEY_keygen := EVP_PKEY_keygen sample_externals;
     indeterminate_status := indeterminate_status sample_externals;
     indeterminate_algorithm := indeterminate_algorithm sample_externals;
     indeterminate_authToken := indeterminate_authToken sample_externals;
     indeterminate_verificationToken := indeterminate_verificationToken sample_externals |}.

Definition sample_attest_refused_world : World :=
  {| this :=
       KeyMintDevice_new
         {| halVersion_securityLevel := SecurityLevel.TRUSTED_ENVIRONMENT;
            km_getHardwareInfo :=
              km_getHardwareInfo (sample_backend SecurityLevel.TRUSTED_ENVIRONMENT);
            km_addRngEntropy :=
              km_addRngEntropy (sample_backend SecurityLevel.TRUSTED_ENVIRONMENT);
            km_generateKey :=
              km_generateKey (sample_backend SecurityLevel.TRUSTED_ENVIRONMENT);
            km_importKey := km_importKey (sample_backend SecurityLevel.TRUSTED_ENVIRONMENT);
            km_importWrappedKey :=
              km_importWrappedKey (sample_backend SecurityLevel.TRUSTED_ENVIRONMENT);
            km_upgradeKey := km_upgradeKey (sample_backend SecurityLevel.TRUSTED_ENVIRONMENT);
            km_deleteKey := km_deleteKey (sample_backend SecurityLevel.TRUSTED_ENVIRONMENT);
            km_deleteAllKeys :=
              km_deleteAllKeys (sample_backend SecurityLevel.TRUSTED_ENVIRONMENT);
            km_exportKey := km_exportKey (sample_backend SecurityLevel.TRUSTED_ENVIRONMENT);
            km_attestKey := λ _ _ _, TransportOk (ErrorCode.INVALID_KEY_BLOB, []);
            km_begin := km_begin (sample_backend SecurityLevel.TRUSTED_ENVIRONMENT);
            km_update := km_update (sample_backend SecurityLevel.TRUSTED_ENVIRONMENT);
            km_finish := km_finish (sample_backend SecurityLevel.TRUSTED_ENVIRONMENT);
            km_abort := km_abort (sample_backend SecurityLevel.TRUSTED_ENVIRONMENT) |}
         SecurityLevel.TRUSTED_ENVIRONMENT;
     calls := [] |}.

(** A service manager whose listing cannot be delivered. *)
Definition sample_unreachable_listing : IServiceManager :=
  {| listManifestByInterface := λ _, TransportError;
     getService := getService sample_software_only |}.

(* ------------------------------------------------------------------ *)
(** * Properties *)

Lemma getMaximum_fold_end {T} `{EqDecision T} (tag : TypedTag T) opts kps :
  fold_left (getMaximum_step tag opts) kps (length opts) = length opts.
Proof.
  induction kps as [|kp kps IH]; simpl; [done|].
  assert (Hstep : getMaximum_step tag opts (length opts) kp = length opts).
  { unfold getMaximum_step. destruct (authorizationValue tag kp) as [v|]; [|done].
    assert (Hle : (std_find opts v <= length opts)%nat).
    { clear. induction opts as [|x r IHr]; simpl; [lia|]. destruct (decide (x = v)); lia. }
    unfold std_distance. destruct (Z.ltb_spec (Z.of_nat (length opts) - Z.of_nat (std_find opts v)) 0); [lia|done]. }
  rewrite Hstep. exact IH.
Qed.

Lemma getMaximum_is_first {T} `{EqDecision T} kps (tag : TypedTag T) opts :
  getMaximum kps tag opts = opts !! 0%nat.
Proof. unfold getMaximum. rewrite getMaximum_fold_end. by rewrite decide_True. Qed.

(** ** The slot pool *)

Lemma uint8_small z : 0 ≤ z < 256 → uint8 z = z.
Proof. intros Hz. unfold uint8. apply Z.mod_small. lia. Qed.

Lemma uint8_range z : 0 ≤ uint8 z < 256.
Proof. unfold uint8. apply Z.mod_pos_bound. lia. Qed.

Lemma claimSlot_range s :
  0 ≤ mNumFreeSlots s < 256 → 0 ≤ mNumFreeSlots (OperationSlots.claimSlot s).2 < 256.
Proof.
  intros Hs. unfold OperationSlots.claimSlot.
  destruct (0 <? mNumFreeSlots s); simpl; [apply uint8_range | exact Hs].
Qed.

Lemma run_slots_range ops : ∀ s,
  0 ≤ mNumFreeSlots s < 256 → 0 ≤ mNumFreeSlots (run_slots ops s).2 < 256.
Proof.
  induction ops as [|[|] ops IH]; intros s Hs; simpl; [exact Hs| |].
  - pose proof (claimSlot_range s Hs) as Hc.
    destruct (OperationSlots.claimSlot s) as [b s1]. simpl in Hc.
    specialize (IH s1 Hc). destruct (run_slots ops s1) as [bs s2]. exact IH.
  - apply IH. simpl. apply uint8_range.
Qed.

Lemma claimSlot_positive s :
  0 < mNumFreeSlots s < 256 →
  OperationSlots.claimSlot s = (true, {| mNumFreeSlots := mNumFreeSlots s - 1 |}).
Proof.
  intros Hs. unfold OperationSlots.claimSlot.
  destruct (Z.ltb_spec 0 (mNumFreeSlots s)); [|lia].
  by rewrite uint8_small by lia.
Qed.

Lemma claimSlot_empty s :
  ¬ 0 < mNumFreeSlots s → OperationSlots.claimSlot s = (false, s).
Proof.
  intros Hs. unfold OperationSlots.claimSlot.
  destruct (Z.ltb_spec 0 (mNumFreeSlots s)); [lia|done].
Qed.

Lemma run_slots_app ops1 ops2 s :
  run_slots (ops1 ++ ops2) s =
  ((run_slots ops1 s).1 ++ (run_slots ops2 (run_slots ops1 s).2).1,
   (run_slots ops2 (run_slots ops1 s).2).2).
Proof.
  revert s. induction ops1 as [|[|] ops1 IH]; intros s; simpl.
  - by destruct (run_slots ops2 s).
  - destruct (OperationSlots.claimSlot s) as [b s1]. rewrite IH.
    by destruct (run_slots ops1 s1).
  - apply IH.
Qed.

(** [k] claims in a row on a pool with [c] free slots: the first [c] are
    granted, the others refused. *)
Lemma run_slots_claims k : ∀ c,
  0 ≤ c < 256 →
  run_slots (replicate k Claim) {| mNumFreeSlots := c |} =
  (replicate (k `min` Z.to_nat c) true ++ replicate (k - Z.to_nat c) false,
   {| mNumFreeSlots := c - Z.of_nat (k `min` Z.to_nat c) |}).
Proof.
  induction k as [|k IH]; intros c Hc; simpl.
  - f_equal. f_equal. lia.
  - destruct (decide (0 < c)) as [Hpos|Hzero].
    + rewrite claimSlot_positive by (simpl; lia). simpl.
      rewrite IH by lia.
      replace (Z.to_nat c) with (S (Z.to_nat (c - 1))) by lia. simpl.
      do 2 f_equal. lia.
    + rewrite claimSlot_empty by (simpl; lia).
      rewrite IH by lia.
      replace (Z.to_nat c) with 0%nat by lia.
      rewrite Nat.min_0_r, Nat.sub_0_r. reflexivity.
Qed.

(** C2.  A pool configured with capacity [n], after any interleaving [ops] of
    [claimSlot] and [freeSlot] calls: [claimSlot] decrements the counter and
    returns true when the counter is positive, and returns false and leaves
    the pool unchanged otherwise.  Consequently, of [k] claims in a row on
    the fresh pool exactly the first [n] are granted (never more than [n],
    and claim [n + 1] is refused); after [n] granted claims one [freeSlot]
    makes exactly one more claim succeed; and wherever the counter is below
    its ceiling, a [freeSlot] adds exactly one grant. *)
Theorem slot_pool_admission (n : Z) (ops : list SlotCall) (k : nat) :
  0 ≤ n ≤ 255 →
  (0 < mNumFreeSlots (run_slots ops (OperationSlots.setNumFreeSlots n)).2 →
   OperationSlots.claimSlot (run_slots ops (OperationSlots.setNumFreeSlots n)).2 =
   (true,
    {| mNumFreeSlots :=
         mNumFreeSlots (run_slots ops (OperationSlots.setNumFreeSlots n)).2 - 1 |}))
  ∧ (¬ 0 < mNumFreeSlots (run_slots ops (OperationSlots.setNumFreeSlots n)).2 →
     OperationSlots.claimSlot (run_slots ops (OperationSlots.setNumFreeSlots n)).2 =
     (false, (run_slots ops (OperationSlots.setNumFreeSlots n)).2))
  ∧ (run_slots (replicate k Claim) (OperationSlots.setNumFreeSlots n)).1 =
    replicate (k `min` Z.to_nat n) true ++ replicate (k - Z.to_nat n) false
  ∧ (run_slots (replicate (Z.to_nat n) Claim ++ [Free] ++ replicate k Claim)
       (OperationSlots.setNumFreeSlots n)).1 =
    replicate (Z.to_nat n) true ++ replicate (k `min` 1) true ++ replicate (k - 1) false
  ∧ (mNumFreeSlots (run_slots ops (OperationSlots.setNumFreeSlots n)).2 < 255 →
     (run_slots (replicate k Claim)
        (OperationSlots.freeSlot (run_slots ops (OperationSlots.setNumFreeSlots n)).2)).1 =
     replicate
       (k `min` S (Z.to_nat (mNumFreeSlots
                               (run_slots ops (OperationSlots.setNumFreeSlots n)).2)))
       true ++
     replicate
       (k - S (Z.to_nat (mNumFreeSlots
                           (run_slots ops (OperationSlots.setNumFreeSlots n)).2)))
       false).
Proof.
  intros Hn.
  assert (Hpool : OperationSlots.setNumFreeSlots n = {| mNumFreeSlots := n |}).
  { unfold OperationSlots.setNumFreeSlots. by rewrite uint8_small by lia. }
  assert (Hs : 0 ≤ mNumFreeSlots (run_slots ops (OperationSlots.setNumFreeSlots n)).2 < 256).
  { apply run_slots_range. simpl. apply uint8_range. }
  set (s := (run_slots ops (OperationSlots.setNumFreeSlots n)).2) in *.
  split; [intros Hpos; apply claimSlot_positive; lia|].
  split; [apply claimSlot_empty|].
  split; [rewrite Hpool, run_slots_claims by lia; reflexivity|].
  split.
  - rewrite Hpool, run_slots_app, run_slots_claims by lia. simpl.
    rewrite Nat.min_id, Nat.sub_diag, app_nil_r. f_equal.
    replace (n - Z.of_nat (Z.to_nat n)) with 0 by lia.
    unfold OperationSlots.freeSlot. simpl.
    rewrite (uint8_small (0 + 1)) by lia.
    by rewrite run_slots_claims by lia.
  - intros Hroom. unfold OperationSlots.freeSlot.
    rewrite uint8_small by lia. rewrite run_slots_claims by lia. simpl.
    by replace (Z.to_nat (mNumFreeSlots s + 1)) with (S (Z.to_nat (mNumFreeSlots s))) by lia.
Qed.

(** Capacity 3: claims one to three are granted, the fourth and fifth are
    refused; after a release one claim is granted again. *)
Lemma slot_pool_admission_witness :
  0 ≤ 3 ≤ 255
  ∧ (run_slots (replicate 5 Claim) (OperationSlots.setNumFreeSlots 3)).1 =
    [true; true; true; false; false]
  ∧ (run_slots (replicate 3 Claim ++ [Free] ++ replicate 5 Claim)
       (OperationSlots.setNumFreeSlots 3)).1 =
    [true; true; true; true; false; false; false; false].
Proof.
  assert (H3 : 0 ≤ 3 ≤ 255) by lia.
  split; [exact H3|].
  pose proof (slot_pool_admission 3 [Claim; Free] 5 H3) as (_ & _ & Hrow & Hfree & _).
  split; [exact Hrow | exact Hfree].
Defined.

(** The isolated-hardware facade has three slots: three sessions begin, the
    fourth is refused with TOO_MANY_OPERATIONS, and after one finish a
    session begins again. *)
Example strongbox_admits_three_sessions :
  (sample_begin_scenario sample_strongbox_world).1 =
  [StatusOk; StatusOk; StatusOk;
   fromServiceSpecificError ErrorCode.TOO_MANY_OPERATIONS; StatusOk]
  ∧ free_slots (sample_begin_scenario sample_strongbox_world).2 = 0.
Proof. split; reflexivity. Qed.

(** ** Operation sessions *)

Ltac munfold :=
  unfold mbind, mret, M_bind, M_ret, backend, mOperationSlots_freeSlot,
    mOperationSlots_claimSlot, on_slots, get_securityLevel_, set_securityLevel_ in *.

(** The world after the pool of the facade took one slot back. *)
Lemma freeSlot_world w :
  mOperationSlots_freeSlot w =
  (tt, {| this := {| mDevice := mDevice (this w);
                     mOperationSlots := OperationSlots.freeSlot (mOperationSlots (this w));
                     securityLevel_ := securityLevel_ (this w) |};
          calls := calls w |}).
Proof. reflexivity. Qed.

Lemma OperationSlot_freeSlot_active slot w :
  mIsActive slot = true →
  OperationSlot.freeSlot slot w = ({| mIsActive := false |}, (mOperationSlots_freeSlot w).2).
Proof. intros H. unfold OperationSlot.freeSlot. rewrite H. reflexivity. Qed.

Lemma OperationSlot_freeSlot_inactive slot w :
  mIsActive slot = false → OperationSlot.freeSlot slot w = (slot, w).
Proof. intros H. unfold OperationSlot.freeSlot. rewrite H. reflexivity. Qed.

Lemma isOk_convertErrorCode e : isOk (convertErrorCode e) = bool_decide (e = ErrorCode.OK).
Proof.
  unfold convertErrorCode. destruct (Z.eqb_spec e ErrorCode.OK) as [->|Hne].
  - reflexivity.
  - symmetry. by apply bool_decide_eq_false_2.
Qed.

(** What one call does to a session and to the pool: it leaves both as they
    are, or it ends the session and gives the slot back; a call that ends a
    session never leaves an active one. *)
Lemma run_call_active E c op w op' w' :
  mIsActive (mOperationSlot op) = true →
  run_call E c op w = (op', w') →
  (ends_session c = false ∧ mIsActive (mOperationSlot op') = true
     ∧ mOperationSlots (this w') = mOperationSlots (this w))
  ∨ (mIsActive (mOperationSlot op') = false
     ∧ mOperationSlots (this w') = OperationSlots.freeSlot (mOperationSlots (this w))).
Proof.
  intros Hact Hrun. destruct c as [p i a v out|p i s a v out| |]; simpl in Hrun.
  - unfold KeyMintOperation.update in Hrun. munfold. simpl in Hrun.
    destruct (km_update _ _ _ _ _ _ _) as [[[[e consumed] outParams] output]|].
    + destruct (bool_decide (e ≠ ErrorCode.OK)).
      * rewrite OperationSlot_freeSlot_active in Hrun by done. simpl in Hrun.
        inversion Hrun; subst. right. done.
      * inversion Hrun; subst. left. done.
    + rewrite OperationSlot_freeSlot_active in Hrun by done. simpl in Hrun.
      inversion Hrun; subst. right. done.
  - unfold KeyMintOperation.finish in Hrun. munfold. simpl in Hrun.
    rewrite OperationSlot_freeSlot_active in Hrun by done. simpl in Hrun.
    destruct (km_finish _ _ _ _ _ _ _ _) as [[[e outParams] output]|];
      inversion Hrun; subst; right; done.
  - unfold KeyMintOperation.abort in Hrun. munfold. simpl in Hrun.
    rewrite OperationSlot_freeSlot_active in Hrun by done. simpl in Hrun.
    inversion Hrun; subst; right; done.
  - unfold KeyMintOperation.destroy, OperationSlot.hasSlot in Hrun. rewrite Hact in Hrun.
    unfold KeyMintOperation.abort in Hrun. munfold. simpl in Hrun.
    rewrite OperationSlot_freeSlot_active in Hrun by done. simpl in Hrun.
    inversion Hrun; subst; right; done.
Qed.

(** On a session that has ended no call touches the pool. *)
Lemma run_call_inactive E c op w op' w' :
  mIsActive (mOperationSlot op) = false →
  run_call E c op w = (op', w') →
  mIsActive (mOperationSlot op') = false
  ∧ mOperationSlots (this w') = mOperationSlots (this w).
Proof.
  intros Hact Hrun. destruct c as [p i a v out|p i s a v out| |]; simpl in Hrun.
  - unfold KeyMintOperation.update in Hrun. munfold. simpl in Hrun.
    destruct (km_update _ _ _ _ _ _ _) as [[[[e consumed] outParams] output]|].
    + destruct (bool_decide (e ≠ ErrorCode.OK)).
      * rewrite OperationSlot_freeSlot_inactive in Hrun by done.
        inversion Hrun; subst. done.
      * inversion Hrun; subst. done.
    + rewrite OperationSlot_freeSlot_inactive in Hrun by done.
      inversion Hrun; subst. done.
  - unfold KeyMintOperation.finish in Hrun. munfold. simpl in Hrun.
    rewrite OperationSlot_freeSlot_inactive in Hrun by done.
    destruct (km_finish _ _ _ _ _ _ _ _) as [[[e outParams] output]|];
      inversion Hrun; subst; done.
  - unfold KeyMintOperation.abort in Hrun. munfold. simpl in Hrun.
    rewrite OperationSlot_freeSlot_inactive in Hrun by done.
    inversion Hrun; subst; done.
  - unfold KeyMintOperation.destroy, OperationSlot.hasSlot in Hrun. rewrite Hact in Hrun.
    inversion Hrun; subst; done.
Qed.

Lemma run_calls_inactive E cs : ∀ op w op' w' counts,
  mIsActive (mOperationSlot op) = false →
  run_calls E cs op w = (op', w', counts) →
  mIsActive (mOperationSlot op') = false
  ∧ mOperationSlots (this w') = mOperationSlots (this w)
  ∧ counts = replicate (length cs) (free_slots w).
Proof.
  induction cs as [|c cs IH]; intros op w op' w' counts Hact Hrun; simpl in Hrun.
  - by inversion Hrun; subst.
  - destruct (run_call E c op w) as [op1 w1] eqn:Hcall.
    destruct (run_calls E cs op1 w1) as [[op2 w2] counts2] eqn:Hrest.
    inversion Hrun; subst. clear Hrun.
    destruct (run_call_inactive _ _ _ _ _ _ Hact Hcall) as [Hact1 Hpool1].
    destruct (IH _ _ _ _ _ Hact1 Hrest) as (Hact2 & Hpool2 & Hcounts).
    split; [done|]. split; [congruence|].
    simpl. unfold free_slots in *. rewrite Hcounts. by rewrite Hpool1.
Qed.

(** A run on an active session: the pool keeps its count during the first
    [j] calls and holds one slot more from then on; [j] is the whole run
    only if no call of the run ends a session. *)
Lemma run_calls_active E cs : ∀ op w op' w' counts,
  mIsActive (mOperationSlot op) = true →
  run_calls E cs op w = (op', w', counts) →
  ∃ j : nat,
    counts = replicate j (free_slots w) ++
             replicate (length cs - j)
               (mNumFreeSlots (OperationSlots.freeSlot (mOperationSlots (this w))))
    ∧ ((j = length cs ∧ mIsActive (mOperationSlot op') = true
          ∧ mOperationSlots (this w') = mOperationSlots (this w)
          ∧ Forall (λ c, ends_session c = false) cs)
       ∨ ((j < length cs)%nat ∧ mIsActive (mOperationSlot op') = false
          ∧ mOperationSlots (this w') = OperationSlots.freeSlot (mOperationSlots (this w)))).
Proof.
  induction cs as [|c cs IH]; intros op w op' w' counts Hact Hrun; simpl in Hrun.
  - inversion Hrun; subst. exists 0%nat. split; [done|]. left. by repeat split.
  - destruct (run_call E c op w) as [op1 w1] eqn:Hcall.
    destruct (run_calls E cs op1 w1) as [[op2 w2] counts2] eqn:Hrest.
    inversion Hrun; subst. clear Hrun.
    destruct (run_call_active _ _ _ _ _ _ Hact Hcall)
      as [(Hc & Hact1 & Hpool1)|(Hact1 & Hpool1)].
    + destruct (IH _ _ _ _ _ Hact1 Hrest) as (j & Hcounts & Hcases).
      exists (S j). unfold free_slots in *. rewrite Hpool1 in *.
      split; [simpl; by rewrite Hcounts|].
      destruct Hcases as [(-> & Hact2 & Hpool2 & Hall)|(Hj & Hact2 & Hpool2)].
      * left. repeat split; try done. by constructor.
      * right. repeat split; try done. simpl. lia.
    + destruct (run_calls_inactive _ _ _ _ _ _ _ Hact1 Hrest) as (Hact2 & Hpool2 & Hcounts).
      exists 0%nat. unfold free_slots in *. rewrite Hpool1 in *.
      split; [simpl; by rewrite Hcounts|].
      right. repeat split; try done. simpl. lia.
Qed.

(** A [begin] that returns ok took one slot and made an active session. *)
Lemma begin_ok E purpose blob kps tok out w0 status res w1 :
  0 ≤ free_slots w0 < 256 →
  KeyMintDevice.begin E purpose blob kps tok out w0 = (status, res, w1) →
  isOk status = true →
  ∃ op, operation res = Some op
        ∧ mIsActive (mOperationSlot op) = true
        ∧ 0 < free_slots w0
        ∧ free_slots w1 = free_slots w0 - 1.
Proof.
  intros Hrange Hbegin Hok. unfold KeyMintDevice.begin in Hbegin. munfold.
  unfold free_slots in *. simpl in Hbegin.
  unfold OperationSlots.claimSlot in Hbegin.
  destruct (Z.ltb_spec 0 (mNumFreeSlots (mOperationSlots (this w0)))) as [Hpos|Hzero];
    simpl in Hbegin.
  - destruct (km_begin _ _ _ _ _ _) as [[[e outParams] handle]|]; simpl in Hbegin.
    + destruct (decide (e = ErrorCode.OK)) as [->|Hne].
      * simpl in Hbegin. inversion Hbegin; subst. simpl.
        eexists. split; [reflexivity|]. simpl.
        split; [done|]. split; [done|]. apply uint8_small. lia.
      * rewrite bool_decide_eq_true_2 in Hbegin by done. simpl in Hbegin.
        inversion Hbegin; subst. rewrite isOk_convertErrorCode in Hok.
        by rewrite bool_decide_eq_false_2 in Hok.
    + inversion Hbegin; subst. done.
  - inversion Hbegin; subst. done.
Qed.

(** C1.  A session made by a successful [begin], driven by any sequence of
    update, finish, abort and destructor calls that ends in a finish, an
    abort or the destruction: [begin] takes one slot; over the run the
    number of free slots stays at that level for the first [j] calls, one
    call returns it to its value before [begin], and it stays there for the
    rest; the session is left inactive, and [OperationSlot::freeSlot] on it
    changes nothing any more.  The slot is released once, never twice and
    never zero times. *)
Theorem session_releases_slot_once E purpose blob kps tok out cs w0 status res w1 :
  0 ≤ free_slots w0 < 256 →
  KeyMintDevice.begin E purpose blob kps tok out w0 = (status, res, w1) →
  isOk status = true →
  (∃ c, last cs = Some c ∧ ends_session c = true) →
  ∃ op op' w2 counts (j : nat),
    operation res = Some op
    ∧ free_slots w1 = free_slots w0 - 1
    ∧ run_calls E cs op w1 = (op', w2, counts)
    ∧ (j < length cs)%nat
    ∧ counts = replicate j (free_slots w0 - 1) ++ replicate (length cs - j) (free_slots w0)
    ∧ free_slots w2 = free_slots w0
    ∧ mIsActive (mOperationSlot op') = false
    ∧ OperationSlot.freeSlot (mOperationSlot op') w2 = (mOperationSlot op', w2).
Proof.
  intros Hrange Hbegin Hok (c & Hlast & Hends).
  pose proof (begin_ok _ _ _ _ _ _ _ _ _ _ Hrange Hbegin Hok) as (op & Hop & Hact & Hpos & Hw1).
  destruct (run_calls E cs op w1) as [[op' w2] counts] eqn:Hrun.
  destruct (run_calls_active _ _ _ _ _ _ _ Hact Hrun) as (j & Hcounts & Hcases).
  assert (Hfree : mNumFreeSlots (OperationSlots.freeSlot (mOperationSlots (this w1)))
                  = free_slots w0).
  { unfold free_slots in *. simpl. rewrite Hw1. rewrite uint8_small by lia. lia. }
  destruct Hcases as [(_ & _ & _ & Hall)|(Hj & Hact' & Hpool)].
  - exfalso. rewrite Forall_forall in Hall.
    pose proof (last_Some_elem_of _ _ Hlast) as Hin.
    specialize (Hall c Hin). congruence.
  - exists op, op', w2, counts, j.
    rewrite Hfree, Hw1 in Hcounts.
    repeat split; try done.
    + unfold free_slots at 1. by rewrite Hpool.
    + by apply OperationSlot_freeSlot_inactive.
Qed.

(** On the isolated-hardware facade (three slots): [begin], then an update,
    the finish, a late abort and the destructor leave three free slots. *)
Lemma session_releases_slot_once_witness :
  0 ≤ free_slots sample_strongbox_world < 256
  ∧ isOk (KeyMintDevice.begin sample_externals SIGN sample_blob [] HardwareAuthToken_default
            BeginResult_default sample_strongbox_world).1.1 = true
  ∧ ∃ op op' w2 counts,
      operation
        (KeyMintDevice.begin sample_externals SIGN sample_blob [] HardwareAuthToken_default
           BeginResult_default sample_strongbox_world).1.2 = Some op
      ∧ run_calls sample_externals sample_session_calls op
          (KeyMintDevice.begin sample_externals SIGN sample_blob [] HardwareAuthToken_default
             BeginResult_default sample_strongbox_world).2 = (op', w2, counts)
      ∧ free_slots w2 = free_slots sample_strongbox_world
      ∧ mIsActive (mOperationSlot op') = false.
Proof.
  assert (Hrange : 0 ≤ free_slots sample_strongbox_world < 256).
  { change (free_slots sample_strongbox_world) with 3. lia. }
  assert (Hok : isOk (KeyMintDevice.begin sample_externals SIGN sample_blob []
                        HardwareAuthToken_default BeginResult_default
                        sample_strongbox_world).1.1 = true) by reflexivity.
  split; [exact Hrange|]. split; [exact Hok|].
  destruct (session_releases_slot_once sample_externals SIGN sample_blob []
              HardwareAuthToken_default BeginResult_default sample_session_calls
              sample_strongbox_world _ _ _ Hrange eq_refl Hok
              (ex_intro _ DoDestroy (conj eq_refl eq_refl)))
    as (op & op' & w2 & counts & j & Hop & _ & Hrun & _ & _ & Hfree & Hact & _).
  exists op, op', w2, counts. done.
Defined.

(** C7.  An update on an active session.  Its status is ok exactly when the
    backend was reached and reported OK.  When it is not ok (the transport
    failed, or the backend reported an error code) the session is left
    inactive and its slot is back in the pool: the pool is the old one after
    one [freeSlot], which counts one free slot more (the counter is a
    [uint8_t]; below 255 the increment does not wrap).  When it is ok the
    session stays active and the pool, with its count, is as before. *)
Theorem update_failure_ends_session E op p i a v out w status out' op' w' :
  mIsActive (mOperationSlot op) = true →
  KeyMintOperation.update E op p i a v out w = (status, out', op', w') →
  (isOk status = true ↔
   ∃ consumed outParams output,
     km_update (mDevice (this w)) (calls w) (mOperationHandle op)
       (from_option (convertKeyParametersToLegacy E) [] p) (default [] i)
       (from_option convertAuthTokenToLegacy (indeterminate_authToken E) a)
       (from_option convertVerificationTokenToLegacy (indeterminate_verificationToken E) v)
     = TransportOk (ErrorCode.OK, consumed, outParams, output))
  ∧ (isOk status = false →
     mIsActive (mOperationSlot op') = false
     ∧ mOperationSlots (this w') = OperationSlots.freeSlot (mOperationSlots (this w))
     ∧ (0 ≤ free_slots w < 255 → free_slots w' = free_slots w + 1))
  ∧ (isOk status = true →
     mIsActive (mOperationSlot op') = true
     ∧ mOperationSlots (this w') = mOperationSlots (this w)
     ∧ free_slots w' = free_slots w).
Proof.
  intros Hact Hrun. unfold KeyMintOperation.update in Hrun. munfold. simpl in Hrun.
  assert (Hcount : ∀ w0 : World,
            mOperationSlots (this w0) = OperationSlots.freeSlot (mOperationSlots (this w)) →
            0 ≤ free_slots w < 255 → free_slots w0 = free_slots w + 1).
  { intros w0 Hpool Hrange. unfold free_slots in *. rewrite Hpool. simpl.
    apply uint8_small. lia. }
  destruct (km_update _ _ _ _ _ _ _) as [[[[e consumed] outParams] output]|].
  - destruct (decide (e = ErrorCode.OK)) as [->|Hne].
    + simpl in Hrun. inversion Hrun; subst. simpl.
      split; [split; [intros _; by eauto|done]|]. split; [done|]. by rewrite Hact.
    + rewrite bool_decide_eq_true_2 in Hrun by done.
      rewrite OperationSlot_freeSlot_active in Hrun by done. simpl in Hrun.
      inversion Hrun; subst. rewrite isOk_convertErrorCode.
      rewrite bool_decide_eq_false_2 by done.
      split; [split; [done|intros (? & ? & ? & Heq); congruence]|].
      split; [|done]. intros _. split; [done|]. split; [done|]. by apply Hcount.
  - rewrite OperationSlot_freeSlot_active in Hrun by done. simpl in Hrun.
    inversion Hrun; subst. simpl.
    split; [split; [done|intros (? & ? & ? & Heq); congruence]|].
    split; [|done]. intros _. split; [done|]. split; [done|]. by apply Hcount.
Qed.

(** An update that does not reach the backend: the session ends and the
    fifteen free slots become sixteen. *)
Lemma update_failure_ends_session_witness :
  mIsActive (mOperationSlot sample_operation) = true
  ∧ isOk (KeyMintOperation.update sample_externals sample_operation None (Some [x01]) None
            None sample_update_out sample_unreachable_update_world).1.1.1 = false
  ∧ mIsActive (mOperationSlot
                 (KeyMintOperation.update sample_externals sample_operation None
                    (Some [x01]) None None sample_update_out
                    sample_unreachable_update_world).1.2) = false
  ∧ free_slots sample_unreachable_update_world = 15
  ∧ free_slots (KeyMintOperation.update sample_externals sample_operation None (Some [x01])
                  None None sample_update_out sample_unreachable_update_world).2
    = free_slots sample_unreachable_update_world + 1.
Proof.
  assert (Hact : mIsActive (mOperationSlot sample_operation) = true) by reflexivity.
  assert (Hfail : isOk (KeyMintOperation.update sample_externals sample_operation None
                          (Some [x01]) None None sample_update_out
                          sample_unreachable_update_world).1.1.1 = false) by reflexivity.
  assert (Hrange : 0 ≤ free_slots sample_unreachable_update_world < 255).
  { change (free_slots sample_unreachable_update_world) with 15. lia. }
  split; [exact Hact|]. split; [exact Hfail|].
  destruct (proj1 (proj2 (update_failure_ends_session sample_externals sample_operation None
                            (Some [x01]) None None sample_update_out
                            sample_unreachable_update_world _ _ _ _ Hact eq_refl)) Hfail)
    as (Hinactive & _ & Hcount).
  split; [exact Hinactive|]. split; [reflexivity|]. exact (Hcount Hrange).
Defined.

(** ** Parameter selection *)

(** C4.  [getMaximum] on the parameters [PADDING = RSA_PKCS1_1_5_SIGN] with
    the preference list [RSA_PSS, RSA_PKCS1_1_5_SIGN]: the only value on
    offer is in the list, the selection rule of the specification picks it,
    and [getMaximum] returns [RSA_PSS], the head of the list.  The loop never
    replaces [bestSoFar]: no iterator lies behind [end()], so
    [std::distance(it, bestSoFar)] is never negative, and the function
    returns [sortedOptions[0]] for every input. *)
Theorem getMaximum_ignores_parameters :
  getMaximum [KP_PADDING RSA_PKCS1_1_5_SIGN] TAG_PADDING [RSA_PSS; RSA_PKCS1_1_5_SIGN]
  = Some RSA_PSS
  ∧ best_of_spec [KP_PADDING RSA_PKCS1_1_5_SIGN] TAG_PADDING [RSA_PSS; RSA_PKCS1_1_5_SIGN]
    = Some RSA_PKCS1_1_5_SIGN
  ∧ ∀ (keyParams : list KeyParameter) (sortedOptions : list PaddingMode),
      getMaximum keyParams TAG_PADDING sortedOptions = sortedOptions !! 0%nat.
Proof.
  split; [reflexivity|]. split; [reflexivity|].
  intros keyParams sortedOptions. apply getMaximum_is_first.
Qed.

(** ** Certificates for new keys *)

Lemma getCertificate_no_algorithm E kps blob w :
  getParam kps TAG_ALGORITHM = None →
  KeyMintDevice.getCertificate E kps blob w = (inr ErrorCode.UNKNOWN_ERROR, w).
Proof. intros H. unfold KeyMintDevice.getCertificate. by rewrite H. Qed.

Lemma getCertificate_symmetric E kps blob w a :
  getParam kps TAG_ALGORITHM = Some a → a ≠ RSA → a ≠ EC →
  KeyMintDevice.getCertificate E kps blob w = (inr ErrorCode.OK, w).
Proof.
  intros H Hrsa Hec. unfold KeyMintDevice.getCertificate. rewrite H.
  by destruct a.
Qed.

(** [generateKey] once the backend has made the key and [getCertificate] has
    returned an error code. *)
Lemma generateKey_certificate_error E kps out w blob kc code w2 :
  km_generateKey (mDevice (this w)) (calls w) (convertKeyParametersToLegacy E kps)
  = TransportOk (ErrorCode.OK, blob, kc) →
  KeyMintDevice.getCertificate E kps blob
    {| this := this w;
       calls := calls w ++ [Call_generateKey (convertKeyParametersToLegacy E kps)] |}
  = (inr code, w2) →
  KeyMintDevice.generateKey E kps out w =
  if bool_decide (code ≠ ErrorCode.OK) then
    (fromServiceSpecificError code,
     {| keyBlob := blob;
        keyCharacteristics :=
          convertKeyCharacteristicsFromLegacy E (securityLevel_ (this w)) kc;
        certificateChain := certificateChain out |},
     {| this := this w2; calls := calls w2 ++ [Call_deleteKey blob] |})
  else
    (StatusOk,
     {| keyBlob := blob;
        keyCharacteristics :=
          convertKeyCharacteristicsFromLegacy E (securityLevel_ (this w)) kc;
        certificateChain := certificateChain out |},
     w2).
Proof.
  intros Hgen Hcert. unfold KeyMintDevice.generateKey. munfold. simpl.
  rewrite Hgen. simpl. rewrite Hcert.
  destruct (decide (code = ErrorCode.OK)) as [->|Hne]; [reflexivity|].
  rewrite bool_decide_eq_true_2 by done. unfold KeyMintDevice.deleteKey. munfold.
  unfold convertErrorCode. destruct (Z.eqb_spec code ErrorCode.OK); [done|]. reflexivity.
Qed.

Lemma importKey_certificate_error E kps format keyData out w blob kc code w2 :
  km_importKey (mDevice (this w)) (calls w) (convertKeyParametersToLegacy E kps)
    format keyData
  = TransportOk (ErrorCode.OK, blob, kc) →
  KeyMintDevice.getCertificate E kps blob
    {| this := this w;
       calls := calls w ++
                [Call_importKey (convertKeyParametersToLegacy E kps) format keyData] |}
  = (inr code, w2) →
  KeyMintDevice.importKey E kps format keyData out w =
  if bool_decide (code ≠ ErrorCode.OK) then
    (fromServiceSpecificError code,
     {| keyBlob := blob;
        keyCharacteristics :=
          convertKeyCharacteristicsFromLegacy E (securityLevel_ (this w)) kc;
        certificateChain := certificateChain out |},
     {| this := this w2; calls := calls w2 ++ [Call_deleteKey blob] |})
  else
    (StatusOk,
     {| keyBlob := blob;
        keyCharacteristics :=
          convertKeyCharacteristicsFromLegacy E (securityLevel_ (this w)) kc;
        certificateChain := certificateChain out |},
     w2).
Proof.
  intros Himp Hcert. unfold KeyMintDevice.importKey. munfold. simpl.
  rewrite Himp. simpl. rewrite Hcert.
  destruct (decide (code = ErrorCode.OK)) as [->|Hne]; [reflexivity|].
  rewrite bool_decide_eq_true_2 by done. unfold KeyMintDevice.deleteKey. munfold.
  unfold convertErrorCode. destruct (Z.eqb_spec code ErrorCode.OK); [done|]. reflexivity.
Qed.

Lemma makeCert_transport_error E kps blob w :
  km_exportKey (mDevice (this w)) (calls w) X509_format blob
    (unwrapBlob (getParam kps TAG_APPLICATION_ID))
    (unwrapBlob (getParam kps TAG_APPLICATION_DATA)) = TransportError →
  makeCert E kps blob w =
  (inr ErrorCode.UNKNOWN_ERROR,
   {| this := this w;
      calls := calls w ++
               [Call_exportKey X509_format blob
                  (unwrapBlob (getParam kps TAG_APPLICATION_ID))
                  (unwrapBlob (getParam kps TAG_APPLICATION_DATA))] |}).
Proof. intros H. unfold makeCert. munfold. simpl. by rewrite H. Qed.


(** For an asymmetric key without an attestation challenge, an error of
    [makeCert] is the result of [getCertificate]. *)
Lemma getCertificate_makeCert_error E kps blob w a code w' :
  getParam kps TAG_ALGORITHM = Some a → a = RSA ∨ a = EC →
  containsParam kps TAG_ATTESTATION_CHALLENGE = false →
  makeCert E kps blob w = (inr code, w') →
  KeyMintDevice.getCertificate E kps blob w = (inr code, w').
Proof.
  intros Ha Hasym Hch Hmake. unfold KeyMintDevice.getCertificate. rewrite Ha, Hch.
  destruct Hasym as [-> | ->]; munfold; by rewrite Hmake.
Qed.

(** For an asymmetric key with an attestation challenge, [getCertificate] is
    the answer of [attestKey]. *)
Lemma getCertificate_attest E kps blob w a :
  getParam kps TAG_ALGORITHM = Some a → a = RSA ∨ a = EC →
  containsParam kps TAG_ATTESTATION_CHALLENGE = true →
  KeyMintDevice.getCertificate E kps blob w =
  (match km_attestKey (mDevice (this w)) (calls w) blob (convertKeyParametersToLegacy E kps)
   with
   | TransportError => inr ErrorCode.UNKNOWN_ERROR
   | TransportOk (e, certChain) =>
       if bool_decide (e ≠ ErrorCode.OK) then inr e
       else inl (map (λ cert, {| encodedCertificate := cert |}) certChain)
   end,
   {| this := this w;
      calls := calls w ++ [Call_attestKey blob (convertKeyParametersToLegacy E kps)] |}).
Proof.
  intros Ha Hasym Hch. unfold KeyMintDevice.getCertificate. rewrite Ha, Hch.
  destruct Hasym as [-> | ->]; munfold; simpl;
    (destruct (km_attestKey _ _ _ _) as [[e chain]|]; [|done];
     by destruct (bool_decide (e ≠ ErrorCode.OK))).
Qed.

(** ** The error codes of certificate synthesis *)













(** A failure of the certificate library: the backend makes an EC key and
    exports it, [encodeCert] fails; the key is deleted and [generateKey]
    reports UNKNOWN_ERROR. *)
Example library_failure_reports_unknown_error :
  KeyMintDevice.generateKey sample_externals_no_encoding [KP_ALGORITHM EC]
    KeyCreationResult_default sample_tee_world
  = (fromServiceSpecificError ErrorCode.UNKNOWN_ERROR,
     {| keyBlob := sample_blob;
        keyCharacteristics := [ {| kc_securityLevel := None; kc_authorizations := [] |} ];
        certificateChain := [] |},
     {| this := this sample_tee_world;
        calls := [Call_generateKey (sample_legacy [KP_ALGORITHM EC]);
                  Call_exportKey X509_format sample_blob [] [];
                  Call_deleteKey sample_blob] |}).
Proof. reflexivity. Qed.

(** An error code of [attestKey] is handed on: the backend makes an EC key
    and refuses the attestation with [INVALID_KEY_BLOB]; the key is deleted
    and [generateKey] reports [INVALID_KEY_BLOB]. *)
Example attest_failure_reports_backend_code :
  KeyMintDevice.generateKey sample_externals
    [KP_ALGORITHM EC; KP_ATTESTATION_CHALLENGE [x01]]
    KeyCreationResult_default sample_attest_refused_world
  = (fromServiceSpecificError ErrorCode.INVALID_KEY_BLOB,
     {| keyBlob := sample_blob;
        keyCharacteristics := [ {| kc_securityLevel := None; kc_authorizations := [] |} ];
        certificateChain := [] |},
     {| this := this sample_attest_refused_world;
        calls := [Call_generateKey
                    (sample_legacy [KP_ALGORITHM EC; KP_ATTESTATION_CHALLENGE [x01]]);
                  Call_attestKey sample_blob
                    (sample_legacy [KP_ALGORITHM EC; KP_ATTESTATION_CHALLENGE [x01]]);
                  Call_deleteKey sample_blob] |}).
Proof. reflexivity. Qed.

(** C9.  A key-creation request whose first algorithm parameter is neither
    RSA nor EC.  [getCertificate] returns OK without a call to the backend:
    no certificate is synthesised.  When the backend makes the key,
    [generateKey] and [importKey] return ok, the certificate chain of the
    result is the empty one the caller passed in, and the creation call is
    the only call the backend has received. *)
Theorem symmetric_key_has_no_certificate E kps format keyData out w a :
  getParam kps TAG_ALGORITHM = Some a → a ≠ RSA → a ≠ EC →
  certificateChain out = [] →
  (∀ blob w1, KeyMintDevice.getCertificate E kps blob w1 = (inr ErrorCode.OK, w1))
  ∧ (∀ blob kc,
       km_generateKey (mDevice (this w)) (calls w) (convertKeyParametersToLegacy E kps)
       = TransportOk (ErrorCode.OK, blob, kc) →
       KeyMintDevice.generateKey E kps out w =
       (StatusOk,
        {| keyBlob := blob;
           keyCharacteristics :=
             convertKeyCharacteristicsFromLegacy E (securityLevel_ (this w)) kc;
           certificateChain := [] |},
        {| this := this w;
           calls := calls w ++ [Call_generateKey (convertKeyParametersToLegacy E kps)] |}))
  ∧ (∀ blob kc,
       km_importKey (mDevice (this w)) (calls w) (convertKeyParametersToLegacy E kps)
         format keyData
       = TransportOk (ErrorCode.OK, blob, kc) →
       KeyMintDevice.importKey E kps format keyData out w =
       (StatusOk,
        {| keyBlob := blob;
           keyCharacteristics :=
             convertKeyCharacteristicsFromLegacy E (securityLevel_ (this w)) kc;
           certificateChain := [] |},
        {| this := this w;
           calls := calls w ++
                    [Call_importKey (convertKeyParametersToLegacy E kps) format keyData] |})).
Proof.
  intros Ha Hrsa Hec Hout.
  assert (Hcert : ∀ blob w1,
             KeyMintDevice.getCertificate E kps blob w1 = (inr ErrorCode.OK, w1)).
  { intros blob w1. by apply (getCertificate_symmetric _ _ _ _ a). }
  split; [exact Hcert|]. split.
  - intros blob kc Hgen.
    rewrite (generateKey_certificate_error _ _ _ _ _ _ _ _ Hgen (Hcert _ _)).
    by rewrite Hout.
  - intros blob kc Himp.
    rewrite (importKey_certificate_error _ _ _ _ _ _ _ _ _ _ Himp (Hcert _ _)).
    by rewrite Hout.
Qed.

(** An AES key on the sample facade: ok, no certificate, one backend call. *)
Lemma symmetric_key_has_no_certificate_witness :
  getParam [KP_ALGORITHM AES] TAG_ALGORITHM = Some AES
  ∧ AES ≠ RSA ∧ AES ≠ EC
  ∧ certificateChain KeyCreationResult_default = []
  ∧ KeyMintDevice.generateKey sample_externals [KP_ALGORITHM AES] KeyCreationResult_default
      sample_tee_world
    = (StatusOk,
       {| keyBlob := sample_blob;
          keyCharacteristics := [ {| kc_securityLevel := None; kc_authorizations := [] |} ];
          certificateChain := [] |},
       {| this := this sample_tee_world;
          calls := [Call_generateKey (sample_legacy [KP_ALGORITHM AES])] |}).
Proof.
  assert (Hrsa : AES ≠ RSA) by discriminate.
  assert (Hec : AES ≠ EC) by discriminate.
  repeat (split; [done|]).
  exact (proj1 (proj2 (symmetric_key_has_no_certificate sample_externals [KP_ALGORITHM AES]
                         RAW [] KeyCreationResult_default sample_tee_world AES
                         eq_refl Hrsa Hec eq_refl))
           sample_blob sample_characteristics eq_refl).
Defined.

(** C10.  Key parameters without an algorithm parameter: [getCertificate]
    returns unknown-error (without a call to the backend), and when the
    backend has made the key, [generateKey] deletes it and reports
    unknown-error: the calls the backend receives are the creation and the
    deletion of the key. *)
Theorem missing_algorithm_fails_key_creation E kps out w blob kc :
  getParam kps TAG_ALGORITHM = None →
  km_generateKey (mDevice (this w)) (calls w) (convertKeyParametersToLegacy E kps)
  = TransportOk (ErrorCode.OK, blob, kc) →
  (∀ blob1 w1,
     KeyMintDevice.getCertificate E kps blob1 w1 = (inr ErrorCode.UNKNOWN_ERROR, w1))
  ∧ KeyMintDevice.generateKey E kps out w =
    (fromServiceSpecificError ErrorCode.UNKNOWN_ERROR,
     {| keyBlob := blob;
        keyCharacteristics :=
          convertKeyCharacteristicsFromLegacy E (securityLevel_ (this w)) kc;
        certificateChain := certificateChain out |},
     {| this := this w;
        calls := calls w ++ [Call_generateKey (convertKeyParametersToLegacy E kps);
                             Call_deleteKey blob] |}).
Proof.
  intros Ha Hgen.
  assert (Hcert : ∀ blob1 w1,
             KeyMintDevice.getCertificate E kps blob1 w1
             = (inr ErrorCode.UNKNOWN_ERROR, w1)).
  { intros blob1 w1. by apply getCertificate_no_algorithm. }
  split; [exact Hcert|].
  rewrite (generateKey_certificate_error _ _ _ _ _ _ _ _ Hgen (Hcert _ _)).
  simpl. by rewrite <- app_assoc.
Qed.

(** A request that names a purpose but no algorithm: the key is made,
    deleted again, and the call reports unknown-error. *)
Lemma missing_algorithm_fails_key_creation_witness :
  getParam [KP_PURPOSE SIGN] TAG_ALGORITHM = None
  ∧ km_generateKey (mDevice (this sample_tee_world)) (calls sample_tee_world)
      (sample_legacy [KP_PURPOSE SIGN])
    = TransportOk (ErrorCode.OK, sample_blob, sample_characteristics)
  ∧ KeyMintDevice.generateKey sample_externals [KP_PURPOSE SIGN] KeyCreationResult_default
      sample_tee_world
    = (fromServiceSpecificError ErrorCode.UNKNOWN_ERROR,
       {| keyBlob := sample_blob;
          keyCharacteristics := [ {| kc_securityLevel := None; kc_authorizations := [] |} ];
          certificateChain := [] |},
       {| this := this sample_tee_world;
          calls := [Call_generateKey (sample_legacy [KP_PURPOSE SIGN]);
                    Call_deleteKey sample_blob] |}).
Proof.
  repeat (split; [reflexivity|]).
  exact (proj2 (missing_algorithm_fails_key_creation sample_externals [KP_PURPOSE SIGN]
                  KeyCreationResult_default sample_tee_world sample_blob
                  sample_characteristics eq_refl eq_refl)).
Defined.

(** ** Transport failures *)

(** C6 (as amended).  Where the layer asks a backend call for [isOk()]
    directly in an entry point ([getHardwareInfo], [generateKey],
    [importKey], [importWrappedKey], [upgradeKey], [begin], [update],
    [finish]), a transport failure is reported as the service-specific error
    [ResponseCode::SYSTEM_ERROR].  On the certificate paths a transport
    failure of [exportKey] or of [attestKey] makes [getCertificate] return
    the legacy code [UNKNOWN_ERROR], and [generateKey] reports that code. *)
Theorem transport_failure_codes E w kps format keyData out
    hi wrapped wrapping masking pwSid bioSid upgraded purpose tok bout
    op p i s a v uout fout blob kc alg :
  (km_getHardwareInfo (mDevice (this w)) (calls w) = TransportError →
   (KeyMintDevice.getHardwareInfo hi w).1.1
   = fromServiceSpecificError ResponseCode.SYSTEM_ERROR)
  ∧ (km_generateKey (mDevice (this w)) (calls w) (convertKeyParametersToLegacy E kps)
     = TransportError →
     (KeyMintDevice.generateKey E kps out w).1.1
     = fromServiceSpecificError ResponseCode.SYSTEM_ERROR)
  ∧ (km_importKey (mDevice (this w)) (calls w) (convertKeyParametersToLegacy E kps)
       format keyData = TransportError →
     (KeyMintDevice.importKey E kps format keyData out w).1.1
     = fromServiceSpecificError ResponseCode.SYSTEM_ERROR)
  ∧ (km_importWrappedKey (mDevice (this w)) (calls w) wrapped wrapping masking
       (convertKeyParametersToLegacy E kps) (to_uint64 pwSid) (to_uint64 bioSid)
     = TransportError →
     (KeyMintDevice.importWrappedKey E wrapped wrapping masking kps pwSid bioSid out w).1.1
     = fromServiceSpecificError ResponseCode.SYSTEM_ERROR)
  ∧ (km_upgradeKey (mDevice (this w)) (calls w) blob (convertKeyParametersToLegacy E kps)
     = TransportError →
     (KeyMintDevice.upgradeKey E blob kps upgraded w).1.1
     = fromServiceSpecificError ResponseCode.SYSTEM_ERROR)
  ∧ (0 < free_slots w →
     km_begin (mDevice (this w)) (calls w) purpose blob (convertKeyParametersToLegacy E kps)
       (convertAuthTokenToLegacy tok) = TransportError →
     (KeyMintDevice.begin E purpose blob kps tok bout w).1.1
     = fromServiceSpecificError ResponseCode.SYSTEM_ERROR)
  ∧ (km_update (mDevice (this w)) (calls w) (mOperationHandle op)
       (from_option (convertKeyParametersToLegacy E) [] p) (default [] i)
       (from_option convertAuthTokenToLegacy (indeterminate_authToken E) a)
       (from_option convertVerificationTokenToLegacy (indeterminate_verificationToken E) v)
     = TransportError →
     (KeyMintOperation.update E op p i a v uout w).1.1.1
     = fromServiceSpecificError ResponseCode.SYSTEM_ERROR)
  ∧ (km_finish (mDevice (this w)) (calls w) (mOperationHandle op)
       (from_option (convertKeyParametersToLegacy E) [] p) (default [] i) (default [] s)
       (from_option convertAuthTokenToLegacy (indeterminate_authToken E) a)
       (from_option convertVerificationTokenToLegacy (indeterminate_verificationToken E) v)
     = TransportError →
     (KeyMintOperation.finish E op p i s a v fout w).1.1.1
     = fromServiceSpecificError ResponseCode.SYSTEM_ERROR)
  ∧ (getParam kps TAG_ALGORITHM = Some alg → alg = RSA ∨ alg = EC →
     (containsParam kps TAG_ATTESTATION_CHALLENGE = false →
      km_exportKey (mDevice (this w)) (calls w) X509_format blob
        (unwrapBlob (getParam kps TAG_APPLICATION_ID))
        (unwrapBlob (getParam kps TAG_APPLICATION_DATA)) = TransportError →
      (KeyMintDevice.getCertificate E kps blob w).1 = inr ErrorCode.UNKNOWN_ERROR)
     ∧ (containsParam kps TAG_ATTESTATION_CHALLENGE = true →
        km_attestKey (mDevice (this w)) (calls w) blob (convertKeyParametersToLegacy E kps)
        = TransportError →
        (KeyMintDevice.getCertificate E kps blob w).1 = inr ErrorCode.UNKNOWN_ERROR))
  ∧ (km_generateKey (mDevice (this w)) (calls w) (convertKeyParametersToLegacy E kps)
     = TransportOk (ErrorCode.OK, blob, kc) →
     (KeyMintDevice.getCertificate E kps blob
        {| this := this w;
           calls := calls w ++ [Call_generateKey (convertKeyParametersToLegacy E kps)] |}).1
     = inr ErrorCode.UNKNOWN_ERROR →
     (KeyMintDevice.generateKey E kps out w).1.1
     = fromServiceSpecificError ErrorCode.UNKNOWN_ERROR).
Proof.
  repeat match goal with |- _ ∧ _ => split end.
  - intros H. unfold KeyMintDevice.getHardwareInfo. munfold. simpl. by rewrite H.
  - intros H. unfold KeyMintDevice.generateKey. munfold. simpl. by rewrite H.
  - intros H. unfold KeyMintDevice.importKey. munfold. simpl. by rewrite H.
  - intros H. unfold KeyMintDevice.importWrappedKey. munfold. simpl. by rewrite H.
  - intros H. unfold KeyMintDevice.upgradeKey. munfold. simpl. by rewrite H.
  - intros Hpos H. unfold KeyMintDevice.begin, free_slots in *. munfold. simpl.
    unfold OperationSlots.claimSlot.
    destruct (Z.ltb_spec 0 (mNumFreeSlots (mOperationSlots (this w)))); [|lia].
    simpl. by rewrite H.
  - intros H. unfold KeyMintOperation.update. munfold. simpl. rewrite H.
    by destruct (OperationSlot.freeSlot _ _).
  - intros H. unfold KeyMintOperation.finish. munfold. simpl. rewrite H.
    by destruct (OperationSlot.freeSlot _ _).
  - intros Halg Hasym. split.
    + intros Hch Hexp.
      by rewrite (getCertificate_makeCert_error _ _ _ _ _ _ _ Halg Hasym Hch
                    (makeCert_transport_error _ _ _ _ Hexp)).
    + intros Hch Hatt. rewrite (getCertificate_attest _ _ _ _ _ Halg Hasym Hch).
      by rewrite Hatt.
  - intros Hgen Hcert.
    destruct (KeyMintDevice.getCertificate E kps blob _) as [r w2] eqn:Hrun.
    simpl in Hcert. subst r.
    by rewrite (generateKey_certificate_error _ _ _ _ _ _ _ _ Hgen Hrun).
Qed.

(** C6, the claim as stated fails: the backend makes an EC key and the
    [exportKey] call for its certificate cannot be delivered; [generateKey]
    reports the legacy code [UNKNOWN_ERROR], not [SYSTEM_ERROR]. *)
Lemma export_transport_failure_reported_as_legacy_code :
  km_exportKey (mDevice (this sample_export_unreachable_world))
    [Call_generateKey (sample_legacy [KP_ALGORITHM EC])] X509_format sample_blob [] []
  = TransportError
  ∧ (KeyMintDevice.generateKey sample_externals [KP_ALGORITHM EC]
       KeyCreationResult_default sample_export_unreachable_world).1.1
    = fromServiceSpecificError ErrorCode.UNKNOWN_ERROR
  ∧ (KeyMintDevice.generateKey sample_externals [KP_ALGORITHM EC]
       KeyCreationResult_default sample_export_unreachable_world).1.1
    ≠ fromServiceSpecificError ResponseCode.SYSTEM_ERROR.
Proof. repeat split; try reflexivity. discriminate. Qed.

(** An update that cannot be delivered reports [SYSTEM_ERROR]; an export
    that cannot be delivered makes [getCertificate] return [UNKNOWN_ERROR]. *)
Lemma transport_failure_codes_witness :
  (km_update (mDevice (this sample_unreachable_update_world)) [] 7 [] [x01]
     (indeterminate_authToken sample_externals)
     (indeterminate_verificationToken sample_externals) = TransportError
   ∧ (KeyMintOperation.update sample_externals sample_operation None (Some [x01]) None None
        sample_update_out sample_unreachable_update_world).1.1.1
     = fromServiceSpecificError ResponseCode.SYSTEM_ERROR)
  ∧ (km_exportKey (mDevice (this sample_export_unreachable_world)) [] X509_format
       sample_blob [] [] = TransportError
     ∧ (KeyMintDevice.getCertificate sample_externals [KP_ALGORITHM EC] sample_blob
          sample_export_unreachable_world).1 = inr ErrorCode.UNKNOWN_ERROR).
Proof.
  split; (split; [reflexivity|]).
  - pose proof (transport_failure_codes sample_externals sample_unreachable_update_world
                  [KP_ALGORITHM EC] RAW [] KeyCreationResult_default
                  {| hi_securityLevel := None; keyMintName := ""; keyMintAuthorName := "" |}
                  [] [] [] 0 0 [] SIGN HardwareAuthToken_default BeginResult_default
                  sample_operation None (Some [x01]) None None None sample_update_out
                  {| finish_outParams := None; finish_output := [] |}
                  sample_blob sample_characteristics EC)
      as (_ & _ & _ & _ & _ & _ & Hupdate & _).
    exact (Hupdate eq_refl).
  - pose proof (transport_failure_codes sample_externals sample_export_unreachable_world
                  [KP_ALGORITHM EC] RAW [] KeyCreationResult_default
                  {| hi_securityLevel := None; keyMintName := ""; keyMintAuthorName := "" |}
                  [] [] [] 0 0 [] SIGN HardwareAuthToken_default BeginResult_default
                  sample_operation None (Some [x01]) None None None sample_update_out
                  {| finish_outParams := None; finish_output := [] |}
                  sample_blob sample_characteristics EC)
      as (_ & _ & _ & _ & _ & _ & _ & _ & Hcert & _).
    exact (proj1 (Hcert eq_refl (or_intror eq_refl)) eq_refl eq_refl).
Defined.

(** ** Discovery *)

(** One probe: the table keeps its size and its occupants; a new occupant
    is the probed instance, in the slot of its level; the probed instance
    finds the slot of its level occupied afterwards. *)
Lemma try_get_device_inv sm W name fs (result result' : KeymasterDevices) :
  try_get_device sm W name fs result = Some result' →
  length result' = length result
  ∧ (∀ (l : nat) x, result !! l = Some (Some x) → result' !! l = Some (Some x))
  ∧ (∀ (l : nat) x, result' !! l = Some (Some x) →
       result !! l = Some (Some x)
       ∨ (getService sm W name = Some x ∧ halVersion_securityLevel x = Z.of_nat l))
  ∧ (∀ d, getService sm W name = Some d →
       ∃ x, result' !! Z.to_nat (halVersion_securityLevel d) = Some (Some x)).
Proof.
  unfold try_get_device. destruct (getService sm W name) as [d|] eqn:Hget.
  - case_bool_decide as Hlvl; [|done]. unfold Devices_at.
    rewrite bool_decide_eq_true_2 by lia.
    destruct (result !! Z.to_nat (halVersion_securityLevel d)) as [[x|]|] eqn:Hslot; simpl.
    + intros [= <-]. repeat split; [done|by left|].
      intros d' [= <-]. by exists x.
    + intros [= <-]. unfold Devices_set.
      assert (Hlt : (Z.to_nat (halVersion_securityLevel d) < length result)%nat) by lia.
      split; [by rewrite length_insert|]. split; [|split].
      * intros l x Hl.
        destruct (decide (l = Z.to_nat (halVersion_securityLevel d))) as [->|Hne];
          [congruence|].
        by rewrite list_lookup_insert_ne.
      * intros l x Hl.
        destruct (decide (l = Z.to_nat (halVersion_securityLevel d))) as [->|Hne].
        -- rewrite list_lookup_insert_eq in Hl by done. inversion Hl; subst.
           right. split; [done|lia].
        -- rewrite list_lookup_insert_ne in Hl by done. by left.
      * intros d' [= <-]. exists d. by rewrite list_lookup_insert_eq.
    + done.
  - destruct fs; [|done]. intros [= <-]. repeat split; [done|by left|done].
Qed.

Lemma enumerate_names_inv sm W names : ∀ (result result' : KeymasterDevices) hd hd',
  enumerate_names sm W names result hd = Some (result', hd') →
  length result' = length result
  ∧ (∀ (l : nat) x, result !! l = Some (Some x) → result' !! l = Some (Some x))
  ∧ (∀ (l : nat) x, result' !! l = Some (Some x) →
       result !! l = Some (Some x)
       ∨ ∃ name, name ∈ names ∧ getService sm W name = Some x
                 ∧ halVersion_securityLevel x = Z.of_nat l)
  ∧ (∀ name d, name ∈ names → getService sm W name = Some d →
       ∃ x, result' !! Z.to_nat (halVersion_securityLevel d) = Some (Some x))
  ∧ hd' = (if bool_decide ("default" ∈ names) then true else hd).
Proof.
  induction names as [|n names IH]; intros result result' hd hd'; simpl.
  - intros [= <- <-]. repeat split; try done.
    + by left.
    + intros name d Hin. by apply elem_of_nil in Hin.
  - destruct (try_get_device sm W n false result) as [result1|] eqn:Htry; [|done]. simpl.
    intros Hrest.
    destruct (try_get_device_inv _ _ _ _ _ _ Htry) as (Hlen1 & Hkeep1 & Hnew1 & Hfound1).
    destruct (IH _ _ _ _ Hrest) as (Hlen & Hkeep & Hnew & Hfound & Hdef).
    split; [congruence|]. split; [by auto|]. split; [|split].
    + intros l x Hl. destruct (Hnew l x Hl) as [Hold|(name & Hin & Hget & Hlvl)].
      * destruct (Hnew1 l x Hold) as [Hold1|[Hget Hlvl]]; [by left|].
        right. exists n. split; [by left|done].
      * right. exists name. split; [by right|done].
    + intros name d Hin Hget. apply elem_of_cons in Hin as [->|Hin].
      * destruct (Hfound1 d Hget) as [x Hx]. exists x. by apply Hkeep.
      * by apply (Hfound name).
    + rewrite Hdef. clear.
      destruct (decide (n = "default")) as [->|Hn].
      * rewrite (bool_decide_eq_true_2 ("default" = "default")) by done.
        rewrite (bool_decide_eq_true_2 ("default" ∈ "default" :: names)) by by left.
        by destruct (bool_decide ("default" ∈ names)).
      * rewrite (bool_decide_eq_false_2 (n = "default")) by done.
        destruct (decide ("default" ∈ names)) as [Hin|Hnin].
        -- rewrite (bool_decide_eq_true_2 ("default" ∈ names)) by done.
           by rewrite (bool_decide_eq_true_2 ("default" ∈ n :: names)) by by right.
        -- rewrite (bool_decide_eq_false_2 ("default" ∈ names)) by done.
           rewrite (bool_decide_eq_false_2 ("default" ∈ n :: names)); [done|].
           intros Hin. apply elem_of_cons in Hin as [Heq|Hin]; congruence.
Qed.

(** What an enumeration leaves in its table: three slots; an occupant is a
    discovered instance of the level of its slot; the level of a discovered
    instance has an occupant. *)
Lemma enumerateKeymasterDevices_inv W sm (r : KeymasterDevices) :
  enumerateKeymasterDevices W sm = Some r →
  length r = 3%nat
  ∧ (∀ (l : nat) x, r !! l = Some (Some x) →
       discovered sm W x ∧ halVersion_securityLevel x = Z.of_nat l)
  ∧ (∀ d, discovered sm W d →
       ∃ x, r !! Z.to_nat (halVersion_securityLevel d) = Some (Some x)).
Proof.
  unfold enumerateKeymasterDevices.
  destruct (listManifestByInterface sm W) as [names|] eqn:Hlist.
  - destruct (enumerate_names sm W names KeymasterDevices_new false) as [[r1 hd]|] eqn:Hnames;
      [|done].
    simpl.
    destruct (enumerate_names_inv _ _ _ _ _ _ _ Hnames) as (Hlen & Hkeep & Hnew & Hfound & Hdef).
    assert (Hlisted : ∀ (l : nat) x, r1 !! l = Some (Some x) →
              discovered sm W x ∧ halVersion_securityLevel x = Z.of_nat l).
    { intros l x Hl. destruct (Hnew l x Hl) as [Hold|(name & Hin & Hget & Hlvl)].
      - by destruct l as [|[|[|l]]].
      - split; [|done]. exists names, name. by repeat split; [|left|]. }
    destruct hd; simpl.
    + intros [= <-]. split; [done|]. split; [done|].
      intros d (names' & name & Hlist' & Hname & Hget).
      assert (names' = names) as -> by congruence.
      destruct Hname as [Hin| ->]; [by apply (Hfound name)|].
      apply (Hfound "default"); [|done].
      destruct (decide ("default" ∈ names)) as [Hin|Hnin]; [done|].
      by rewrite bool_decide_eq_false_2 in Hdef.
    + intros Htry.
      destruct (try_get_device_inv _ _ _ _ _ _ Htry) as (Hlen2 & Hkeep2 & Hnew2 & Hfound2).
      split; [by rewrite Hlen2, Hlen|]. split.
      * intros l x Hl. destruct (Hnew2 l x Hl) as [Hold|[Hget Hlvl]]; [by apply Hlisted|].
        split; [|done]. exists names, "default". by repeat split; [|right|].
      * intros d (names' & name & Hlist' & Hname & Hget).
        assert (names' = names) as -> by congruence.
        destruct Hname as [Hin| ->]; [|by apply Hfound2].
        destruct (Hfound name d Hin Hget) as [x Hx]. exists x. by apply Hkeep2.
  - done.
Qed.

(** C8.  When the discovery completes, some discovered instance (under
    either wrapper) is of level SOFTWARE and none is of level
    TRUSTED_ENVIRONMENT: the TRUSTED_ENVIRONMENT slot of the returned table
    holds a discovered instance of level SOFTWARE, and the SOFTWARE slot is
    empty. *)
Theorem software_promoted_to_trusted_environment sm (result : KeymasterDevices) :
  initializeKeymasters (Some sm) = Some result →
  (∃ W d, discovered sm W d ∧ halVersion_securityLevel d = SecurityLevel.SOFTWARE) →
  (∀ W d, discovered sm W d →
          halVersion_securityLevel d ≠ SecurityLevel.TRUSTED_ENVIRONMENT) →
  (∃ soft W,
     Devices_at result SecurityLevel.TRUSTED_ENVIRONMENT = Some (Some soft)
     ∧ discovered sm W soft
     ∧ halVersion_securityLevel soft = SecurityLevel.SOFTWARE)
  ∧ Devices_at result SecurityLevel.SOFTWARE = Some None.
Proof.
  intros Hinit (W0 & d0 & Hd0 & Hlvl0) Hnotee.
  unfold initializeKeymasters in Hinit. simpl in Hinit.
  destruct (enumerateKeymasterDevices Keymaster4 sm) as [r4|] eqn:H4; [|done].
  simpl in Hinit.
  destruct (enumerateKeymasterDevices_inv _ _ _ H4) as (Hlen4 & Hocc4 & Hfound4).
  destruct r4 as [|s4 [|t4 [|b4 [|? ?]]]]; try done.
  assert (t4 = None) as ->.
  { destruct t4 as [x|]; [|done]. destruct (Hocc4 1%nat x eq_refl) as [Hx Hl].
    by destruct (Hnotee _ _ Hx). }
  cbn in Hinit.
  destruct (enumerateKeymasterDevices Keymaster3 sm) as [r3|] eqn:H3; [|done].
  destruct (enumerateKeymasterDevices_inv _ _ _ H3) as (Hlen3 & Hocc3 & Hfound3).
  destruct r3 as [|s3 [|t3 [|b3 [|? ?]]]]; try done.
  assert (t3 = None) as ->.
  { destruct t3 as [x|]; [|done]. destruct (Hocc3 1%nat x eq_refl) as [Hx Hl].
    by destruct (Hnotee _ _ Hx). }
  destruct s4 as [x4|].
  - cbn in Hinit. inversion Hinit; subst. split; [|done].
    exists x4, Keymaster4. destruct (Hocc4 0%nat x4 eq_refl) as [Hx Hl]. done.
  - cbn in Hinit.
    destruct s3 as [x3|].
    + cbn in Hinit. inversion Hinit; subst. split; [|done].
      exists x3, Keymaster3. destruct (Hocc3 0%nat x3 eq_refl) as [Hx Hl]. done.
    + exfalso. destruct W0.
      * destruct (Hfound3 d0 Hd0) as [x Hx]. rewrite Hlvl0 in Hx. done.
      * destruct (Hfound4 d0 Hd0) as [x Hx]. rewrite Hlvl0 in Hx. done.
Qed.

(** A device that offers one software instance: it is the facade backend of
    the TRUSTED_ENVIRONMENT slot. *)
Lemma software_promoted_to_trusted_environment_witness :
  initializeKeymasters (Some sample_software_only)
  = Some [None; Some (sample_backend SecurityLevel.SOFTWARE); None]
  ∧ (∃ W d, discovered sample_software_only W d
            ∧ halVersion_securityLevel d = SecurityLevel.SOFTWARE)
  ∧ (∀ W d, discovered sample_software_only W d →
            halVersion_securityLevel d ≠ SecurityLevel.TRUSTED_ENVIRONMENT)
  ∧ (∃ soft W,
       Devices_at [None; Some (sample_backend SecurityLevel.SOFTWARE); None]
         SecurityLevel.TRUSTED_ENVIRONMENT = Some (Some soft)
       ∧ discovered sample_software_only W soft
       ∧ halVersion_securityLevel soft = SecurityLevel.SOFTWARE)
  ∧ Devices_at [None; Some (sample_backend SecurityLevel.SOFTWARE); None]
      SecurityLevel.SOFTWARE = Some None.
Proof.
  assert (Hinit : initializeKeymasters (Some sample_software_only)
                  = Some [None; Some (sample_backend SecurityLevel.SOFTWARE); None])
    by reflexivity.
  assert (Hsoft : ∃ W d, discovered sample_software_only W d
                         ∧ halVersion_securityLevel d = SecurityLevel.SOFTWARE).
  { exists Keymaster4, (sample_backend SecurityLevel.SOFTWARE).
    split; [|reflexivity]. exists ["soft"], "soft".
    split; [reflexivity|]. split; [left; by left|reflexivity]. }
  assert (Hnotee : ∀ W d, discovered sample_software_only W d →
                          halVersion_securityLevel d ≠ SecurityLevel.TRUSTED_ENVIRONMENT).
  { intros W d (names & name & Hlist & Hname & Hget). destruct W; [discriminate|].
    simpl in Hget. case_bool_decide as Hin; [|discriminate].
    apply list_elem_of_singleton in Hin. subst name.
    inversion Hget; subst. discriminate. }
  split; [exact Hinit|]. split; [exact Hsoft|]. split; [exact Hnotee|].
  exact (software_promoted_to_trusted_environment sample_software_only _ Hinit Hsoft Hnotee).
Defined.

(** ** The facade cache *)

(** Once [device_ptr] is set, [createKeyMintDevice] returns it for every
    security level. *)
Lemma createKeyMintDevice_ignores_level sm securityLevel d :
  createKeyMintDevice sm securityLevel (Some d) = Some (Some d, Some d).
Proof. reflexivity. Qed.

(** C5.  On a device with a trusted-execution and an isolated-hardware
    backend, a request for the TRUSTED_ENVIRONMENT facade followed by a
    request for the STRONGBOX facade: both return ok, and the second returns
    the facade made for TRUSTED_ENVIRONMENT (the trusted-execution backend,
    fifteen slots), although the discovery has an isolated-hardware backend
    for STRONGBOX, whose facade (three slots) is a different one. *)
Theorem second_tier_gets_first_facade :
  getKeyMintDevice (Some sample_two_tiers) SecurityLevel.TRUSTED_ENVIRONMENT
    CompatService_new
  = Some (StatusOk, Some sample_tee_facade, sample_after_tee_request)
  ∧ getKeyMintDevice (Some sample_two_tiers) SecurityLevel.STRONGBOX
      sample_after_tee_request
    = Some (StatusOk, Some sample_tee_facade,
            {| device_ptr := Some sample_tee_facade;
               mDeviceCache :=
                 <[SecurityLevel.STRONGBOX := sample_tee_facade]>
                   (mDeviceCache sample_after_tee_request) |})
  ∧ (initializeKeymasters (Some sample_two_tiers)
     ≫= λ devices, Devices_at devices SecurityLevel.STRONGBOX)
    = Some (Some (sample_backend SecurityLevel.STRONGBOX))
  ∧ sample_tee_facade
    ≠ KeyMintDevice_new (sample_backend SecurityLevel.STRONGBOX) SecurityLevel.STRONGBOX
  ∧ mNumFreeSlots (mOperationSlots sample_tee_facade) = 15
  ∧ halVersion_securityLevel (mDevice sample_tee_facade)
    = SecurityLevel.TRUSTED_ENVIRONMENT.
Proof.
  split; [reflexivity|]. split; [|split; [|split; [|split]]].
  - unfold getKeyMintDevice, sample_after_tee_request. simpl.
    rewrite lookup_singleton_ne by discriminate. reflexivity.
  - reflexivity.
  - intros Heq. apply (f_equal (λ d, mNumFreeSlots (mOperationSlots d))) in Heq.
    discriminate.
  - reflexivity.
  - reflexivity.
Qed.

(** * Further properties of the sources *)

(** ** begin *)

(** Every outcome of [begin]: it returns ok, holds one slot and hands out an
    active session; or it does not return ok, the pool has as many free
    slots as before, and the session it hands out, if any, is inactive. *)
Lemma begin_outcomes E purpose blob kps tok out w status res w1 :
  0 ≤ free_slots w < 256 →
  KeyMintDevice.begin E purpose blob kps tok out w = (status, res, w1) →
  (isOk status = true ∧ 0 < free_slots w ∧ free_slots w1 = free_slots w - 1
   ∧ ∃ op, operation res = Some op ∧ mIsActive (mOperationSlot op) = true)
  ∨ (isOk status = false ∧ free_slots w1 = free_slots w
     ∧ (res = out
        ∨ ∃ op, operation res = Some op ∧ mIsActive (mOperationSlot op) = false)).
Proof.
  intros Hrange Hbegin. unfold KeyMintDevice.begin in Hbegin. munfold.
  unfold free_slots in *. simpl in Hbegin.
  unfold OperationSlots.claimSlot in Hbegin.
  destruct (Z.ltb_spec 0 (mNumFreeSlots (mOperationSlots (this w)))) as [Hpos|Hzero];
    simpl in Hbegin.
  - assert (Hback : uint8 (uint8 (mNumFreeSlots (mOperationSlots (this w)) - 1) + 1)
                    = mNumFreeSlots (mOperationSlots (this w))).
    { rewrite (uint8_small (_ - 1)) by lia. rewrite uint8_small by lia. lia. }
    destruct (km_begin _ _ _ _ _ _) as [[[e outParams] handle]|]; simpl in Hbegin.
    + destruct (decide (e = ErrorCode.OK)) as [->|Hne].
      * simpl in Hbegin. inversion Hbegin; subst. simpl. left.
        split; [done|]. split; [done|]. split; [apply uint8_small; lia|].
        eexists. split; reflexivity.
      * rewrite bool_decide_eq_true_2 in Hbegin by done. simpl in Hbegin.
        inversion Hbegin; subst. simpl. right.
        rewrite isOk_convertErrorCode, bool_decide_eq_false_2 by done.
        split; [done|]. split; [exact Hback|]. right.
        eexists. split; reflexivity.
    + inversion Hbegin; subst. simpl. right. split; [done|]. split; [exact Hback|]. by left.
  - inversion Hbegin; subst. right. split; [done|]. split; [done|]. by left.
Qed.

(** X1.  A [begin] that fails costs no slot.  Whatever makes it fail (no free
    slot, a call that cannot be delivered, an error code of the backend), the
    pool has as many free slots afterwards as before, and the session handed
    out with an error code holds no slot, so that its destructor releases
    nothing.  With no free slot the answer is TOO_MANY_OPERATIONS and the
    backend is not called. *)
Theorem begin_failure_costs_no_slot E purpose blob kps tok out w status res w1 :
  0 ≤ free_slots w < 256 →
  operation out = None →
  KeyMintDevice.begin E purpose blob kps tok out w = (status, res, w1) →
  isOk status = false →
  free_slots w1 = free_slots w
  ∧ (∀ op, operation res = Some op → KeyMintOperation.destroy op w1 = (op, w1))
  ∧ (free_slots w = 0 →
     status = fromServiceSpecificError ErrorCode.TOO_MANY_OPERATIONS
     ∧ res = out ∧ w1 = w).
Proof.
  intros Hrange Hout Hbegin Hfail.
  destruct (begin_outcomes _ _ _ _ _ _ _ _ _ _ Hrange Hbegin)
    as [(Hok & _)|(_ & Hfree & Hres)]; [congruence|].
  split; [exact Hfree|]. split.
  - intros op Hop. destruct Hres as [->|(op' & Hop' & Hinactive)]; [congruence|].
    assert (op' = op) as -> by congruence.
    unfold KeyMintOperation.destroy, OperationSlot.hasSlot. by rewrite Hinactive.
  - intros Hzero. unfold KeyMintDevice.begin in Hbegin. munfold.
    destruct w as [[km slots level] history].
    unfold free_slots in *. simpl in *. unfold OperationSlots.claimSlot in Hbegin.
    rewrite Hzero in Hbegin. simpl in Hbegin. inversion Hbegin; subst.
    repeat split; reflexivity.
Qed.

(** A facade without a free slot refuses [begin] and stays as it is. *)
Lemma begin_failure_costs_no_slot_witness :
  0 ≤ free_slots sample_exhausted_world < 256
  ∧ operation BeginResult_default = None
  ∧ isOk (KeyMintDevice.begin sample_externals SIGN sample_blob [] HardwareAuthToken_default
            BeginResult_default sample_exhausted_world).1.1 = false
  ∧ free_slots (KeyMintDevice.begin sample_externals SIGN sample_blob []
                  HardwareAuthToken_default BeginResult_default sample_exhausted_world).2
    = free_slots sample_exhausted_world.
Proof.
  assert (Hrange : 0 ≤ free_slots sample_exhausted_world < 256).
  { change (free_slots sample_exhausted_world) with 0. lia. }
  split; [exact Hrange|]. split; [reflexivity|]. split; [reflexivity|].
  exact (proj1 (begin_failure_costs_no_slot sample_externals SIGN sample_blob []
                  HardwareAuthToken_default BeginResult_default sample_exhausted_world
                  _ _ _ Hrange eq_refl eq_refl eq_refl)).
Defined.

(** ** finish, abort and the destructor *)

(** X2.  [finish] ends the session whatever the backend answers: the backend
    receives one finish call for the handle of the session, with the tokens
    in their legacy form, the session is inactive afterwards, and the pool
    takes one slot back exactly when the session held one: the number of free
    slots rises by one for a session that held a slot and stays as it is
    otherwise (the counter is a [uint8_t]; below 255 the increment does not
    wrap).  The status is SYSTEM_ERROR when the call cannot be delivered and
    the converted code of the backend otherwise. *)
Theorem finish_always_ends_session E op p i s a v out w :
  calls (KeyMintOperation.finish E op p i s a v out w).2
  = calls w ++
    [Call_finish (mOperationHandle op)
       (from_option (convertKeyParametersToLegacy E) [] p) (default [] i) (default [] s)
       (from_option convertAuthTokenToLegacy (indeterminate_authToken E) a)
       (from_option convertVerificationTokenToLegacy (indeterminate_verificationToken E) v)]
  ∧ mIsActive (mOperationSlot (KeyMintOperation.finish E op p i s a v out w).1.2) = false
  ∧ mOperationSlots (this (KeyMintOperation.finish E op p i s a v out w).2)
    = (if mIsActive (mOperationSlot op)
       then OperationSlots.freeSlot (mOperationSlots (this w))
       else mOperationSlots (this w))
  ∧ (0 ≤ free_slots w < 255 →
     free_slots (KeyMintOperation.finish E op p i s a v out w).2
     = free_slots w + (if mIsActive (mOperationSlot op) then 1 else 0))
  ∧ (KeyMintOperation.finish E op p i s a v out w).1.1.1
    = match km_finish (mDevice (this w)) (calls w) (mOperationHandle op)
              (from_option (convertKeyParametersToLegacy E) [] p) (default [] i)
              (default [] s)
              (from_option convertAuthTokenToLegacy (indeterminate_authToken E) a)
              (from_option convertVerificationTokenToLegacy
                 (indeterminate_verificationToken E) v) with
      | TransportError => fromServiceSpecificError ResponseCode.SYSTEM_ERROR
      | TransportOk (e, _, _) => convertErrorCode e
      end.
Proof.
  destruct op as [handle [[|]]], w as [[km [free] level] history];
    unfold KeyMintOperation.finish, OperationSlot.freeSlot, free_slots; munfold; simpl;
    (destruct (km_finish _ _ _ _ _ _ _ _) as [[[e outParams] output]|]; simpl;
     (repeat split; try done; intros Hrange; try (rewrite uint8_small by lia); lia)).
Qed.

(** A finish with a negative challenge in its token, on an active session of
    the trusted-execution facade: the backend receives the challenge modulo
    2^64, and the fifteen free slots become sixteen. *)
Lemma finish_always_ends_session_witness :
  calls (KeyMintOperation.finish sample_externals sample_operation None None None
           (Some sample_negative_token) None sample_finish_out sample_tee_world).2
  = [Call_finish 7 [] [] []
       {| legacyAt_challenge := 18446744073709551615; legacyAt_userId := 0;
          legacyAt_authenticatorId := 0; legacyAt_authenticatorType := 4294967295;
          legacyAt_timestamp := 0; legacyAt_mac := [] |}
       (indeterminate_verificationToken sample_externals)]
  ∧ free_slots sample_tee_world = 15
  ∧ free_slots (KeyMintOperation.finish sample_externals sample_operation None None None
                  (Some sample_negative_token) None sample_finish_out sample_tee_world).2
    = 16.
Proof.
  assert (Hrange : 0 ≤ free_slots sample_tee_world < 255).
  { change (free_slots sample_tee_world) with 15. lia. }
  destruct (finish_always_ends_session sample_externals sample_operation None None None
              (Some sample_negative_token) None sample_finish_out sample_tee_world)
    as (Hcalls & _ & _ & Hcount & _).
  split; [exact Hcalls|]. split; [reflexivity|]. exact (Hcount Hrange).
Defined.

(** X3.  [abort] is forwarded to the backend every time, and releases at most
    once: of two aborts in a row both reach the backend, the first gives the
    slot back when the session held one, the second leaves the pool alone.
    Over the two aborts the number of free slots rises by exactly one for a
    session that held a slot, and not at all otherwise (the counter is a
    [uint8_t]; below 255 the increment does not wrap). *)
Theorem abort_twice_releases_once op w :
  calls (KeyMintOperation.abort (KeyMintOperation.abort op w).1.2
           (KeyMintOperation.abort op w).2).2
  = calls w ++ [Call_abort (mOperationHandle op); Call_abort (mOperationHandle op)]
  ∧ mOperationSlots (this (KeyMintOperation.abort op w).2)
    = (if mIsActive (mOperationSlot op)
       then OperationSlots.freeSlot (mOperationSlots (this w))
       else mOperationSlots (this w))
  ∧ mOperationSlots (this (KeyMintOperation.abort (KeyMintOperation.abort op w).1.2
                             (KeyMintOperation.abort op w).2).2)
    = mOperationSlots (this (KeyMintOperation.abort op w).2)
  ∧ mIsActive (mOperationSlot (KeyMintOperation.abort op w).1.2) = false
  ∧ (0 ≤ free_slots w < 255 →
     free_slots (KeyMintOperation.abort (KeyMintOperation.abort op w).1.2
                   (KeyMintOperation.abort op w).2).2
     = free_slots w + (if mIsActive (mOperationSlot op) then 1 else 0)).
Proof.
  destruct op as [handle [[|]]], w as [[km [free] level] history];
    unfold KeyMintOperation.abort, OperationSlot.freeSlot, free_slots; munfold; simpl;
    rewrite <- app_assoc; (repeat split; try done);
    intros Hrange; try (rewrite uint8_small by lia); lia.
Qed.

(** X4.  The destructor aborts a session that still holds its slot, once: the
    backend receives one abort for the handle, the session holds no slot
    afterwards, and the pool takes the slot back, so that it counts one free
    slot more (the counter is a [uint8_t]; below 255 the increment does not
    wrap).  On a session without a slot it does nothing at all, so a second
    destruction, or a destruction after finish or abort, changes nothing:
    neither the calls of the backend nor the number of free slots. *)
Theorem destroy_aborts_once op w :
  (mIsActive (mOperationSlot op) = true →
   calls (KeyMintOperation.destroy op w).2 = calls w ++ [Call_abort (mOperationHandle op)]
   ∧ mIsActive (mOperationSlot (KeyMintOperation.destroy op w).1) = false
   ∧ mOperationSlots (this (KeyMintOperation.destroy op w).2)
     = OperationSlots.freeSlot (mOperationSlots (this w))
   ∧ (0 ≤ free_slots w < 255 →
      free_slots (KeyMintOperation.destroy op w).2 = free_slots w + 1))
  ∧ (mIsActive (mOperationSlot op) = false → KeyMintOperation.destroy op w = (op, w))
  ∧ KeyMintOperation.destroy (KeyMintOperation.destroy op w).1
      (KeyMintOperation.destroy op w).2
    = KeyMintOperation.destroy op w
  ∧ free_slots (KeyMintOperation.destroy (KeyMintOperation.destroy op w).1
                  (KeyMintOperation.destroy op w).2).2
    = free_slots (KeyMintOperation.destroy op w).2.
Proof.
  destruct op as [handle [[|]]], w as [[km [free] level] history];
    unfold KeyMintOperation.destroy, KeyMintOperation.abort, OperationSlot.hasSlot,
      OperationSlot.freeSlot, free_slots; munfold; simpl;
    (split; [|done]); intros Hact; [|done].
  split; [done|]. split; [done|]. split; [done|].
  intros Hrange. unfold OperationSlots.freeSlot. simpl. rewrite uint8_small by lia. lia.
Qed.

(** The destruction of an active session on the trusted-execution facade:
    one abort, and the fifteen free slots become sixteen; a second
    destruction leaves them at sixteen. *)
Lemma destroy_aborts_once_witness :
  mIsActive (mOperationSlot sample_operation) = true
  ∧ calls (KeyMintOperation.destroy sample_operation sample_tee_world).2 = [Call_abort 7]
  ∧ free_slots sample_tee_world = 15
  ∧ free_slots (KeyMintOperation.destroy sample_operation sample_tee_world).2 = 16
  ∧ free_slots (KeyMintOperation.destroy
                  (KeyMintOperation.destroy sample_operation sample_tee_world).1
                  (KeyMintOperation.destroy sample_operation sample_tee_world).2).2 = 16.
Proof.
  assert (Hact : mIsActive (mOperationSlot sample_operation) = true) by reflexivity.
  assert (Hrange : 0 ≤ free_slots sample_tee_world < 255).
  { change (free_slots sample_tee_world) with 15. lia. }
  destruct (destroy_aborts_once sample_operation sample_tee_world)
    as (Hactive & _ & _ & Hagain).
  destruct (Hactive Hact) as (Hcalls & _ & _ & Hcount).
  split; [exact Hact|]. split; [exact Hcalls|]. split; [reflexivity|].
  split; [exact (Hcount Hrange)|].
  rewrite Hagain. exact (Hcount Hrange).
Defined.

(** ** The signing callback of signCertificate *)

(** A call that ends a session leaves it inactive and gives the slot back
    exactly when the session held one. *)
Lemma run_call_ends E c op w op' w' :
  ends_session c = true →
  run_call E c op w = (op', w') →
  mIsActive (mOperationSlot op') = false
  ∧ mOperationSlots (this w')
    = (if mIsActive (mOperationSlot op)
       then OperationSlots.freeSlot (mOperationSlots (this w))
       else mOperationSlots (this w)).
Proof.
  intros Hends Hrun. destruct (mIsActive (mOperationSlot op)) eqn:Hact.
  - destruct (run_call_active _ _ _ _ _ _ Hact Hrun) as [(Hc & _)|H]; [congruence|done].
  - by apply (run_call_inactive _ _ _ _ _ _ Hact Hrun).
Qed.

(** X5.  The signing callback is neutral for the pool: whichever way it returns
    (no slot, a failed begin, an update that consumed nothing, a finish), the
    facade has as many free slots afterwards as before; with no free slot it
    does not call the backend at all. *)
Theorem signing_callback_returns_slot E blob origPadding origDigest dataVec errorCode w :
  0 ≤ free_slots w < 256 →
  free_slots
    (KeyMintDevice.signCertificate_sign E blob origPadding origDigest dataVec errorCode w).2
  = free_slots w
  ∧ (free_slots w = 0 →
     KeyMintDevice.signCertificate_sign E blob origPadding origDigest dataVec errorCode w
     = ([], ErrorCode.TOO_MANY_OPERATIONS, w)).
Proof.
  intros Hrange. split.
  - unfold KeyMintDevice.signCertificate_sign.
    unfold mbind at 1. unfold M_bind at 1.
    destruct (KeyMintDevice.begin _ _ _ _ _ _ _) as [[error beginResult] w1] eqn:Hbegin.
    destruct (begin_outcomes _ _ _ _ _ _ _ _ _ _ Hrange Hbegin)
      as [(Hok & Hpos & Hw1 & op & Hop & Hact)|(Hfail & Hw1 & Hres)].
    + rewrite Hok, Hop. simpl.
      unfold mbind at 1. unfold M_bind at 1.
      destruct (KeyMintOperation.update _ _ _ _ _ _ _ _) as [[[st uo] op1] w2] eqn:Hupd.
      assert (Hcall : run_call E (DoUpdate None (Some dataVec) (Some HardwareAuthToken_default)
                                    (Some VerificationToken_default)
                                    {| out_outParams := None; out_output := None;
                                       bytesConsumed := indeterminate_status E |}) op w1
                      = (op1, w2)).
      { simpl. munfold. by rewrite Hupd. }
      assert (Hgoal : ∀ op3 w3,
                mIsActive (mOperationSlot op3) = false
                ∧ mOperationSlots (this w3)
                  = OperationSlots.freeSlot (mOperationSlots (this w1)) →
                free_slots w3 = free_slots w).
      { intros op3 w3 [_ Hpool]. unfold free_slots in *. rewrite Hpool. simpl.
        rewrite Hw1. rewrite uint8_small by lia. lia. }
      assert (Hend : ∀ c op3 w3,
                ends_session c = true → run_call E c op1 w2 = (op3, w3) →
                mIsActive (mOperationSlot op3) = false
                ∧ mOperationSlots (this w3)
                  = OperationSlots.freeSlot (mOperationSlots (this w1))).
      { intros c op3 w3 Hc Hrun.
        destruct (run_call_ends _ _ _ _ _ _ Hc Hrun) as [Hin Hpool]. split; [done|].
        rewrite Hpool.
        destruct (run_call_active _ _ _ _ _ _ Hact Hcall)
          as [(_ & Hact1 & Hp1)|(Hact1 & Hp1)]; rewrite Hact1; congruence. }
      destruct (bytesConsumed uo =? 0).
      * unfold mbind at 1. unfold M_bind at 1.
        destruct (KeyMintOperation.destroy op1 w2) as [op3 w3] eqn:Hd. simpl.
        apply (Hgoal op3). by apply (Hend DoDestroy).
      * unfold mbind at 1. unfold M_bind at 1.
        destruct (KeyMintOperation.finish _ _ _ _ _ _ _ _ _) as [[[st2 fo] op2] w3] eqn:Hfin.
        assert (Hcall2 : run_call E (DoFinish None None None None None
                                       {| finish_outParams := out_outParams uo;
                                          finish_output := [] |}) op1 w2 = (op2, w3)).
        { simpl. munfold. by rewrite Hfin. }
        destruct (Hend (DoFinish None None None None None
                          {| finish_outParams := out_outParams uo; finish_output := [] |})
                    _ _ eq_refl Hcall2) as [Hin2 Hpool2].
        unfold mbind at 1. unfold M_bind at 1.
        destruct (KeyMintOperation.destroy op2 w3) as [op4 w4] eqn:Hd.
        assert (Hw4 : free_slots w4 = free_slots w).
        { apply (Hgoal op4).
          destruct (run_call_inactive E DoDestroy _ _ _ _ Hin2 Hd) as [Hin4 Hpool4].
          split; [done|congruence]. }
        by destruct (negb (isOk st2)).
    + rewrite Hfail. simpl.
      destruct Hres as [->|(op & Hop & Hinactive)]; simpl; [done|].
      rewrite Hop. unfold mbind at 1. unfold M_bind at 1.
      destruct (KeyMintOperation.destroy op w1) as [op3 w3] eqn:Hd. simpl.
      destruct (run_call_inactive E DoDestroy _ _ _ _ Hinactive Hd) as [_ Hpool].
      unfold free_slots in *. by rewrite Hpool.
  - intros Hzero. unfold KeyMintDevice.signCertificate_sign, KeyMintDevice.begin. munfold.
    destruct w as [[km slots level] history].
    unfold free_slots in *. simpl in *. unfold OperationSlots.claimSlot.
    rewrite Hzero. reflexivity.
Qed.

(** The callback on the sample facade: fifteen free slots before and after. *)
Lemma signing_callback_returns_slot_witness :
  0 ≤ free_slots sample_tee_world < 256
  ∧ free_slots
      (KeyMintDevice.signCertificate_sign sample_externals sample_blob RSA_PSS SHA_2_256
         [x01] ErrorCode.OK sample_tee_world).2
    = free_slots sample_tee_world.
Proof.
  assert (Hrange : 0 ≤ free_slots sample_tee_world < 256).
  { change (free_slots sample_tee_world) with 15. lia. }
  split; [exact Hrange|].
  exact (proj1 (signing_callback_returns_slot sample_externals sample_blob RSA_PSS
                  SHA_2_256 [x01] ErrorCode.OK sample_tee_world Hrange)).
Defined.

(** ** Slot accounting over several sessions *)

Lemma active_sessions_nonneg sessions : 0 ≤ active_sessions sessions.
Proof.
  induction sessions as [|op rest IH]; simpl; [lia|].
  destruct (mIsActive (mOperationSlot op)); lia.
Qed.

Lemma active_sessions_app l1 l2 :
  active_sessions (l1 ++ l2) = active_sessions l1 + active_sessions l2.
Proof. induction l1 as [|op rest IH]; simpl; [lia|]. rewrite IH. lia. Qed.

Lemma active_sessions_insert sessions : ∀ (i : nat) op op',
  sessions !! i = Some op →
  active_sessions (<[i := op']> sessions)
  = active_sessions sessions
    - (if mIsActive (mOperationSlot op) then 1 else 0)
    + (if mIsActive (mOperationSlot op') then 1 else 0).
Proof.
  induction sessions as [|x rest IH]; intros [|i] op op' Hi; simpl in *; try done.
  - inversion Hi; subst. lia.
  - rewrite (IH i op op' Hi). lia.
Qed.

Lemma active_sessions_lookup sessions : ∀ (i : nat) op,
  sessions !! i = Some op → mIsActive (mOperationSlot op) = true →
  1 ≤ active_sessions sessions.
Proof.
  induction sessions as [|x rest IH]; intros [|i] op Hi Hact; simpl in *; try done.
  - inversion Hi; subst. rewrite Hact. pose proof (active_sessions_nonneg rest). lia.
  - pose proof (IH i op Hi Hact). destruct (mIsActive (mOperationSlot x)); lia.
Qed.

(** One call keeps the sum of the free slots and the sessions that hold one. *)
Lemma run_facade_call_accounting E c sessions w sessions' w' capacity :
  0 ≤ capacity ≤ 255 →
  0 ≤ free_slots w →
  free_slots w + active_sessions sessions = capacity →
  run_facade_call E c sessions w = (sessions', w') →
  0 ≤ free_slots w' ∧ free_slots w' + active_sessions sessions' = capacity.
Proof.
  intros Hcap Hfree Hsum Hrun.
  pose proof (active_sessions_nonneg sessions) as Hnn.
  destruct c as [purpose blob kps tok|i c]; simpl in Hrun.
  - unfold mbind, M_bind in Hrun.
    destruct (KeyMintDevice.begin _ _ _ _ _ _ _) as [[status res] w1] eqn:Hbegin.
    inversion Hrun; subst. clear Hrun.
    assert (Hrange : 0 ≤ free_slots w < 256) by lia.
    destruct (begin_outcomes _ _ _ _ _ _ _ _ _ _ Hrange Hbegin)
      as [(_ & Hpos & Hw1 & op & Hop & Hact)|(_ & Hw1 & Hres)].
    + rewrite Hop, active_sessions_app. simpl. rewrite Hact. lia.
    + destruct Hres as [->|(op & Hop & Hinactive)]; simpl; [lia|].
      rewrite Hop, active_sessions_app. simpl. rewrite Hinactive. lia.
  - destruct (sessions !! i) as [op|] eqn:Hi; [|inversion Hrun; subst; lia].
    unfold mbind, M_bind in Hrun.
    destruct (run_call E c op w) as [op' w1] eqn:Hcall.
    inversion Hrun; subst. clear Hrun.
    rewrite (active_sessions_insert _ _ _ _ Hi).
    destruct (mIsActive (mOperationSlot op)) eqn:Hact.
    + pose proof (active_sessions_lookup _ _ _ Hi Hact) as Hone.
      destruct (run_call_active _ _ _ _ _ _ Hact Hcall)
        as [(_ & Hact' & Hpool)|(Hact' & Hpool)];
        rewrite Hact'; unfold free_slots in *; rewrite Hpool.
      * lia.
      * simpl. rewrite uint8_small by lia. lia.
    + destruct (run_call_inactive _ _ _ _ _ _ Hact Hcall) as [Hact' Hpool].
      rewrite Hact'. unfold free_slots in *. rewrite Hpool. lia.
Qed.

(** X6.  Slot accounting.  On a facade that starts with [capacity] free slots
    and no session, after any sequence of [begin] calls and of update,
    finish, abort and destructor calls on the sessions made, in any order and
    with any answers of the backend: the free slots and the sessions that
    hold a slot add up to [capacity]; the counter never leaves the range from
    0 to [capacity]. *)
Theorem slot_accounting E cs w capacity :
  0 ≤ capacity ≤ 255 →
  free_slots w = capacity →
  0 ≤ free_slots (run_facade E cs [] w).2 ≤ capacity
  ∧ free_slots (run_facade E cs [] w).2 + active_sessions (run_facade E cs [] w).1
    = capacity.
Proof.
  intros Hcap Hw.
  assert (Hgen : ∀ l sessions w0,
            0 ≤ free_slots w0 → free_slots w0 + active_sessions sessions = capacity →
            0 ≤ free_slots (run_facade E l sessions w0).2
            ∧ free_slots (run_facade E l sessions w0).2
              + active_sessions (run_facade E l sessions w0).1 = capacity).
  { intros l. induction l as [|c rest IH]; intros sessions w0 Hfree Hsum; simpl.
    - done.
    - unfold mbind, M_bind.
      destruct (run_facade_call E c sessions w0) as [sessions' w'] eqn:Hcall.
      destruct (run_facade_call_accounting _ _ _ _ _ _ _ Hcap Hfree Hsum Hcall).
      by apply IH. }
  destruct (Hgen cs [] w) as [Hfree Hsum]; [lia|simpl; lia|].
  pose proof (active_sessions_nonneg (run_facade E cs [] w).1). lia.
Qed.

(** Two sessions begun and the first aborted on the isolated-hardware facade:
    two free slots and one session holding a slot. *)
Lemma slot_accounting_witness :
  0 ≤ 3 ≤ 255
  ∧ free_slots sample_strongbox_world = 3
  ∧ 0 ≤ free_slots (run_facade sample_externals sample_facade_calls [] sample_strongbox_world).2 ≤ 3
  ∧ free_slots (run_facade sample_externals sample_facade_calls [] sample_strongbox_world).2
    + active_sessions (run_facade sample_externals sample_facade_calls []
                         sample_strongbox_world).1
    = 3.
Proof.
  assert (Hcap : 0 ≤ 3 ≤ 255) by lia.
  split; [exact Hcap|]. split; [reflexivity|].
  exact (slot_accounting sample_externals sample_facade_calls sample_strongbox_world 3
           Hcap eq_refl).
Defined.

(** ** Certificates: attestation and synthesis *)

(** [generateKey] once the backend has made the key and [getCertificate] has
    returned a chain. *)
Lemma generateKey_certificate_chain E kps out w blob kc chain w2 :
  km_generateKey (mDevice (this w)) (calls w) (convertKeyParametersToLegacy E kps)
  = TransportOk (ErrorCode.OK, blob, kc) →
  KeyMintDevice.getCertificate E kps blob
    {| this := this w;
       calls := calls w ++ [Call_generateKey (convertKeyParametersToLegacy E kps)] |}
  = (inl chain, w2) →
  KeyMintDevice.generateKey E kps out w =
  (StatusOk,
   {| keyBlob := blob;
      keyCharacteristics := convertKeyCharacteristicsFromLegacy E (securityLevel_ (this w)) kc;
      certificateChain := chain |},
   w2).
Proof.
  intros Hgen Hcert. unfold KeyMintDevice.generateKey. munfold. simpl.
  rewrite Hgen. simpl. by rewrite Hcert.
Qed.

(** X7.  A new RSA or EC key with an attestation challenge, attested by the
    backend without error: [generateKey] returns ok with the certificates of
    [attestKey], in the order and with the bytes the backend gave, and the
    backend has received the creation and the attestation call and no other
    (no export, no operation, no deletion). *)
Theorem attested_key_gets_backend_chain E kps out w a blob kc certChain :
  getParam kps TAG_ALGORITHM = Some a → a = RSA ∨ a = EC →
  containsParam kps TAG_ATTESTATION_CHALLENGE = true →
  km_generateKey (mDevice (this w)) (calls w) (convertKeyParametersToLegacy E kps)
  = TransportOk (ErrorCode.OK, blob, kc) →
  km_attestKey (mDevice (this w))
    (calls w ++ [Call_generateKey (convertKeyParametersToLegacy E kps)])
    blob (convertKeyParametersToLegacy E kps)
  = TransportOk (ErrorCode.OK, certChain) →
  KeyMintDevice.generateKey E kps out w =
  (StatusOk,
   {| keyBlob := blob;
      keyCharacteristics := convertKeyCharacteristicsFromLegacy E (securityLevel_ (this w)) kc;
      certificateChain := map (λ cert, {| encodedCertificate := cert |}) certChain |},
   {| this := this w;
      calls := calls w ++ [Call_generateKey (convertKeyParametersToLegacy E kps);
                           Call_attestKey blob (convertKeyParametersToLegacy E kps)] |})
  ∧ map encodedCertificate
      (certificateChain (KeyMintDevice.generateKey E kps out w).1.2) = certChain.
Proof.
  intros Ha Hasym Hch Hgen Hatt.
  assert (Hrun : KeyMintDevice.generateKey E kps out w =
    (StatusOk,
     {| keyBlob := blob;
        keyCharacteristics :=
          convertKeyCharacteristicsFromLegacy E (securityLevel_ (this w)) kc;
        certificateChain := map (λ cert, {| encodedCertificate := cert |}) certChain |},
     {| this := this w;
        calls := calls w ++ [Call_generateKey (convertKeyParametersToLegacy E kps);
                             Call_attestKey blob (convertKeyParametersToLegacy E kps)] |})).
  { erewrite generateKey_certificate_chain; [|exact Hgen|].
    - reflexivity.
    - rewrite (getCertificate_attest _ _ _ _ _ Ha Hasym Hch). simpl. rewrite Hatt.
      simpl. by rewrite <- app_assoc. }
  split; [exact Hrun|]. rewrite Hrun. simpl.
  rewrite map_map. simpl. apply map_id.
Qed.

(** An EC key with an attestation challenge on the sample facade: the chain
    is the one certificate of the sample backend. *)
Lemma attested_key_gets_backend_chain_witness :
  getParam [KP_ALGORITHM EC; KP_ATTESTATION_CHALLENGE [x07]] TAG_ALGORITHM = Some EC
  ∧ containsParam [KP_ALGORITHM EC; KP_ATTESTATION_CHALLENGE [x07]]
      TAG_ATTESTATION_CHALLENGE = true
  ∧ map encodedCertificate
      (certificateChain
         (KeyMintDevice.generateKey sample_externals
            [KP_ALGORITHM EC; KP_ATTESTATION_CHALLENGE [x07]] KeyCreationResult_default
            sample_tee_world).1.2)
    = [sample_public_key].
Proof.
  split; [reflexivity|]. split; [reflexivity|].
  exact (proj2 (attested_key_gets_backend_chain sample_externals
                  [KP_ALGORITHM EC; KP_ATTESTATION_CHALLENGE [x07]]
                  KeyCreationResult_default sample_tee_world EC sample_blob
                  sample_characteristics [sample_public_key]
                  eq_refl (or_intror eq_refl) eq_refl eq_refl eq_refl)).
Defined.

(** The body of [getCertificate] for an RSA or EC key without an attestation
    challenge. *)
Lemma getCertificate_synthesis E kps blob w a :
  getParam kps TAG_ALGORITHM = Some a → a = RSA ∨ a = EC →
  containsParam kps TAG_ATTESTATION_CHALLENGE = false →
  KeyMintDevice.getCertificate E kps blob w =
  (makeCert E kps blob
   ≫= λ certOrError,
        match certOrError with
        | inl cert =>
            let '(cert1, error) := keystore_setIssuer E cert cert false in
            match error with
            | Some _ => mret (inr ErrorCode.UNKNOWN_ERROR)
            | None =>
                (if existsb (λ kp, match authorizationValue TAG_PURPOSE kp with
                                   | Some v => bool_decide (v = SIGN)
                                   | None => false
                                   end) kps
                    && containsParam kps TAG_NO_AUTH_REQUIRED
                 then
                   '(cert2, errorCode) ← KeyMintDevice.signCertificate E kps blob cert1;
                   match errorCode with
                   | Some e => mret (inr e)
                   | None => mret (inl (cert2, error))
                   end
                 else mret (inl (keystore_signCert E cert1 (EVP_PKEY_keygen E))))
                ≫= λ signed,
                     match signed with
                     | inl (cert2, Some _) => mret (inr ErrorCode.UNKNOWN_ERROR)
                     | inl (cert2, None) =>
                         mret (KeyMintDevice.getCertificate_encode E cert2)
                     | inr e => mret (inr e)
                     end
            end
        | inr e => mret (inr e)
        end) w.
Proof.
  intros Ha Hasym Hch. unfold KeyMintDevice.getCertificate. rewrite Ha, Hch.
  by destruct Hasym as [-> | ->].
Qed.

(** X8.  A chain that [getCertificate] synthesises (no attestation challenge)
    holds exactly one certificate, whichever way it was signed. *)
Theorem synthesized_chain_has_one_certificate E kps blob w chain w' :
  containsParam kps TAG_ATTESTATION_CHALLENGE = false →
  KeyMintDevice.getCertificate E kps blob w = (inl chain, w') →
  ∃ encoded, chain = [ {| encodedCertificate := encoded |} ].
Proof.
  intros Hch Hcert.
  destruct (getParam kps TAG_ALGORITHM) as [a|] eqn:Ha;
    [|by rewrite (getCertificate_no_algorithm _ _ _ _ Ha) in Hcert].
  destruct (decide (a = RSA ∨ a = EC)) as [Hasym|Hsym].
  - rewrite (getCertificate_synthesis _ _ _ _ _ Ha Hasym Hch) in Hcert. munfold.
    assert (Henc : ∀ cert2 w2,
              (KeyMintDevice.getCertificate_encode E cert2, w2) = (inl chain, w') →
              ∃ encoded, chain = [ {| encodedCertificate := encoded |} ]).
    { intros cert2 w2. unfold KeyMintDevice.getCertificate_encode.
      destruct (keystore_encodeCert E cert2) as [enc|]; intros Heq; inversion Heq.
      by eexists. }
    destruct (makeCert E kps blob w) as [[cert|e] w1]; [|by inversion Hcert].
    destruct (keystore_setIssuer E cert cert false) as [cert1 [err|]];
      [by inversion Hcert|].
    destruct (existsb _ kps && containsParam kps TAG_NO_AUTH_REQUIRED).
    + destruct (KeyMintDevice.signCertificate E kps blob cert1 w1) as [[cert2 [e|]] w2];
        [by inversion Hcert|]. by apply (Henc cert2 w2).
    + destruct (keystore_signCert E cert1 (EVP_PKEY_keygen E)) as [cert2 [err|]];
        [by inversion Hcert|]. by apply (Henc cert2 w1).
  - rewrite (getCertificate_symmetric _ _ _ _ a Ha) in Hcert; [done| |];
      intros ->; apply Hsym; auto.
Qed.

(** The certificate of an EC key on the sample facade is one certificate. *)
Lemma synthesized_chain_has_one_certificate_witness :
  containsParam [KP_ALGORITHM EC] TAG_ATTESTATION_CHALLENGE = false
  ∧ (KeyMintDevice.getCertificate sample_externals [KP_ALGORITHM EC] sample_blob
       sample_tee_world).1 = inl [ {| encodedCertificate := sample_public_key |} ]
  ∧ ∃ encoded,
      [ {| encodedCertificate := sample_public_key |} ]
      = [ {| encodedCertificate := encoded |} ].
Proof.
  split; [reflexivity|]. split; [reflexivity|].
  exact (synthesized_chain_has_one_certificate sample_externals [KP_ALGORITHM EC]
           sample_blob sample_tee_world [ {| encodedCertificate := sample_public_key |} ]
           _ eq_refl eq_refl).
Defined.

(** X9.  A key that cannot sign its own certificate (no SIGN purpose, or no
    NO_AUTH_REQUIRED parameter) gets one signed with a throwaway key:
    whatever the outcome, the one call [getCertificate] makes to the backend
    is [exportKey], and the facade (its slot pool included) is left as it
    was. *)
Theorem throwaway_signing_begins_no_operation E kps blob w a :
  getParam kps TAG_ALGORITHM = Some a → a = RSA ∨ a = EC →
  containsParam kps TAG_ATTESTATION_CHALLENGE = false →
  existsb (λ kp, match authorizationValue TAG_PURPOSE kp with
                 | Some v => bool_decide (v = SIGN)
                 | None => false
                 end) kps
  && containsParam kps TAG_NO_AUTH_REQUIRED = false →
  (KeyMintDevice.getCertificate E kps blob w).2
  = {| this := this w;
       calls := calls w ++
                [Call_exportKey X509_format blob
                   (unwrapBlob (getParam kps TAG_APPLICATION_ID))
                   (unwrapBlob (getParam kps TAG_APPLICATION_DATA))] |}.
Proof.
  intros Ha Hasym Hch Hself.
  rewrite (getCertificate_synthesis _ _ _ _ _ Ha Hasym Hch), Hself.
  unfold makeCert. munfold. simpl.
  destruct (km_exportKey _ _ _ _ _ _) as [[e key]|]; [|done].
  destruct (bool_decide (e ≠ ErrorCode.OK)); [done|].
  destruct (keystore_makeCert _ _ _ _ _ _ _) as [cert|]; [|done].
  destruct (keystore_setIssuer E cert cert false) as [cert1 [err|]]; [done|].
  by destruct (keystore_signCert E cert1 (EVP_PKEY_keygen E)) as [cert2 [err|]].
Qed.

(** An EC key for key agreement only: one export call, nothing else. *)
Lemma throwaway_signing_begins_no_operation_witness :
  getParam [KP_ALGORITHM EC] TAG_ALGORITHM = Some EC
  ∧ containsParam [KP_ALGORITHM EC] TAG_ATTESTATION_CHALLENGE = false
  ∧ (KeyMintDevice.getCertificate sample_externals [KP_ALGORITHM EC] sample_blob
       sample_tee_world).2
    = {| this := this sample_tee_world;
         calls := [Call_exportKey X509_format sample_blob [] []] |}.
Proof.
  split; [reflexivity|]. split; [reflexivity|].
  exact (throwaway_signing_begins_no_operation sample_externals [KP_ALGORITHM EC]
           sample_blob sample_tee_world EC eq_refl (or_intror eq_refl) eq_refl eq_refl).
Defined.

(** ** Reading key parameters *)

(** X10.  [getParam] returns the value of the first parameter that carries the
    tag: it returns [v] exactly when the list splits into parameters without
    the tag, a parameter that carries the tag with value [v], and a rest;
    later parameters with the tag are not looked at.  [containsParam] holds
    exactly when some parameter carries the tag. *)
Theorem getParam_first_match {T} (ttag : TypedTag T) (kps : list KeyParameter) (v : T) :
  (getParam kps ttag = Some v ↔
   ∃ before p after,
     kps = before ++ p :: after
     ∧ Forall (λ q, authorizationValue ttag q = None) before
     ∧ authorizationValue ttag p = Some v)
  ∧ (containsParam kps ttag = true ↔
     ∃ p, p ∈ kps ∧ is_Some (authorizationValue ttag p)).
Proof.
  split.
  - induction kps as [|q kps IH]; simpl.
    + split; [done|]. intros (before & p & after & Heq & _). by destruct before.
    + destruct (authorizationValue ttag q) as [x|] eqn:Hq.
      * split.
        -- intros [= ->]. exists [], q, kps. by repeat split.
        -- intros (before & p & after & Heq & Hnone & Hp).
           destruct before as [|b before]; simpl in Heq; inversion Heq; subst.
           ++ congruence.
           ++ inversion Hnone; subst. congruence.
      * rewrite IH. split.
        -- intros (before & p & after & -> & Hnone & Hp).
           exists (q :: before), p, after. repeat split; [|done]. by constructor.
        -- intros (before & p & after & Heq & Hnone & Hp).
           destruct before as [|b before]; simpl in Heq; inversion Heq; subst.
           ++ congruence.
           ++ inversion Hnone; subst. by exists before, p, after.
  - unfold containsParam. rewrite bool_decide_eq_true.
    induction kps as [|q kps IH]; simpl.
    + split; [by intros [? ?]|]. intros (p & Hin & _). by apply elem_of_nil in Hin.
    + destruct (authorizationValue ttag q) as [x|] eqn:Hq.
      * split; [|by eauto]. intros _. exists q. split; [by left|]. by rewrite Hq.
      * rewrite IH. split.
        -- intros (p & Hin & Hp). exists p. split; [by right|done].
        -- intros (p & Hin & Hp). apply elem_of_cons in Hin as [->|Hin].
           ++ rewrite Hq in Hp. by destruct Hp.
           ++ by exists p.
Qed.

(** ** Discovery: order, failure and fallback *)

Lemma first_of_level_cons d ds l :
  first_of_level (d :: ds) l
  = if decide (halVersion_securityLevel d = l) then Some d else first_of_level ds l.
Proof.
  unfold first_of_level. rewrite filter_cons.
  by destruct (decide (halVersion_securityLevel d = l)).
Qed.

Lemma first_of_level_app ds1 ds2 l :
  first_of_level (ds1 ++ ds2) l
  = match first_of_level ds1 l with
    | Some x => Some x
    | None => first_of_level ds2 l
    end.
Proof.
  induction ds1 as [|d ds1 IH]; simpl; [done|].
  rewrite !first_of_level_cons. by destruct (decide (halVersion_securityLevel d = l)).
Qed.

(** One probe that finds an instance: the slot of its level takes it when
    it is empty, and nothing else changes. *)
Lemma try_get_device_exact sm W name fs (result result' : KeymasterDevices) d :
  getService sm W name = Some d →
  try_get_device sm W name fs result = Some result' →
  0 ≤ halVersion_securityLevel d < Z.of_nat (length result)
  ∧ length result' = length result
  ∧ ∀ l : nat,
      result' !! l
      = if decide (halVersion_securityLevel d = Z.of_nat l)
        then match result !! l with
             | Some (Some x) => Some (Some x)
             | _ => Some (Some d)
             end
        else result !! l.
Proof.
  intros Hget. unfold try_get_device. rewrite Hget.
  case_bool_decide as Hlvl; [|done]. unfold Devices_at.
  rewrite bool_decide_eq_true_2 by lia.
  destruct (result !! Z.to_nat (halVersion_securityLevel d)) as [[x|]|] eqn:Hslot; simpl;
    [| |done]; intros [= <-]; (split; [done|]).
  - split; [done|]. intros l. case_decide as Hl; [|done].
    replace l with (Z.to_nat (halVersion_securityLevel d)) by lia. by rewrite Hslot.
  - unfold Devices_set. split; [by rewrite length_insert|]. intros l.
    case_decide as Hl.
    + replace l with (Z.to_nat (halVersion_securityLevel d)) by lia.
      rewrite Hslot. apply list_lookup_insert_eq. lia.
    + apply list_lookup_insert_ne. lia.
Qed.

(** The loop over the listed names fills every empty slot with the first
    listed instance of its level. *)
Lemma enumerate_names_first sm W names : ∀ (result result' : KeymasterDevices) hd hd',
  enumerate_names sm W names result hd = Some (result', hd') →
  length result' = length result
  ∧ ∀ l : nat, (l < length result)%nat →
      result' !! l
      = Some (match result !! l with
              | Some (Some x) => Some x
              | _ => first_of_level (omap (getService sm W) names) (Z.of_nat l)
              end).
Proof.
  induction names as [|n names IH]; intros result result' hd hd'; simpl.
  - intros [= <- <-]. split; [done|]. intros l Hl.
    destruct (lookup_lt_is_Some_2 result l Hl) as [[x|] Hx]; by rewrite Hx.
  - destruct (try_get_device sm W n false result) as [result1|] eqn:Htry; [|done]. simpl.
    intros Hrest.
    destruct (getService sm W n) as [d|] eqn:Hget;
      [|by unfold try_get_device in Htry; rewrite Hget in Htry].
    destruct (try_get_device_exact _ _ _ _ _ _ _ Hget Htry) as (Hlvl & Hlen1 & Hstep).
    destruct (IH _ _ _ _ Hrest) as (Hlen & Hfirst).
    split; [congruence|]. intros l Hl.
    rewrite Hfirst by lia. rewrite Hstep. rewrite first_of_level_cons.
    destruct (lookup_lt_is_Some_2 result l Hl) as [[x|] Hx]; rewrite Hx;
      by destruct (decide (halVersion_securityLevel d = Z.of_nat l)).
Qed.

(** X11.  First seen wins.  When an enumeration completes, each slot of its table
    holds the first instance of the slot's level among the instances of the
    probed names, in listing order with "default" last when it is not
    listed; an instance that comes later with the same level is masked. *)
Theorem enumeration_keeps_first_seen W sm names (r : KeymasterDevices) :
  listManifestByInterface sm W = TransportOk names →
  enumerateKeymasterDevices W sm = Some r →
  r = [ first_of_level (omap (getService sm W) (probed_names names)) 0;
        first_of_level (omap (getService sm W) (probed_names names)) 1;
        first_of_level (omap (getService sm W) (probed_names names)) 2 ].
Proof.
  intros Hlist Henum. unfold enumerateKeymasterDevices in Henum. rewrite Hlist in Henum.
  destruct (enumerate_names sm W names KeymasterDevices_new false) as [[r1 hd]|] eqn:Hnames;
    [|done].
  simpl in Henum.
  destruct (enumerate_names_first _ _ _ _ _ _ _ Hnames) as (Hlen1 & Hfirst1).
  destruct (enumerate_names_inv _ _ _ _ _ _ _ Hnames) as (_ & _ & _ & _ & Hdef).
  assert (Hslots : ∀ l : nat, (l < 3)%nat →
            r !! l = Some (first_of_level (omap (getService sm W) (probed_names names))
                             (Z.of_nat l)) ∧ length r = 3%nat).
  { intros l Hl. unfold probed_names.
    destruct (bool_decide ("default" ∈ names)); subst hd; simpl in Henum.
    - inversion Henum; subst. rewrite app_nil_r. split; [|done].
      rewrite Hfirst1 by (simpl; lia).
      destruct l as [|[|[|l]]]; [done|done|done|lia].
    - rewrite omap_app, first_of_level_app. simpl.
      destruct (getService sm W "default") as [d|] eqn:Hget.
      + destruct (try_get_device_exact _ _ _ _ _ _ _ Hget Henum) as (Hlvl & Hlen & Hstep).
        split; [|by rewrite Hlen, Hlen1].
        rewrite Hstep, Hfirst1 by (simpl; lia). rewrite first_of_level_cons.
        assert (Hnew : KeymasterDevices_new !! l = Some None)
          by (destruct l as [|[|[|l]]]; [done|done|done|lia]).
        rewrite Hnew.
        destruct (first_of_level (omap (getService sm W) names) (Z.of_nat l));
          by destruct (decide (halVersion_securityLevel d = Z.of_nat l)).
      + unfold try_get_device in Henum. rewrite Hget in Henum. inversion Henum; subst.
        split; [|done]. rewrite Hfirst1 by (simpl; lia).
        assert (Hnew : KeymasterDevices_new !! l = Some None)
          by (destruct l as [|[|[|l]]]; [done|done|done|lia]).
        rewrite Hnew.
        by destruct (first_of_level (omap (getService sm W) names) (Z.of_nat l)). }
  destruct (Hslots 0%nat ltac:(lia)) as [H0 Hlen].
  destruct (Hslots 1%nat ltac:(lia)) as [H1 _].
  destruct (Hslots 2%nat ltac:(lia)) as [H2 _].
  destruct r as [|a [|b [|c [|? ?]]]]; try done.
  simpl in H0, H1, H2. by inversion H0; inversion H1; inversion H2; subst.
Qed.

(** Of two listed trusted-execution instances the first is kept. *)
Lemma enumeration_keeps_first_seen_witness :
  listManifestByInterface sample_duplicate_tee Keymaster4 = TransportOk ["first"; "second"]
  ∧ enumerateKeymasterDevices Keymaster4 sample_duplicate_tee
    = Some [None; Some sample_first_tee; None]
  ∧ [None; Some sample_first_tee; None]
    = [ first_of_level
          (omap (getService sample_duplicate_tee Keymaster4)
             (probed_names ["first"; "second"])) 0;
        first_of_level
          (omap (getService sample_duplicate_tee Keymaster4)
             (probed_names ["first"; "second"])) 1;
        first_of_level
          (omap (getService sample_duplicate_tee Keymaster4)
             (probed_names ["first"; "second"])) 2 ].
Proof.
  split; [reflexivity|]. split; [reflexivity|].
  exact (enumeration_keeps_first_seen Keymaster4 sample_duplicate_tee ["first"; "second"]
           [None; Some sample_first_tee; None] eq_refl eq_refl).
Defined.

(** A probe completes unless it hits a failed [CHECK]. *)
Lemma try_get_device_completes sm W name fs (result : KeymasterDevices) :
  length result = 3%nat →
  is_Some (try_get_device sm W name fs result)
  ↔ match getService sm W name with
    | None => fs = true
    | Some d => 0 ≤ halVersion_securityLevel d < 3
    end.
Proof.
  intros Hlen. unfold try_get_device.
  destruct (getService sm W name) as [d|].
  - rewrite Hlen. case_bool_decide as Hlvl.
    + unfold Devices_at. rewrite bool_decide_eq_true_2 by lia.
      assert (Hlt : (Z.to_nat (halVersion_securityLevel d) < length result)%nat) by lia.
      destruct (lookup_lt_is_Some_2 result _ Hlt) as [[x|] Hx]; rewrite Hx; simpl.
      * split; [intros _; lia|by eauto].
      * split; [intros _; lia|by eauto].
    + split; [by intros [? ?]|]. intros H. by destruct Hlvl.
  - destruct fs.
    + split; [done|by eauto].
    + split; [by intros [? ?]|done].
Qed.

Lemma enumerate_names_completes sm W names : ∀ (result : KeymasterDevices) hd,
  length result = 3%nat →
  is_Some (enumerate_names sm W names result hd)
  ↔ Forall (λ name, ∃ d, getService sm W name = Some d
                         ∧ 0 ≤ halVersion_securityLevel d < 3) names.
Proof.
  induction names as [|n names IH]; intros result hd Hlen; simpl.
  - split; [by constructor|by eauto].
  - pose proof (try_get_device_completes sm W n false result Hlen) as Htry.
    destruct (try_get_device sm W n false result) as [result1|] eqn:Hres; simpl.
    + assert (Hlen1 : length result1 = 3%nat).
      { destruct (try_get_device_inv _ _ _ _ _ _ Hres) as (Hl & _). congruence. }
      rewrite (IH _ _ Hlen1).
      assert (Hn : ∃ d, getService sm W n = Some d ∧ 0 ≤ halVersion_securityLevel d < 3).
      { destruct (getService sm W n) as [d|].
        - exists d. split; [done|]. apply Htry. by eauto.
        - assert (false = true) by (apply Htry; by eauto). done. }
      split; [by constructor|]. by inversion 1.
    + split; [by intros [? ?]|]. inversion 1 as [|? ? (d & Hget & Hlvl) ?]; subst.
      rewrite Hget in Htry. apply Htry in Hlvl. by destruct Hlvl.
Qed.

(** X12.  What ends a discovery.  An enumeration completes exactly when the
    listing is delivered, every listed name has a service whose security
    level is one of the three levels, and the service "default", when it is
    not listed and exists, has such a level too.  A listing that cannot be
    delivered is fatal (the failed [Return] is never checked), and so is a
    listed name without a service; a missing "default" service is not.
    [initializeKeymasters] in turn has no result without a service manager,
    nor when the Keymaster 4 listing cannot be delivered. *)
Theorem enumeration_completes_iff W sm :
  (is_Some (enumerateKeymasterDevices W sm)
   ↔ ∃ names,
       listManifestByInterface sm W = TransportOk names
       ∧ Forall (λ name, ∃ d, getService sm W name = Some d
                              ∧ 0 ≤ halVersion_securityLevel d < 3) names
       ∧ ("default" ∉ names →
          ∀ d, getService sm W "default" = Some d → 0 ≤ halVersion_securityLevel d < 3))
  ∧ (listManifestByInterface sm W = TransportError → enumerateKeymasterDevices W sm = None)
  ∧ initializeKeymasters None = None
  ∧ (listManifestByInterface sm Keymaster4 = TransportError →
     initializeKeymasters (Some sm) = None).
Proof.
  split; [|split; [|split]].
  - unfold enumerateKeymasterDevices.
    destruct (listManifestByInterface sm W) as [names|];
      [|split; [by intros [? ?]|by intros (? & ? & _)]].
    pose proof (enumerate_names_completes sm W names KeymasterDevices_new false eq_refl)
      as Hnames.
    assert (Hex : ∀ P : list string → Prop,
              (∃ names', @TransportOk (list string) names = TransportOk names' ∧ P names')
              ↔ P names).
    { intros P. split; [by intros (? & [= <-] & ?)|by eauto]. }
    rewrite Hex. clear Hex.
    destruct (enumerate_names sm W names KeymasterDevices_new false) as [[r1 hd]|] eqn:Hrun;
      simpl.
    + destruct (enumerate_names_inv _ _ _ _ _ _ _ Hrun) as (Hlen & _ & _ & _ & Hdef).
      assert (Hall : Forall (λ name, ∃ d, getService sm W name = Some d
                                          ∧ 0 ≤ halVersion_securityLevel d < 3) names)
        by (apply Hnames; eauto).
      pose proof (try_get_device_completes sm W "default" true r1 Hlen) as Htry.
      destruct (decide ("default" ∈ names)) as [Hin|Hnin].
      * rewrite bool_decide_eq_true_2 in Hdef by done. subst hd. simpl.
        split; [|by eauto]. intros _. split; [done|]. by intros Hnin.
      * rewrite bool_decide_eq_false_2 in Hdef by done. subst hd. simpl.
        rewrite Htry. split.
        -- intros Hd. split; [done|]. intros _ d Hget. by rewrite Hget in Hd.
        -- intros [_ Hd]. destruct (getService sm W "default") as [d|]; [by apply Hd|done].
    + split; [by intros [? ?]|]. intros [Hall _]. apply Hnames in Hall. by destruct Hall.
  - intros Hlist. unfold enumerateKeymasterDevices. by rewrite Hlist.
  - reflexivity.
  - intros Hlist. unfold initializeKeymasters, enumerateKeymasterDevices. simpl.
    by rewrite Hlist.
Qed.

(** A listing that cannot be delivered ends the discovery; the software-only
    device, whose one listed name has a service and which has no "default"
    service, completes. *)
Lemma enumeration_completes_iff_witness :
  listManifestByInterface sample_unreachable_listing Keymaster4 = TransportError
  ∧ enumerateKeymasterDevices Keymaster4 sample_unreachable_listing = None
  ∧ initializeKeymasters (Some sample_unreachable_listing) = None
  ∧ is_Some (enumerateKeymasterDevices Keymaster4 sample_software_only).
Proof.
  destruct (enumeration_completes_iff Keymaster4 sample_unreachable_listing)
    as (_ & Hlisting & _ & Hinit).
  destruct (enumeration_completes_iff Keymaster4 sample_software_only) as ([_ Hcompletes] & _).
  split; [reflexivity|]. split; [exact (Hlisting eq_refl)|]. split; [exact (Hinit eq_refl)|].
  apply Hcompletes. exists ["soft"]. split; [reflexivity|]. split.
  - constructor; [|constructor].
    exists (sample_backend SecurityLevel.SOFTWARE). split; [reflexivity|].
    change (halVersion_securityLevel (sample_backend SecurityLevel.SOFTWARE)) with 0. lia.
  - intros _ d Hget. discriminate Hget.
Defined.

(** X13.  No fallback when it is not needed.  When the Keymaster 4 enumeration
    finds a trusted-execution instance, [initializeKeymasters] returns the
    table of that enumeration as it is: the Keymaster 3 services are not
    consulted (whatever they would answer), and a software instance stays in
    the SOFTWARE slot. *)
Theorem keymaster4_tee_ends_discovery sm (r4 : KeymasterDevices) tee :
  enumerateKeymasterDevices Keymaster4 sm = Some r4 →
  Devices_at r4 SecurityLevel.TRUSTED_ENVIRONMENT = Some (Some tee) →
  initializeKeymasters (Some sm) = Some r4.
Proof.
  intros H4 Htee. unfold initializeKeymasters. simpl. rewrite H4. simpl.
  destruct (enumerateKeymasterDevices_inv _ _ _ H4) as (Hlen4 & _ & _).
  destruct r4 as [|s4 [|t4 [|b4 [|? ?]]]]; try done.
  cbn in Htee. inversion Htee; subst. by destruct s4.
Qed.

(** On the device with two trusted-execution instances the table is the
    Keymaster 4 table. *)
Lemma keymaster4_tee_ends_discovery_witness :
  enumerateKeymasterDevices Keymaster4 sample_duplicate_tee
  = Some [None; Some sample_first_tee; None]
  ∧ Devices_at [None; Some sample_first_tee; None] SecurityLevel.TRUSTED_ENVIRONMENT
    = Some (Some sample_first_tee)
  ∧ initializeKeymasters (Some sample_duplicate_tee)
    = Some [None; Some sample_first_tee; None].
Proof.
  split; [reflexivity|]. split; [reflexivity|].
  exact (keymaster4_tee_ends_discovery sample_duplicate_tee
           [None; Some sample_first_tee; None] sample_first_tee eq_refl eq_refl).
Defined.

(** X14.  The table of a completed discovery.  It has three slots; every occupant
    is a discovered instance, of the level of its slot or, in the
    TRUSTED_ENVIRONMENT slot, of level SOFTWARE; and the SOFTWARE slot is
    occupied only if the TRUSTED_ENVIRONMENT slot is: software is never
    offered beside an empty trusted-execution slot. *)
Theorem discovery_table_invariant sm (result : KeymasterDevices) :
  initializeKeymasters (Some sm) = Some result →
  length result = 3%nat
  ∧ (∀ (l : nat) x, result !! l = Some (Some x) →
       (∃ W, discovered sm W x)
       ∧ (halVersion_securityLevel x = Z.of_nat l
          ∨ (l = 1%nat ∧ halVersion_securityLevel x = SecurityLevel.SOFTWARE)))
  ∧ (∀ soft, result !! 0%nat = Some (Some soft) →
             ∃ tee, result !! 1%nat = Some (Some tee)).
Proof.
  intros Hinit. unfold initializeKeymasters in Hinit. simpl in Hinit.
  destruct (enumerateKeymasterDevices Keymaster4 sm) as [r4|] eqn:H4; [|done].
  simpl in Hinit.
  destruct (enumerateKeymasterDevices_inv _ _ _ H4) as (Hlen4 & Hocc4 & _).
  destruct r4 as [|s4 [|t4 [|b4 [|? ?]]]]; try done.
  assert (Hfrom4 : ∀ (l : nat) x, [s4; t4; b4] !! l = Some (Some x) →
            (∃ W, discovered sm W x)
            ∧ (halVersion_securityLevel x = Z.of_nat l
               ∨ (l = 1%nat ∧ halVersion_securityLevel x = SecurityLevel.SOFTWARE))).
  { intros l x Hl. destruct (Hocc4 l x Hl). split; [by eexists|by left]. }
  destruct t4 as [x4|].
  - assert (result = [s4; Some x4; b4]) as ->.
    { destruct s4; cbn in Hinit; by inversion Hinit. }
    split; [done|]. split; [done|]. intros soft _. by exists x4.
  - cbn in Hinit.
    destruct (enumerateKeymasterDevices Keymaster3 sm) as [r3|] eqn:H3; [|done].
    destruct (enumerateKeymasterDevices_inv _ _ _ H3) as (Hlen3 & Hocc3 & _).
    destruct r3 as [|s3 [|t3 [|b3 [|? ?]]]]; try done.
    assert (Hfrom3 : ∀ (l : nat) x, [s3; t3; b3] !! l = Some (Some x) →
              (∃ W, discovered sm W x)
              ∧ (halVersion_securityLevel x = Z.of_nat l
                 ∨ (l = 1%nat ∧ halVersion_securityLevel x = SecurityLevel.SOFTWARE))).
    { intros l x Hl. destruct (Hocc3 l x Hl). split; [by eexists|by left]. }
    assert (Hsoft : ∀ x, s4 = Some x ∨ s3 = Some x →
              (∃ W, discovered sm W x)
              ∧ halVersion_securityLevel x = SecurityLevel.SOFTWARE).
    { intros x [-> | ->].
      - destruct (Hocc4 0%nat x eq_refl). split; [by eexists|done].
      - destruct (Hocc3 0%nat x eq_refl). split; [by eexists|done]. }
    destruct s4 as [x4|], s3 as [x3|], t3 as [y3|]; cbn in Hinit;
      inversion Hinit; subst; clear Hinit;
      (split; [done|]); (split; [|by intros soft Hs; inversion Hs; eauto]);
      intros [|[|[|l]]] x Hl; simpl in Hl; inversion Hl; subst;
      try (by apply (Hfrom3 2%nat)); try (by apply (Hfrom3 1%nat));
      try (by apply (Hfrom3 0%nat));
      try (destruct (Hsoft x) as [Hd Hlv]; [by auto|]; split; [done|]; by auto).
Qed.

(** A software-only device: the table has three slots and the software
    instance sits in the TRUSTED_ENVIRONMENT slot alone. *)
Lemma discovery_table_invariant_witness :
  initializeKeymasters (Some sample_software_only)
  = Some [None; Some (sample_backend SecurityLevel.SOFTWARE); None]
  ∧ length [None; Some (sample_backend SecurityLevel.SOFTWARE); None] = 3%nat
  ∧ (∀ soft,
       [None; Some (sample_backend SecurityLevel.SOFTWARE); None] !! 0%nat
       = Some (Some soft) →
       ∃ tee, [None; Some (sample_backend SecurityLevel.SOFTWARE); None] !! 1%nat
              = Some (Some tee)).
Proof.
  split; [reflexivity|].
  pose proof (discovery_table_invariant sample_software_only
                [None; Some (sample_backend SecurityLevel.SOFTWARE); None] eq_refl)
    as (Hlen & _ & Hsoft).
  split; [exact Hlen | exact Hsoft].
Defined.

(** ** The facade cache *)

(** X15.  A facade that was handed out for a level is handed out for that level
    again, with status ok, without any discovery: the answer is the same
    under any service manager, also without one, and the state of the
    service no longer changes. *)
Theorem cached_facade_is_returned sm sm' l st status d st' :
  getKeyMintDevice sm l st = Some (status, Some d, st') →
  getKeyMintDevice sm' l st' = Some (StatusOk, Some d, st').
Proof.
  unfold getKeyMintDevice.
  destruct (mDeviceCache st !! l) as [d0|] eqn:Hhit.
  - intros [= <- <- <-]. by rewrite Hhit.
  - destruct (createKeyMintDevice sm l (device_ptr st)) as [[[made|] ptr]|]; simpl; [| |done].
    + intros [= <- <- <-]. simpl. by rewrite lookup_insert_eq.
    + intros [=].
Qed.

(** The trusted-execution facade is served from the cache when no service
    manager can be reached any more. *)
Lemma cached_facade_is_returned_witness :
  getKeyMintDevice (Some sample_two_tiers) SecurityLevel.TRUSTED_ENVIRONMENT
    CompatService_new
  = Some (StatusOk, Some sample_tee_facade, sample_after_tee_request)
  ∧ getKeyMintDevice None SecurityLevel.TRUSTED_ENVIRONMENT sample_after_tee_request
    = Some (StatusOk, Some sample_tee_facade, sample_after_tee_request).
Proof.
  split; [reflexivity|].
  exact (cached_facade_is_returned (Some sample_two_tiers) None
           SecurityLevel.TRUSTED_ENVIRONMENT CompatService_new StatusOk sample_tee_facade
           sample_after_tee_request eq_refl).
Defined.

(** X16.  A request that finds no backend.  When [getKeyMintDevice] hands out no
    facade, its status is STATUS_NAME_NOT_FOUND and nothing is remembered:
    the cache and [device_ptr] are as before (the level was not cached and no
    facade had been made), so the next request runs the discovery again. *)
Theorem missing_backend_is_not_cached sm l st status st' :
  getKeyMintDevice sm l st = Some (status, None, st') →
  status = fromStatus STATUS_NAME_NOT_FOUND
  ∧ st' = st
  ∧ device_ptr st = None
  ∧ mDeviceCache st !! l = None
  ∧ (initializeKeymasters sm ≫= λ devices, Devices_at devices l) = Some None.
Proof.
  unfold getKeyMintDevice, createKeyMintDevice. destruct st as [ptr cache]. simpl.
  destruct (cache !! l) as [d0|]; [by intros [=]|].
  destruct ptr as [d0|]; simpl; [by intros [=]|].
  destruct (initializeKeymasters sm) as [devices|]; simpl; [|done].
  destruct (Devices_at devices l) as [[device|]|]; simpl; [by intros [=]| |done].
  by intros [= <- <-].
Qed.

(** A device without isolated hardware: the STRONGBOX request fails and
    leaves the fresh service fresh. *)
Lemma missing_backend_is_not_cached_witness :
  getKeyMintDevice (Some sample_software_only) SecurityLevel.STRONGBOX CompatService_new
  = Some (fromStatus STATUS_NAME_NOT_FOUND, None, CompatService_new)
  ∧ fromStatus STATUS_NAME_NOT_FOUND = fromStatus STATUS_NAME_NOT_FOUND.
Proof.
  split; [reflexivity|].
  exact (proj1 (missing_backend_is_not_cached (Some sample_software_only)
                  SecurityLevel.STRONGBOX CompatService_new _ _ eq_refl)).
Defined.

(** One request keeps the cache within [device_ptr]. *)
Lemma getKeyMintDevice_step sm l st status handed st' :
  getKeyMintDevice sm l st = Some (status, handed, st') →
  (∀ k d, mDeviceCache st !! k = Some d → device_ptr st = Some d) →
  (∀ k d, mDeviceCache st' !! k = Some d → device_ptr st' = Some d)
  ∧ (∀ d, handed = Some d → device_ptr st' = Some d)
  ∧ (∀ d, device_ptr st = Some d → device_ptr st' = Some d).
Proof.
  unfold getKeyMintDevice, createKeyMintDevice. destruct st as [ptr cache]. simpl.
  intros Hrun Hinv.
  destruct (cache !! l) as [d0|] eqn:Hhit.
  - inversion Hrun; subst. simpl. split; [done|]. split; [|done].
    intros d [= <-]. by apply (Hinv l).
  - destruct ptr as [d0|]; simpl in Hrun.
    + inversion Hrun; subst. simpl. split; [|by split; [intros d [= <-]|]].
      intros k d Hk. destruct (decide (l = k)) as [->|Hne].
      * rewrite lookup_insert_eq in Hk. congruence.
      * rewrite lookup_insert_ne in Hk by done. by apply (Hinv k).
    + destruct (initializeKeymasters sm) as [devices|]; simpl in Hrun; [|done].
      destruct (Devices_at devices l) as [[device|]|]; simpl in Hrun; [| |done].
      * inversion Hrun; subst. simpl. split; [|by split; [intros d [= <-]|]].
        intros k d Hk. destruct (decide (l = k)) as [->|Hne].
        -- rewrite lookup_insert_eq in Hk. congruence.
        -- rewrite lookup_insert_ne in Hk by done. by pose proof (Hinv k d Hk).
      * inversion Hrun; subst. simpl. split; [done|]. by split.
Qed.

(** X17.  One facade per process.  Over any sequence of requests to a fresh
    service, for any levels: every facade handed out is the facade
    [device_ptr] holds at the end, hence any two requests that are served
    get the same facade, whatever levels they name; and every entry of the
    cache is that facade. *)
Theorem service_hands_out_one_facade sm levels handed st :
  run_requests sm levels CompatService_new = Some (handed, st) →
  (∀ d, Some d ∈ handed → device_ptr st = Some d)
  ∧ (∀ d1 d2, Some d1 ∈ handed → Some d2 ∈ handed → d1 = d2)
  ∧ (∀ k d, mDeviceCache st !! k = Some d → device_ptr st = Some d).
Proof.
  intros Hrun.
  assert (Hgen : ∀ ls st0 hs st1,
            run_requests sm ls st0 = Some (hs, st1) →
            (∀ k d, mDeviceCache st0 !! k = Some d → device_ptr st0 = Some d) →
            (∀ d, Some d ∈ hs → device_ptr st1 = Some d)
            ∧ (∀ k d, mDeviceCache st1 !! k = Some d → device_ptr st1 = Some d)
            ∧ (∀ d, device_ptr st0 = Some d → device_ptr st1 = Some d)).
  { intros ls. induction ls as [|l ls IH]; intros st0 hs st1; simpl.
    - intros [= <- <-] Hinv. split; [|done]. intros d Hin. by apply elem_of_nil in Hin.
    - destruct (getKeyMintDevice sm l st0) as [[[status h] st2]|] eqn:Hreq; [|done].
      simpl. destruct (run_requests sm ls st2) as [[hs2 st3]|] eqn:Hrest; [|done].
      simpl. intros [= <- <-] Hinv.
      destruct (getKeyMintDevice_step _ _ _ _ _ _ Hreq Hinv) as (Hinv2 & Hh & Hmono).
      destruct (IH _ _ _ Hrest Hinv2) as (Hhs & Hinv3 & Hmono2).
      split; [|split; [done|by auto]].
      intros d Hin. apply elem_of_cons in Hin as [Heq|Hin]; [|by apply Hhs].
      apply Hmono2, Hh. by symmetry. }
  destruct (Hgen _ _ _ _ Hrun) as (Hall & Hinv & _).
  { intros k d Hk. simpl in Hk. by rewrite lookup_empty in Hk. }
  split; [done|]. split; [|done].
  intros d1 d2 H1 H2. apply Hall in H1, H2. congruence.
Qed.

(** Three requests on the device with two tiers: all are served with the
    facade of the first. *)
Lemma service_hands_out_one_facade_witness :
  run_requests (Some sample_two_tiers)
    [SecurityLevel.TRUSTED_ENVIRONMENT; SecurityLevel.STRONGBOX;
     SecurityLevel.TRUSTED_ENVIRONMENT] CompatService_new
  = Some ([Some sample_tee_facade; Some sample_tee_facade; Some sample_tee_facade],
          {| device_ptr := Some sample_tee_facade;
             mDeviceCache :=
               <[SecurityLevel.STRONGBOX := sample_tee_facade]>
                 (mDeviceCache sample_after_tee_request) |})
  ∧ ∀ d, Some d ∈ [Some sample_tee_facade; Some sample_tee_facade; Some sample_tee_facade] →
         Some sample_tee_facade = Some d.
Proof.
  assert (Hrun : run_requests (Some sample_two_tiers)
                   [SecurityLevel.TRUSTED_ENVIRONMENT; SecurityLevel.STRONGBOX;
                    SecurityLevel.TRUSTED_ENVIRONMENT] CompatService_new
                 = Some ([Some sample_tee_facade; Some sample_tee_facade;
                          Some sample_tee_facade],
                         {| device_ptr := Some sample_tee_facade;
                            mDeviceCache :=
                              <[SecurityLevel.STRONGBOX := sample_tee_facade]>
                                (mDeviceCache sample_after_tee_request) |}))
    by reflexivity.
  split; [exact Hrun|].
  exact (proj1 (service_hands_out_one_facade _ _ _ _ Hrun)).
Defined.

(** ** Key characteristics *)

(** Whenever the backend answers [generateKey], the result carries the key
    blob of the backend and one set of characteristics: the security level
    the facade has learnt, and the hardware-enforced parameters of the
    backend, converted one by one in order; the software-enforced ones are
    not reported.  This holds for every outcome of the call. *)
Lemma generateKey_characteristics E kps out w e blob kc :
  km_generateKey (mDevice (this w)) (calls w) (convertKeyParametersToLegacy E kps)
  = TransportOk (e, blob, kc) →
  keyBlob (KeyMintDevice.generateKey E kps out w).1.2 = blob
  ∧ keyCharacteristics (KeyMintDevice.generateKey E kps out w).1.2
    = [ {| kc_securityLevel := securityLevel_ (this w);
           kc_authorizations := map (convertKeyParameterFromLegacy E) (hardwareEnforced kc) |} ].
Proof.
  intros Hgen. unfold KeyMintDevice.generateKey. munfold. simpl. rewrite Hgen. simpl.
  destruct (bool_decide (e = ErrorCode.OK)); [|done].
  destruct (KeyMintDevice.getCertificate E kps blob _) as [[chain|code] w2]; [done|].
  destruct (bool_decide (code ≠ ErrorCode.OK)); [|done].
  by destruct (KeyMintDevice.deleteKey blob w2).
Qed.

(** X18.  The security level on the characteristics of a new key is the one the
    backend reported to the last [getHardwareInfo]: after a
    [getHardwareInfo] that the backend answered with a level, every answered
    [generateKey] reports that level (as the [int32_t] this interface holds
    it in), and with it the hardware-enforced parameters only. *)
Theorem characteristics_carry_reported_level E hi kps out w level name author e blob kc :
  km_getHardwareInfo (mDevice (this w)) (calls w) = TransportOk (level, name, author) →
  km_generateKey (mDevice (this w)) (calls w ++ [Call_getHardwareInfo])
    (convertKeyParametersToLegacy E kps) = TransportOk (e, blob, kc) →
  (KeyMintDevice.getHardwareInfo hi w).1
  = (StatusOk, {| hi_securityLevel := Some (to_int32 level); keyMintName := name;
                  keyMintAuthorName := author |})
  ∧ keyCharacteristics
      (KeyMintDevice.generateKey E kps out (KeyMintDevice.getHardwareInfo hi w).2).1.2
    = [ {| kc_securityLevel := Some (to_int32 level);
           kc_authorizations := map (convertKeyParameterFromLegacy E) (hardwareEnforced kc) |} ].
Proof.
  intros Hinfo Hgen.
  assert (Hrun : KeyMintDevice.getHardwareInfo hi w
                 = (StatusOk,
                    {| hi_securityLevel := Some (to_int32 level); keyMintName := name;
                       keyMintAuthorName := author |},
                    {| this := {| mDevice := mDevice (this w);
                                  mOperationSlots := mOperationSlots (this w);
                                  securityLevel_ := Some (to_int32 level) |};
                       calls := calls w ++ [Call_getHardwareInfo] |})).
  { unfold KeyMintDevice.getHardwareInfo. munfold. simpl. by rewrite Hinfo. }
  rewrite Hrun. split; [done|]. simpl.
  by destruct (generateKey_characteristics E kps out
                 {| this := {| mDevice := mDevice (this w);
                               mOperationSlots := mOperationSlots (this w);
                               securityLevel_ := Some (to_int32 level) |};
                    calls := calls w ++ [Call_getHardwareInfo] |} e blob kc Hgen).
Qed.

(** On the sample trusted-execution facade the level 1 is reported. *)
Lemma characteristics_carry_reported_level_witness :
  km_getHardwareInfo (mDevice (this sample_tee_world)) (calls sample_tee_world)
  = TransportOk (SecurityLevel.TRUSTED_ENVIRONMENT, "sample", "sample")
  ∧ keyCharacteristics
      (KeyMintDevice.generateKey sample_externals [KP_ALGORITHM AES] KeyCreationResult_default
         (KeyMintDevice.getHardwareInfo
            {| hi_securityLevel := None; keyMintName := ""; keyMintAuthorName := "" |}
            sample_tee_world).2).1.2
    = [ {| kc_securityLevel := Some SecurityLevel.TRUSTED_ENVIRONMENT;
           kc_authorizations := [] |} ].
Proof.
  split; [reflexivity|].
  exact (proj2 (characteristics_carry_reported_level sample_externals
                  {| hi_securityLevel := None; keyMintName := ""; keyMintAuthorName := "" |}
                  [KP_ALGORITHM AES] KeyCreationResult_default sample_tee_world
                  SecurityLevel.TRUSTED_ENVIRONMENT "sample" "sample" ErrorCode.OK
                  sample_blob sample_characteristics eq_refl eq_refl)).
Defined.
